(** * wsgi_intercept: a shallow embedding of [wsgi_intercept/__init__.py]

    The development follows the source file top to bottom:

    - [Py]        the Python values, exceptions and builtins the module uses
                  (Python 3 semantics: [bytes] and [str] are distinct types);
    - [Registry]  the module-level dictionary [_wsgi_intercept] with
                  [add_wsgi_intercept] and [remove_wsgi_intercept];
    - [Environ]   [make_environ], the request decoder;
    - [FakeSocket] the class [wsgi_fake_socket] ([sendall], [makefile]);
    - [Connection] [WSGI_HTTPConnection.get_app] and [connect].

    Text ([str]) is modelled by [string], whose characters are the code
    points 0..255; [bytes] is [list byte]. *)

From Stdlib Require Import ZArith NArith Ascii String List Lia.
From Stdlib Require Import Strings.Byte.
From stdpp Require Import base option countable gmap strings list.

Import ListNotations.
Local Open Scope string_scope.
Local Open Scope list_scope.
Local Open Scope Z_scope.

(* ===================================================================== *)
(** * Python values and builtins *)
(* ===================================================================== *)

Module Py.

Abbreviation str := string.
Abbreviation bytes := (list byte).

#[global] Instance byte_eq_dec : EqDecision byte := Byte.byte_eq_dec.
#[global] Instance byte_countable : Countable byte :=
  inj_countable Byte.to_N Byte.of_N Byte.of_to_N.

(** A [bytes] literal, written [b"..."] in the source. *)
Definition b (s : string) : bytes := list_byte_of_string s.

(** The exceptions that the module raises, catches or lets through. *)
Inductive exn :=
| StopIteration
| TypeError
| AttributeError
| ValueError
| IndexError
| UnicodeDecodeError
| AppError (tag : string).     (* any other exception raised by user code *)

Inductive result (A : Type) :=
| Ok (a : A)
| Raise (e : exn).
Arguments Ok {A} a.
Arguments Raise {A} e.

#[global] Instance result_ret : MRet result := fun _ a => Ok a.
#[global] Instance result_bind : MBind result := fun _ _ k r =>
  match r with
  | Ok a => k a
  | Raise e => Raise e
  end.

(** The objects that flow through the module: [None], [int], [str] and
    [bytes]. *)
Inductive pyval :=
| PyNone
| PyInt (z : Z)
| PyStr (s : str)
| PyBytes (bs : bytes).

(** Truth value testing, as in [if generator_data:]. *)
Definition truthy (v : pyval) : bool :=
  match v with
  | PyNone => false
  | PyInt z => negb (z =? 0)
  | PyStr s => negb (String.eqb s "")
  | PyBytes bs => match bs with [] => false | _ => true end
  end.

(** ** Codecs *)

(** [bs.decode('ISO-8859-1')]: every byte is the code point of the same
    value; never fails. *)
Definition decode_latin1 (bs : bytes) : str := string_of_list_byte bs.

Definition byte_of_N (n : N) : byte :=
  match Byte.of_N n with Some x => x | None => "000"%byte end.

(** UTF-8 of one code point below 256: one byte below 128, else the two
    bytes [110000xx 10xxxxxx]. *)
Definition utf8_char (c : ascii) : bytes :=
  let n := N_of_ascii c in
  if (n <? 128)%N then [byte_of_N n]
  else [byte_of_N (192 + n / 64)%N; byte_of_N (128 + n mod 64)%N].

(** [s.encode('utf-8')] for [s : str]. *)
Fixpoint encode_utf8 (s : str) : bytes :=
  match s with
  | EmptyString => []
  | String c s' => utf8_char c ++ encode_utf8 s'
  end.

(** The method call [v.encode('utf-8')]: only [str] has the attribute. *)
Definition method_encode (v : pyval) : result pyval :=
  match v with
  | PyStr s => Ok (PyBytes (encode_utf8 s))
  | _ => Raise AttributeError
  end.

(** [x + y] where the source concatenates [bytes]. *)
Definition bytes_add (x y : pyval) : result pyval :=
  match x, y with
  | PyBytes p, PyBytes q => Ok (PyBytes (p ++ q))
  | _, _ => Raise TypeError
  end.

(** ** [int(x)] *)

Definition digit_of (c : ascii) : option Z :=
  let n := N_of_ascii c in
  if ((48 <=? n) && (n <=? 57))%N then Some (Z.of_N n - 48) else None.

(** The white space [int] skips around a [str] literal: the ASCII white
    space of the number parser (tab, newline, VT, FF, return, space) and
    the two Latin-1 characters above 127 that the conversion to ASCII
    replaces by a space, U+0085 and U+00A0.  The separators U+001C to
    U+001F are below 127, reach the parser as they are, and are not
    skipped. *)
Definition is_space (c : ascii) : bool :=
  let n := N_of_ascii c in
  (((9 <=? n) && (n <=? 13)) || (n =? 32)
   || (n =? 133) || (n =? 160))%N.

(** Whitespace for [bytes]: space, tab, newline, return, VT and FF. *)
Definition is_space_ascii (c : ascii) : bool :=
  let n := N_of_ascii c in
  (((9 <=? n) && (n <=? 13)) || (n =? 32))%N.

Section Strip.
Context {A : Type} (space : A -> bool).

Fixpoint lstrip_by (l : list A) : list A :=
  match l with
  | c :: l' => if space c then lstrip_by l' else l
  | [] => []
  end.

Definition rstrip_by (l : list A) : list A := rev (lstrip_by (rev l)).

Definition strip_by (l : list A) : list A := rstrip_by (lstrip_by l).
End Strip.

(** Decimal digits, where a single underscore may separate two digits. *)
Fixpoint parse_digits (acc : Z) (after_digit : bool) (l : list ascii)
  : option Z :=
  match l with
  | [] => if after_digit then Some acc else None
  | c :: l' =>
      match digit_of c with
      | Some d => parse_digits (10 * acc + d) true l'
      | None =>
          if (Ascii.eqb c "_" && after_digit)%bool
          then parse_digits acc false l'
          else None
      end
  end.

(** The default limit on the number of digits of a decimal literal,
    [sys.get_int_max_str_digits()]. *)
Definition max_str_digits : Z := 4300.

(** The number of digits in [l]; signs and underscores do not count. *)
Definition count_digits (l : list ascii) : Z :=
  Z.of_nat (length (List.filter
                      (fun c => match digit_of c with
                                | Some _ => true
                                | None => false
                                end) l)).

(** The literal grammar of [int]: surrounding whitespace, an optional
    sign, decimal digits, no more of them than [max_str_digits]. *)
Definition parse_int (space : ascii -> bool) (s : str) : option Z :=
  let l := strip_by space (list_ascii_of_string s) in
  if max_str_digits <? count_digits l then None
  else
    match l with
    | "-"%char :: l => option_map Z.opp (parse_digits 0 false l)
    | "+"%char :: l => parse_digits 0 false l
    | l => parse_digits 0 false l
    end.

Definition int (v : pyval) : result Z :=
  match v with
  | PyInt z => Ok z
  | PyStr s =>
      match parse_int is_space s with
      | Some z => Ok z
      | None => Raise ValueError
      end
  | PyBytes bs =>
      match parse_int is_space_ascii (decode_latin1 bs) with
      | Some z => Ok z
      | None => Raise ValueError
      end
  | PyNone => Raise TypeError
  end.

(** ** [bytes] methods used by the request decoder *)

Definition byte_is_space (x : byte) : bool :=
  is_space_ascii (ascii_of_byte x).

(** [bs.strip()] and [bs.lstrip()] *)
Definition bytes_strip (bs : bytes) : bytes := strip_by byte_is_space bs.
Definition bytes_lstrip (bs : bytes) : bytes := lstrip_by byte_is_space bs.

Definition byte_lower (x : byte) : byte :=
  let n := Byte.to_N x in
  if ((65 <=? n) && (n <=? 90))%N then byte_of_N (n + 32) else x.

Definition byte_upper (x : byte) : byte :=
  let n := Byte.to_N x in
  if ((97 <=? n) && (n <=? 122))%N then byte_of_N (n - 32) else x.

Definition bytes_lower (bs : bytes) : bytes := map byte_lower bs.
Definition bytes_upper (bs : bytes) : bytes := map byte_upper bs.

(** [bs.replace(x, y)] for one-byte [x] and [y]. *)
Definition bytes_replace (x y : byte) (bs : bytes) : bytes :=
  map (fun c => if Byte.eqb c x then y else c) bs.

Definition bytes_eqb (p q : bytes) : bool := bool_decide (p = q).

(** [l.split(sep, 1)] for a one-element separator: the part before the
    first [sep] and the part after it, or [l] alone. *)
Fixpoint split_once {A} (is_sep : A -> bool) (l : list A)
  : list A * option (list A) :=
  match l with
  | [] => ([], None)
  | c :: l' =>
      if is_sep c then ([], Some l')
      else let (p, q) := split_once is_sep l' in (c :: p, q)
  end.

(** ** [str] methods used by the request decoder *)

(** [s.split(sep)] for a one-character separator: every occurrence
    splits, so the result is never empty. *)
Fixpoint str_split (sep : ascii) (s : str) : list str :=
  match s with
  | EmptyString => [EmptyString]
  | String c s' =>
      if Ascii.eqb c sep then EmptyString :: str_split sep s'
      else match str_split sep s' with
           | w :: ws => String c w :: ws
           | [] => [String c EmptyString]
           end
  end.

(** [s.split(sep, 1)] *)
Definition str_split_once (sep : ascii) (s : str) : str * option str :=
  let (p, q) := split_once (Ascii.eqb sep) (list_ascii_of_string s) in
  (string_of_list_ascii p, option_map string_of_list_ascii q).

(** [s.startswith(p)] *)
Definition startswith (s p : str) : bool := String.prefix p s.

(** [s[n:]] *)
Fixpoint str_drop (n : nat) (s : str) : str :=
  match n, s with
  | O, _ => s
  | S n', String _ s' => str_drop n' s'
  | S _, EmptyString => EmptyString
  end.

(** [sep.join(l)] *)
Definition str_join (sep : str) (l : list str) : str := String.concat sep l.

(** ** Keys of a [dict] *)

#[global] Instance pyval_eq_dec : EqDecision pyval.
Proof. solve_decision. Defined.

Definition pyval_code (v : pyval) : unit + Z + str + bytes :=
  match v with
  | PyNone => inl (inl (inl tt))
  | PyInt z => inl (inl (inr z))
  | PyStr s => inl (inr s)
  | PyBytes bs => inr bs
  end.

Definition pyval_uncode (c : unit + Z + str + bytes) : pyval :=
  match c with
  | inl (inl (inl _)) => PyNone
  | inl (inl (inr z)) => PyInt z
  | inl (inr s) => PyStr s
  | inr bs => PyBytes bs
  end.

#[global] Instance pyval_countable : Countable pyval.
Proof.
  apply (inj_countable' pyval_code pyval_uncode).
  intros []; reflexivity.
Defined.

End Py.
Import Py.

(* ===================================================================== *)
(** * The request decoder: [make_environ] *)
(* ===================================================================== *)

Module Environ.

(** The values stored in the WSGI environment dictionary. *)
Inductive envval :=
| EnvStr (s : str)
| EnvInt (z : Z)
| EnvTuple (x y : Z)              (* [(1, 0)] *)
| EnvBytesIO (content : bytes)    (* a fresh [BytesIO] over [content] *)
| EnvObj (v : pyval).             (* [host] and [port], stored as given *)

Abbreviation environ := (gmap string envval).

(** The lines a [BytesIO] yields: each ends with its newline, except
    possibly the last. *)
Fixpoint readlines_from (cur : bytes) (bs : bytes) : list bytes :=
  match bs with
  | [] => match cur with [] => [] | _ => [rev cur] end
  | x :: bs' =>
      if Byte.eqb x "010"%byte
      then rev (x :: cur) :: readlines_from [] bs'
      else readlines_from (x :: cur) bs'
  end.

Definition readlines (bs : bytes) : list bytes := readlines_from [] bs.

(** The local variables of the header loop. *)
Record header_vars := {
  content_type : option str;
  content_length : option str;
  cookies : list str;
  environ_of : environ
}.

Definition no_headers : header_vars :=
  {| content_type := None; content_length := None;
     cookies := []; environ_of := ∅ |}.

(** One round of the loop body, for a line that is not blank:
    [k, v = line.strip().split(b':', 1)] and the dispatch on [k.lower()]. *)
Definition header_line (line : bytes) (hv : header_vars)
  : result header_vars :=
  match split_once (Byte.eqb ":"%byte) (bytes_strip line) with
  | (_, None) => Raise ValueError
  | (k, Some v) =>
      let v := decode_latin1 (bytes_lstrip v) in
      if bytes_eqb (bytes_lower k) (b "content-type") then
        Ok {| content_type := Some v;
              content_length := content_length hv;
              cookies := cookies hv; environ_of := environ_of hv |}
      else if bytes_eqb (bytes_lower k) (b "content-length") then
        Ok {| content_type := content_type hv;
              content_length := Some v;
              cookies := cookies hv; environ_of := environ_of hv |}
      else if (bytes_eqb (bytes_lower k) (b "cookie")
               || bytes_eqb (bytes_lower k) (b "cookie2"))%bool then
        Ok {| content_type := content_type hv;
              content_length := content_length hv;
              cookies := cookies hv ++ [v]; environ_of := environ_of hv |}
      else
        let h := bytes_replace "-"%byte "_"%byte (bytes_upper k) in
        Ok {| content_type := content_type hv;
              content_length := content_length hv;
              cookies := cookies hv;
              environ_of :=
                <[String.append "HTTP_" (decode_latin1 h) := EnvStr v]>
                  (environ_of hv) |}
  end.

(** [for line in inp: ...]: returns the variables and the lines left
    unread when the loop ends (by [break] or at the end of the input). *)
Fixpoint header_loop (lines : list bytes) (hv : header_vars)
  : result (header_vars * list bytes) :=
  match lines with
  | [] => Ok (hv, [])
  | line :: rest =>
      match bytes_strip line with
      | [] => Ok (hv, rest)
      | _ => hv' ← header_line line hv; header_loop rest hv'
      end
  end.

(** [if x:] for an optional string. *)
Definition nonempty (o : option str) : option str :=
  match o with
  | Some s => if String.eqb s "" then None else Some s
  | None => None
  end.

Definition set_if (key : string) (o : option str) (e : environ) : environ :=
  match nonempty o with
  | Some s => <[key := EnvStr s]> e
  | None => e
  end.

(** [url.startswith(script_name)]: the prefix has to be a [str]. *)
Definition url_startswith (url : str) (script_name : pyval) : result bool :=
  match script_name with
  | PyStr p => Ok (startswith url p)
  | _ => Raise TypeError
  end.

(** [len(script_name)] where [script_name] passed [startswith]. *)
Definition len (v : pyval) : nat :=
  match v with
  | PyStr p => String.length p
  | PyBytes bs => length bs
  | _ => 0
  end.

Definition make_environ (inp : bytes) (host port : pyval)
    (script_name : pyval) : result environ :=
  let lines := readlines inp in
  let method_line := decode_latin1 (hd [] lines) in
  '(hv, unread) ← header_loop (tl lines) no_headers;
  match str_split " " method_line with
  | [method; url; protocol] =>
      starts ← url_startswith url script_name;
      let '(script_name, url) :=
        if negb starts then (PyStr "", url)
        else (script_name, str_drop (len script_name) url) in
      let '(path_info, after) := str_split_once "?" url in
      let query_string := default "" after in
      let r := concat unread in
      let environ :=
        <["SERVER_PROTOCOL" := EnvStr protocol]> (
        <["SERVER_PORT" := EnvObj port]> (
        <["SERVER_NAME" := EnvObj host]> (
        <["SCRIPT_NAME" := EnvObj script_name]> (
        <["REQUEST_METHOD" := EnvStr method]> (
        <["REMOTE_ADDR" := EnvStr "127.0.0.1"]> (
        <["PATH_INFO" := EnvStr path_info]> (
        <["wsgi.run_once" := EnvInt 0]> (
        <["wsgi.multiprocess" := EnvInt 0]> (
        <["wsgi.multithread" := EnvInt 0]> (
        <["wsgi.errors" := EnvBytesIO []]> (
        <["wsgi.input" := EnvBytesIO r]> (
        <["wsgi.url_scheme" := EnvStr "http"]> (
        <["wsgi.version" := EnvTuple 1 0]> (environ_of hv)))))))))))))) in
      let environ := set_if "QUERY_STRING" (Some query_string) environ in
      let environ := set_if "CONTENT_TYPE" (content_type hv) environ in
      let environ := set_if "CONTENT_LENGTH" (content_length hv) environ in
      let environ :=
        match cookies hv with
        | [] => environ
        | cs => <["HTTP_COOKIE" := EnvStr (str_join "; " cs)]> environ
        end in
      Ok environ
  | _ => Raise ValueError
  end.

End Environ.
Import Environ.

(* ===================================================================== *)
(** * The handler interface *)
(* ===================================================================== *)

(** A WSGI application is opaque user code.  What [makefile] can observe of
    it is the sequence of calls it makes to the two callbacks it is handed
    ([start_response] and the [write_fn] that [start_response] returns) and
    what each call of [next] on its result produces.  An application is
    therefore given by that behaviour: the callback calls made while the
    application itself runs, then, for each [next], the callback calls made
    before the item is produced and the item (or the exception raised).
    When the list of pulls is used up, [next] raises [StopIteration]; an
    iterator that never ends is not described, and on it [makefile] does
    not return.  An exception raised by a callback is taken to propagate
    through the application. *)

Module Wsgi.

Inductive action :=
| StartResponse (status : pyval) (headers : list (pyval * pyval))
| WriteFn (data : pyval).

Inductive outcome :=
| Yield (item : pyval)
| Throw (e : exn).

Abbreviation pull := (list action * outcome)%type.

Record app_result := {
  pulls : list pull;
  has_close : bool          (* [hasattr(app_result, 'close')] *)
}.

Record app_run := {
  call_effects : list action;
  call_returns : result app_result
}.

Abbreviation handler := (environ -> app_run).

(** What an [app_create_fn] may return: [None], or an object with a truth
    value and a [__call__]. *)
Inductive application :=
| AppNone
| AppObject (truth : bool) (call : handler).

Definition app_truthy (a : application) : bool :=
  match a with
  | AppNone => false
  | AppObject t _ => t
  end.

End Wsgi.
Import Wsgi.

(* ===================================================================== *)
(** * The fake socket: [wsgi_fake_socket] *)
(* ===================================================================== *)

Module FakeSocket.

(** Calls made on the application's result object, in order. *)
Inductive event :=
| EvNext
| EvClose.

Record wsgi_fake_socket := {
  app : application;
  host : pyval;
  port : pyval;
  script_name : pyval;
  inp : bytes;                    (* [self.inp], a [BytesIO] *)
  write_results : list pyval;     (* [self.write_results] *)
  output : bytes;                 (* [self.output], a [BytesIO] *)
  trace : list event              (* ghost: calls on [app_result] *)
}.

(** [wsgi_fake_socket.__init__] *)
Definition init (app : application) (host port script_name : pyval)
  : wsgi_fake_socket :=
  {| app := app; host := host; port := port; script_name := script_name;
     inp := []; write_results := []; output := []; trace := [] |}.

Definition set_inp (x : bytes) (s : wsgi_fake_socket) :=
  {| app := app s; host := host s; port := port s;
     script_name := script_name s; inp := x;
     write_results := write_results s; output := output s;
     trace := trace s |}.

Definition set_write_results (x : list pyval) (s : wsgi_fake_socket) :=
  {| app := app s; host := host s; port := port s;
     script_name := script_name s; inp := inp s;
     write_results := x; output := output s; trace := trace s |}.

Definition set_output (x : bytes) (s : wsgi_fake_socket) :=
  {| app := app s; host := host s; port := port s;
     script_name := script_name s; inp := inp s;
     write_results := write_results s; output := x; trace := trace s |}.

Definition set_trace (x : list event) (s : wsgi_fake_socket) :=
  {| app := app s; host := host s; port := port s;
     script_name := script_name s; inp := inp s;
     write_results := write_results s; output := output s; trace := x |}.

(** ** Methods as state transformers that may raise *)

Definition M (A : Type) : Type :=
  wsgi_fake_socket -> result A * wsgi_fake_socket.

#[global] Instance M_ret : MRet M := fun _ a s => (Ok a, s).
#[global] Instance M_bind : MBind M := fun _ _ k m s =>
  match m s with
  | (Ok a, s') => k a s'
  | (Raise e, s') => (Raise e, s')
  end.

Definition raise {A} (e : exn) : M A := fun s => (Raise e, s).
Definition lift {A} (r : result A) : M A := fun s => (r, s).
Definition get : M wsgi_fake_socket := fun s => (Ok s, s).
Definition modify (f : wsgi_fake_socket -> wsgi_fake_socket) : M unit :=
  fun s => (Ok tt, f s).

(** [try: body finally: fin] *)
Definition try_finally {A} (body : M A) (fin : M unit) : M A := fun s =>
  match body s with
  | (r, s1) =>
      match fin s1 with
      | (Ok _, s2) => (r, s2)
      | (Raise e, s2) => (Raise e, s2)
      end
  end.

(** [try: body except StopIteration: pass] *)
Definition except_StopIteration (body : M unit) : M unit := fun s =>
  match body s with
  | (Raise StopIteration, s1) => (Ok tt, s1)
  | other => other
  end.

(** [for x in l: f(x)] *)
Fixpoint for_each {A} (l : list A) (f : A -> M unit) : M unit :=
  match l with
  | [] => mret tt
  | x :: l' => _ ← f x; for_each l' f
  end.

(** [BytesIO.write(data)]: the new contents, or [TypeError] when [data]
    is not [bytes]. *)
Definition BytesIO_write (buf : bytes) (data : pyval) : result bytes :=
  match data with
  | PyBytes bs => Ok (buf ++ bs)
  | _ => Raise TypeError
  end.

(** [self.output.write(data)] *)
Definition output_write (data : pyval) : M unit :=
  s ← get;
  out ← lift (BytesIO_write (output s) data);
  modify (set_output out).

Definition LF : bytes := ["010"%byte].

(** [try: v = v.encode('utf-8') except AttributeError: pass] *)
Definition encode_if_str (v : pyval) : result pyval :=
  match method_encode v with
  | Raise AttributeError => Ok v
  | r => r
  end.

(** ** The callbacks built by [makefile] *)

Definition write_fn (data : pyval) : M unit :=
  s ← get; modify (set_write_results (write_results s ++ [data])).

(** [start_response(status, headers)]; its return value is [write_fn]. *)
Definition start_response (status : pyval) (headers : list (pyval * pyval))
  : M unit :=
  status_bytes ← lift (method_encode status);
  line ← lift (x ← bytes_add (PyBytes (b "HTTP/1.0 ")) status_bytes;
               bytes_add x (PyBytes LF));
  _ ← output_write line;
  _ ← for_each headers (fun kv =>
        k ← lift (encode_if_str kv.1);
        v ← lift (encode_if_str kv.2);
        line ← lift (x ← bytes_add k (PyBytes (b ":"));
                     y ← bytes_add x v;
                     bytes_add y (PyBytes LF));
        output_write line);
  output_write (PyBytes LF).

Definition run_action (a : action) : M unit :=
  match a with
  | StartResponse status headers => start_response status headers
  | WriteFn data => write_fn data
  end.

(** [self.app(environ, start_response)] *)
Definition call_app (a : application) (environ : environ)
  : M app_result :=
  match a with
  | AppNone => raise TypeError
  | AppObject _ h =>
      _ ← for_each (call_effects (h environ)) run_action;
      lift (call_returns (h environ))
  end.

(** [next(self.result)], where [it] is what is left of the iterator. *)
Definition next (it : list pull) : M pyval :=
  s ← get;
  _ ← modify (set_trace (trace s ++ [EvNext]));
  match it with
  | [] => raise StopIteration
  | (effects, out) :: _ =>
      _ ← for_each effects run_action;
      match out with
      | Yield item => mret item
      | Throw e => raise e
      end
  end.

(** [while 1: data = next(self.result); self.output.write(data)].  On the
    exhausted iterator [next] raises, which ends the loop. *)
Fixpoint while_next (it : list pull) : M unit :=
  match it with
  | [] => data ← next []; output_write data
  | _ :: rest =>
      data ← next it;
      _ ← output_write data;
      while_next rest
  end.

(** ** [makefile]

    [debuglevel] is 0, so the [print] calls are left out.  The handler
    [except TypeError as exc: raise TypeError(...)] around the write of
    the first item raises the same class of exception again, so the write
    alone stands for it. *)

Definition makefile : M bytes :=
  s ← get;
  environ ← lift (make_environ (inp s) (host s) (port s) (script_name s));
  app_result ← call_app (app s) environ;
  let result := pulls app_result in
  _ ← except_StopIteration (
        generator_data ←
          try_finally (next result)
            (s ← get; for_each (write_results s) output_write);
        if truthy generator_data then
          _ ← output_write generator_data;
          while_next (tl result)
        else mret tt);
  _ ← (if has_close app_result
       then s ← get; modify (set_trace (trace s ++ [EvClose]))
       else mret tt);
  s ← get;
  mret (output s).

(** ** [sendall] *)

Section Sendall.
(** Python's UTF-8 decoder, [bytes.decode('utf-8')]. *)
Variable utf8_decode : bytes -> result str.

(** The method call [v.decode('utf-8')]: only [bytes] has the
    attribute. *)
Definition method_decode (v : pyval) : result pyval :=
  match v with
  | PyBytes bs => s ← utf8_decode bs; Ok (PyStr s)
  | _ => Raise AttributeError
  end.

(** [six.binary_type(v)], that is [bytes(v)]. *)
Definition binary_type (v : pyval) : result pyval :=
  match v with
  | PyBytes bs => Ok (PyBytes bs)
  | PyInt z =>
      if z <? 0 then Raise ValueError
      else Ok (PyBytes (repeat "000"%byte (Z.to_nat z)))
  | PyStr _ => Raise TypeError
  | PyNone => Raise TypeError
  end.

(** [self.inp.write(data)] *)
Definition inp_write (data : pyval) : M unit :=
  s ← get;
  buf ← lift (BytesIO_write (inp s) data);
  modify (set_inp buf).

Definition sendall (text : pyval) : M unit := fun s =>
  match inp_write text s with
  | (Raise TypeError, s1) =>
      (t ← lift (method_decode text);
       data ← lift (binary_type t);
       inp_write data) s1
  | other => other
  end.
End Sendall.

(** [close]: does nothing. *)
Definition close : M unit := mret tt.

End FakeSocket.
Import FakeSocket.

(* ===================================================================== *)
(** * The registry: [_wsgi_intercept] *)
(* ===================================================================== *)

Module Registry.

(** [app_create_fn]: called without arguments, returns the application
    (or raises). *)
Abbreviation app_create_fn := (unit -> result application).

(** key [(host, port)], value [(create_app, top_url)] *)
Abbreviation registry := (gmap (pyval * pyval) (app_create_fn * pyval)).

Definition empty_registry : registry := ∅.

(** [add_wsgi_intercept(host, port, app_create_fn, script_name='')] *)
Definition add_wsgi_intercept (host port : pyval) (create : app_create_fn)
    (script_name : pyval) (reg : registry) : registry :=
  <[(host, port) := (create, script_name)]> reg.

(** [remove_wsgi_intercept], called with the positional arguments [args] *)
Definition remove_wsgi_intercept (args : list pyval) (reg : registry)
  : result registry :=
  match args with
  | [] => Ok ∅
  | [_] => Raise IndexError                 (* [args[1]] *)
  | host :: port :: _ =>
      let key := (host, port) in
      match reg !! key with
      | Some _ => Ok (delete key reg)
      | None => Ok reg
      end
  end.

End Registry.
Import Registry.

(* ===================================================================== *)
(** * The connection: [WSGI_HTTPConnection] *)
(* ===================================================================== *)

Module Connection.

Inductive socket :=
| RealSocket                          (* whatever the base class opens *)
| Fake (s : wsgi_fake_socket).

Record connection := {
  conn_host : pyval;                  (* [self.host] *)
  conn_port : pyval;                  (* [self.port] *)
  sock : option socket                (* [self.sock] *)
}.

(** What [connect] does to the outside, in order. *)
Inductive effect :=
| CreateApp (key : pyval * pyval)     (* [app_fn()] for the entry at key *)
| RealConnect.                        (* the base class's [connect] *)

(** [get_app(host, port)] *)
Definition get_app (reg : registry) (host port : pyval)
  : list effect * result (application * pyval) :=
  match int port with
  | Raise e => ([], Raise e)
  | Ok n =>
      let key := (host, PyInt n) in
      match reg !! key with
      | Some (app_fn, script_name) =>
          ([CreateApp key], app ← app_fn tt; Ok (app, script_name))
      | None => ([], Ok (AppNone, PyNone))
      end
  end.

Section Connect.
(** [HTTPConnection.connect] (or [HTTPSConnection.connect], or
    httplib2's): the real connection of the base class. *)
Variable base_connect : connection -> result connection.

Definition connect (reg : registry) (c : connection)
  : list effect * result connection :=
  match get_app reg (conn_host c) (conn_port c) with
  | (effs, Raise e) => (effs, Raise e)
  | (effs, Ok (app, script_name)) =>
      if app_truthy app then
        (effs,
         Ok {| conn_host := conn_host c; conn_port := conn_port c;
               sock := Some (Fake (init app (conn_host c) (conn_port c)
                                     script_name)) |})
      else (effs ++ [RealConnect], base_connect c)
  end.
End Connect.

End Connection.
Import Connection.

(* ===================================================================== *)
(** * Reference functions for the response stream *)
(* ===================================================================== *)

(** Pure descriptions of what the callbacks contribute to the response,
    against which [makefile] is verified. *)

Module Reference.

(** The bytes a header name or value puts on the wire. *)
Definition wire (v : pyval) : bytes :=
  match v with
  | PyStr s => encode_utf8 s
  | PyBytes bs => bs
  | _ => []
  end.

Definition is_text (v : pyval) : bool :=
  match v with
  | PyStr _ | PyBytes _ => true
  | _ => false
  end.

Definition is_bytes (v : pyval) : bool :=
  match v with
  | PyBytes _ => true
  | _ => false
  end.

Definition header_ok (kv : pyval * pyval) : bool :=
  is_text kv.1 && is_text kv.2.

Definition header_wire (kv : pyval * pyval) : bytes :=
  wire kv.1 ++ b ":" ++ wire kv.2 ++ LF.

(** Status line, header lines, blank line. *)
Definition header_block (status : str) (headers : list (pyval * pyval))
  : bytes :=
  b "HTTP/1.0 " ++ encode_utf8 status ++ LF
    ++ concat (map header_wire headers) ++ LF.

(** A callback call with arguments of the types the interface names:
    the status a [str], header names and values [str] or [bytes]. *)
Definition action_ok (a : action) : bool :=
  match a with
  | StartResponse (PyStr _) headers => forallb header_ok headers
  | StartResponse _ _ => false
  | WriteFn _ => true
  end.

(** The calls of [start_response] among [acts]. *)
Fixpoint responses (acts : list action)
  : list (pyval * list (pyval * pyval)) :=
  match acts with
  | [] => []
  | StartResponse status headers :: acts' =>
      (status, headers) :: responses acts'
  | WriteFn _ :: acts' => responses acts'
  end.

(** What the calls of [start_response] among [acts] put in the output. *)
Definition started (acts : list action) : bytes :=
  concat (map (fun r => match r.1 with
                        | PyStr status => header_block status r.2
                        | _ => []
                        end)
              (responses acts)).

(** The arguments of the calls of [write_fn] among [acts]. *)
Fixpoint written (acts : list action) : list pyval :=
  match acts with
  | [] => []
  | WriteFn data :: acts' => data :: written acts'
  | StartResponse _ _ :: acts' => written acts'
  end.

(** The concatenation of the [bytes] among [vs]. *)
Definition payload (vs : list pyval) : bytes := concat (map wire vs).

(** A pull whose callbacks are well typed and which yields [bytes]. *)
Definition pull_ok (p : pull) : bool :=
  forallb action_ok p.1 && match p.2 with
                           | Yield v => is_bytes v
                           | Throw _ => false
                           end.

(** What draining the pulls [it] to exhaustion puts in the output. *)
Fixpoint drained (it : list pull) : bytes :=
  match it with
  | [] => []
  | (acts, Yield item) :: rest => started acts ++ wire item ++ drained rest
  | (acts, Throw _) :: _ => started acts
  end.

(** The socket [s] after [out] was added to the output, [ws] to the
    buffered writes and [evs] to the trace. *)
Definition extend (out : bytes) (ws : list pyval) (evs : list event)
    (s : wsgi_fake_socket) : wsgi_fake_socket :=
  {| app := app s; host := host s; port := port s;
     script_name := script_name s; inp := inp s;
     write_results := write_results s ++ ws;
     output := output s ++ out;
     trace := trace s ++ evs |}.

(** The items the pulls [it] yield, on the wire. *)
Definition yielded (it : list pull) : bytes :=
  concat (map (fun p : pull => match p.2 with
                               | Yield item => wire item
                               | Throw _ => []
                               end) it).

(** The arguments of all calls of [write_fn] made during the pulls. *)
Definition all_written (it : list pull) : list pyval :=
  concat (map (fun p : pull => written p.1) it).

(** The pull [p] with its calls of [write_fn] left out. *)
Definition is_start_response (a : action) : bool :=
  match a with
  | StartResponse _ _ => true
  | WriteFn _ => false
  end.

Definition without_writes (p : pull) : pull :=
  (filter (fun a => is_start_response a = true) p.1, p.2).

(** ** A well-typed run

    The application calls the callbacks with well-typed arguments, the
    data passed to [write_fn] before the first item is produced is
    [bytes], and the iterator either is exhausted at the first pull, or
    yields a falsy first item, or yields [bytes] until exhausted. *)

(** Does [makefile] go on pulling after the first pull? *)
Definition continues (first : outcome) : bool :=
  match first with
  | Yield item => truthy item
  | Throw _ => false
  end.

Definition clean (ce : list action) (ps : list pull) : bool :=
  forallb action_ok ce && forallb is_bytes (written ce)
  && match ps with
     | [] => true
     | (a1, first) :: rest =>
         forallb action_ok a1 && forallb is_bytes (written a1)
         && match first with
            | Yield item =>
                if truthy item
                then is_bytes item && forallb pull_ok rest
                else true
            | Throw StopIteration => true
            | Throw _ => false
            end
     end.

(** The response of a well-typed run: what [start_response] wrote while
    the application ran and during the first pull, then the data passed
    to [write_fn] up to then, then, when the first item is truthy, the
    first item and everything the later pulls put in the output. *)
Definition response (ce : list action) (ps : list pull) : bytes :=
  match ps with
  | [] => started ce ++ payload (written ce)
  | (a1, first) :: rest =>
      started ce ++ started a1 ++ payload (written ce ++ written a1)
        ++ (if continues first then yielded [(a1, first)] ++ drained rest
            else [])
  end.

(** What [self.write_results] holds at the end of a well-typed run. *)
Definition buffered (ce : list action) (ps : list pull) : list pyval :=
  match ps with
  | [] => written ce
  | (a1, first) :: rest =>
      written ce ++ written a1
        ++ (if continues first then all_written rest else [])
  end.

(** The number of calls of [next] in a well-typed run. *)
Definition pulls_made (ps : list pull) : nat :=
  match ps with
  | [] => 1
  | (_, first) :: rest =>
      if continues first then S (S (length rest)) else 1
  end.

Definition closing (ar : app_result) : list event :=
  if has_close ar then [EvClose] else [].

(** A socket as [connect] installs it, after the client has sent
    [request]. *)
Definition loaded (a : application) (host port script_name : pyval)
    (request : bytes) : wsgi_fake_socket :=
  set_inp request (init a host port script_name).

(** [makefile] on such a socket: the result and the socket afterwards. *)
Definition respond (a : application) (host port script_name : pyval)
    (request : bytes) : result bytes * wsgi_fake_socket :=
  makefile (loaded a host port script_name request).

(** The callback calls made during the first pull. *)
Definition first_effects (ps : list pull) : list action :=
  match ps with
  | [] => []
  | p :: _ => p.1
  end.

(** The body of a well-typed run: the data passed to [write_fn] up to
    the end of the first pull, then, when the first item is truthy, the
    items of all pulls. *)
Definition body_bytes (ce : list action) (ps : list pull) : bytes :=
  match ps with
  | [] => payload (written ce)
  | (a1, first) :: _ =>
      payload (written ce ++ written a1)
        ++ (if continues first then yielded ps else [])
  end.

(** The computation [m] leaves the trace as it is. *)
Definition keeps_trace {A} (m : M A) : Prop :=
  ∀ s, trace (m s).2 = trace s.

(** The computation [m] adds only calls of [next] to the trace. *)
Definition only_pulls {A} (m : M A) : Prop :=
  ∀ s, ∃ n, trace (m s).2 = trace s ++ repeat EvNext n.

End Reference.
Import Reference.

(* ===================================================================== *)
(** * Sample requests, handlers and registrations *)
(* ===================================================================== *)

Module Examples.

Definition CRLF : bytes := ["013"%byte; "010"%byte].

(** [GET /app/foo?x=1 HTTP/1.1], one header, no body. *)
Definition get_app_foo : bytes :=
  b "GET /app/foo?x=1 HTTP/1.1" ++ CRLF
    ++ b "Host: example.test" ++ CRLF ++ CRLF.

(** [GET / HTTP/1.1], no header, no body. *)
Definition get_root : bytes := b "GET / HTTP/1.1" ++ CRLF ++ CRLF.

Definition text_plain : list (pyval * pyval) :=
  [(PyStr "Content-Type", PyStr "text/plain")].

(** A generator application: the first [next] runs its body up to the
    first [yield], calling [start_response] and then [write] on the way. *)
Definition hello_world : handler := fun _ =>
  {| call_effects := [];
     call_returns :=
       Ok {| pulls := [([StartResponse (PyStr "200 OK") text_plain;
                         WriteFn (PyBytes (b "world"))],
                        Yield (PyBytes (b "hello ")))];
             has_close := true |} |}.

(** Calls [write] again while producing its second chunk. *)
Definition late_writer : handler := fun _ =>
  {| call_effects := [StartResponse (PyStr "200 OK") text_plain];
     call_returns :=
       Ok {| pulls := [([WriteFn (PyBytes (b "early "))],
                        Yield (PyBytes (b "one ")));
                       ([WriteFn (PyBytes (b "late "))],
                        Yield (PyBytes (b "two")))];
             has_close := false |} |}.

(** An ordinary function: calls [start_response] with two headers, one
    of them with a [bytes] value, and returns [[b'hello']]. *)
Definition two_headers : list (pyval * pyval) :=
  [(PyStr "Content-Type", PyStr "text/plain");
   (PyStr "X-Id", PyBytes (b "7"))].

Definition hello_list : handler := fun _ =>
  {| call_effects := [StartResponse (PyStr "200 OK") two_headers];
     call_returns :=
       Ok {| pulls := [([], Yield (PyBytes (b "hello")))];
             has_close := false |} |}.

(** Returns [['oops']], a list of [str], from an object with [close]. *)
Definition text_chunk : handler := fun _ =>
  {| call_effects := [StartResponse (PyStr "200 OK") text_plain];
     call_returns :=
       Ok {| pulls := [([], Yield (PyStr "oops"))];
             has_close := true |} |}.

(** A callable object whose truth value is false, such as an instance
    of a class that defines [__call__] and [__len__] and is empty. *)
Definition falsy_app : application := AppObject false hello_world.

Definition truthy_app : application := AppObject true hello_world.

Definition example_test : pyval := PyStr "example.test".

Definition plain_connection : connection :=
  {| conn_host := example_test; conn_port := PyInt 80; sock := None |}.

(** A stand-in for the base class's [connect]: opens a socket. *)
Definition stub_connect (c : connection) : result connection :=
  Ok {| conn_host := conn_host c; conn_port := conn_port c;
        sock := Some RealSocket |}.

(** Registries with one entry for [example.test:80], whose factory
    returns a truthy application, a falsy one, or [None]. *)
Definition truthy_registry : registry :=
  add_wsgi_intercept example_test (PyInt 80) (fun _ => Ok truthy_app)
    (PyStr "") empty_registry.

Definition falsy_registry : registry :=
  add_wsgi_intercept example_test (PyInt 80) (fun _ => Ok falsy_app)
    (PyStr "") empty_registry.

Definition none_registry : registry :=
  add_wsgi_intercept example_test (PyInt 80) (fun _ => Ok AppNone)
    (PyStr "") empty_registry.

(** The environment [make_environ] builds for [get_root] sent to
    [example.test:80] with an empty script name. *)
Definition root_environ : environ :=
  match make_environ get_root example_test (PyInt 80) (PyStr "") with
  | Ok e => e
  | Raise _ => ∅
  end.

End Examples.

(* ===================================================================== *)
(** * The other connection classes *)
(* ===================================================================== *)

(** [WSGI_HTTPSConnection] repeats [get_app] and [connect] with
    [HTTPSConnection] as the base class; [httplib2_intercept.connect] is
    the [connect] of the two httplib2 classes, which take [get_app] from
    [WSGI_HTTPConnection] and keep the base class's [connect] as
    [_connect]. *)

Module Variants.

(** [WSGI_HTTPSConnection.get_app(host, port)] *)
Definition https_get_app (reg : registry) (host port : pyval)
  : list effect * result (application * pyval) :=
  match int port with
  | Raise e => ([], Raise e)
  | Ok n =>
      let key := (host, PyInt n) in
      match reg !! key with
      | Some (app_fn, script_name) =>
          ([CreateApp key], app ← app_fn tt; Ok (app, script_name))
      | None => ([], Ok (AppNone, PyNone))
      end
  end.

(** [WSGI_HTTPSConnection.connect], over [HTTPSConnection.connect] *)
Definition https_connect (https_base_connect : connection -> result connection)
    (reg : registry) (c : connection) : list effect * result connection :=
  match https_get_app reg (conn_host c) (conn_port c) with
  | (effs, Raise e) => (effs, Raise e)
  | (effs, Ok (app, script_name)) =>
      if app_truthy app then
        (effs,
         Ok {| conn_host := conn_host c; conn_port := conn_port c;
               sock := Some (Fake (init app (conn_host c) (conn_port c)
                                     script_name)) |})
      else (effs ++ [RealConnect], https_base_connect c)
  end.

(** [httplib2_intercept.connect], over [self._connect] *)
Definition httplib2_connect (_connect : connection -> result connection)
    (reg : registry) (c : connection) : list effect * result connection :=
  let '(effs, r) := get_app reg (conn_host c) (conn_port c) in
  match r with
  | Raise e => (effs, Raise e)
  | Ok (app, script_name) =>
      if app_truthy app then
        (effs,
         Ok {| conn_host := conn_host c; conn_port := conn_port c;
               sock := Some (Fake (init app (conn_host c) (conn_port c)
                                     script_name)) |})
      else (effs ++ [RealConnect], _connect c)
  end.

End Variants.
Import Variants.

(* ===================================================================== *)
(** * Installing the interceptors *)
(* ===================================================================== *)

(** [httplib2_intercept.install] and [uninstall] assign to httplib2's
    [SCHEME_TO_CONNECTION]; [requests_intercept.install_opener] and
    [uninstall_opener] also assign to attributes of urllib3's
    [connectionpool] module and of the class [wsgi_fake_socket].  The
    module attributes they touch are gathered in one record. *)

Module Patching.

Inductive conn_class :=
| HTTPConnectionWithTimeout             (* httplib2's own *)
| HTTPSConnectionWithTimeout
| HTTP_WSGIInterceptorWithTimeout       (* httplib2_intercept's *)
| HTTPS_WSGIInterceptorWithTimeout
| WSGI_HTTPConnection                   (* wsgi_intercept's *)
| WSGI_HTTPSConnection
| OtherClass (name : string).           (* any other class *)

#[global] Instance conn_class_eq_dec : EqDecision conn_class.
Proof. solve_decision. Defined.

Record modules := {
  SCHEME_TO_CONNECTION : gmap string conn_class;
  pool_HTTPConnection : conn_class;     (* [connectionpool.HTTPConnection] *)
  pool_HTTPSConnection : conn_class;    (* [connectionpool.HTTPSConnection] *)
  old_http : option conn_class;         (* [connectionpool.old_http], if set *)
  old_https : option conn_class;        (* [connectionpool.old_https], if set *)
  has_settimeout : bool                 (* [wsgi_fake_socket.settimeout] set *)
}.

Definition set_schemes (m : gmap string conn_class) (st : modules) : modules :=
  {| SCHEME_TO_CONNECTION := m;
     pool_HTTPConnection := pool_HTTPConnection st;
     pool_HTTPSConnection := pool_HTTPSConnection st;
     old_http := old_http st; old_https := old_https st;
     has_settimeout := has_settimeout st |}.

(** [httplib2_intercept.install()] *)
Definition install (st : modules) : modules :=
  set_schemes
    (<["https" := HTTPS_WSGIInterceptorWithTimeout]>
       (<["http" := HTTP_WSGIInterceptorWithTimeout]>
          (SCHEME_TO_CONNECTION st))) st.

(** [httplib2_intercept.uninstall()] *)
Definition uninstall (st : modules) : modules :=
  set_schemes
    (<["https" := HTTPSConnectionWithTimeout]>
       (<["http" := HTTPConnectionWithTimeout]>
          (SCHEME_TO_CONNECTION st))) st.

(** [requests_intercept.install_opener()] *)
Definition install_opener (st : modules) : modules :=
  let st := install st in
  {| SCHEME_TO_CONNECTION := SCHEME_TO_CONNECTION st;
     pool_HTTPConnection := WSGI_HTTPConnection;
     pool_HTTPSConnection := WSGI_HTTPSConnection;
     old_http := Some (pool_HTTPConnection st);
     old_https := Some (pool_HTTPSConnection st);
     has_settimeout := true |}.

(** [requests_intercept.uninstall_opener()]: reading an attribute that
    was never set raises [AttributeError], and the assignments made
    before stay. *)
Definition uninstall_opener (st : modules) : result unit * modules :=
  let st := uninstall st in
  match old_http st with
  | None => (Raise AttributeError, st)
  | Some http =>
      let st1 :=
        {| SCHEME_TO_CONNECTION := SCHEME_TO_CONNECTION st;
           pool_HTTPConnection := http;
           pool_HTTPSConnection := pool_HTTPSConnection st;
           old_http := old_http st; old_https := old_https st;
           has_settimeout := has_settimeout st |} in
      match old_https st1 with
      | None => (Raise AttributeError, st1)
      | Some https =>
          (Ok tt,
           {| SCHEME_TO_CONNECTION := SCHEME_TO_CONNECTION st1;
              pool_HTTPConnection := pool_HTTPConnection st1;
              pool_HTTPSConnection := https;
              old_http := old_http st1; old_https := old_https st1;
              has_settimeout := has_settimeout st1 |})
      end
  end.

(** [wsgi_fake_socket.settimeout], as [install_opener] defines it: does
    nothing. *)
Definition settimeout (timeout : pyval) : M unit := mret tt.

(** The modules as they are once imported, before anything is patched:
    httplib2's own classes for the two schemes, urllib3's own connection
    classes in [connectionpool], no [old_http] and no [old_https]
    attribute, no [settimeout] on [wsgi_fake_socket]. *)
Definition unpatched : modules :=
  {| SCHEME_TO_CONNECTION :=
       <["https" := HTTPSConnectionWithTimeout]>
         (<["http" := HTTPConnectionWithTimeout]> ∅);
     pool_HTTPConnection := OtherClass "urllib3.connection.HTTPConnection";
     pool_HTTPSConnection := OtherClass "urllib3.connection.HTTPSConnection";
     old_http := None;
     old_https := None;
     has_settimeout := false |}.

End Patching.

(* ===================================================================== *)
(** * The keys of the environment *)
(* ===================================================================== *)

Module EnvironKeys.

(** The keys that [make_environ] sets itself, apart from [HTTP_COOKIE]:
    those of the [update] call and the three optional ones. *)
Definition reserved_keys : list string :=
  ["wsgi.version"; "wsgi.url_scheme"; "wsgi.input"; "wsgi.errors";
   "wsgi.multithread"; "wsgi.multiprocess"; "wsgi.run_once";
   "PATH_INFO"; "REMOTE_ADDR"; "REQUEST_METHOD"; "SCRIPT_NAME";
   "SERVER_NAME"; "SERVER_PORT"; "SERVER_PROTOCOL";
   "QUERY_STRING"; "CONTENT_TYPE"; "CONTENT_LENGTH"].

(** The line terminator, as text. *)
Definition crlf : str := String "013"%char (String "010"%char EmptyString).

(** [s.encode('ISO-8859-1')]: the byte of each code point. *)
Definition encode_latin1 (s : str) : bytes := list_byte_of_string s.

End EnvironKeys.
Import EnvironKeys.

(* ===================================================================== *)
(** * What a method may change on the socket *)
(* ===================================================================== *)

Module Frame.

(** From [s] to [s'] the application, the address, the mount point and
    the request are the same, and the buffered writes, the output and the
    trace were only added to. *)
Definition grows (s s' : wsgi_fake_socket) : Prop :=
  app s' = app s ∧ host s' = host s ∧ port s' = port s
  ∧ script_name s' = script_name s ∧ inp s' = inp s
  ∧ write_results s `prefix_of` write_results s'
  ∧ output s `prefix_of` output s'
  ∧ trace s `prefix_of` trace s'.

(** The computation [m] only adds to the socket. *)
Definition appends {A} (m : M A) : Prop :=
  ∀ s, grows s (m s).2.

(** What a pull that ends [makefile] with an error raises: [TypeError]
    for an item that cannot be written, the exception itself when the
    iterator raises. *)
Definition pull_error (out : outcome) : exn :=
  match out with
  | Yield _ => TypeError
  | Throw e => e
  end.

(** The pull [out] is one the loop of [makefile] does not survive: an
    item that is not [bytes], or an exception other than
    [StopIteration]. *)
Definition pull_fails (out : outcome) : bool :=
  match out with
  | Yield item => negb (is_bytes item)
  | Throw StopIteration => false
  | Throw _ => true
  end.


End Frame.
Import Frame.

(** Applications that do not keep to the interface. *)
Module FailureExamples.

(** A generator that calls [write] and then raises. *)
Definition broken_iterator : handler := fun _ =>
  {| call_effects := [StartResponse (PyStr "200 OK") Examples.text_plain];
     call_returns :=
       Ok {| pulls := [([WriteFn (PyBytes (b "partial"))],
                        Throw (AppError "boom"))];
             has_close := true |} |}.

(** Passes a [str] to [write] and returns an empty list. *)
Definition text_writer : handler := fun _ =>
  {| call_effects := [StartResponse (PyStr "200 OK") Examples.text_plain;
                      WriteFn (PyStr "text")];
     call_returns := Ok {| pulls := []; has_close := true |} |}.

(** Returns [[b'one', None]]. *)
Definition second_chunk_none : handler := fun _ =>
  {| call_effects := [StartResponse (PyStr "200 OK") Examples.text_plain];
     call_returns :=
       Ok {| pulls := [([], Yield (PyBytes (b "one")));
                       ([], Yield PyNone)];
             has_close := true |} |}.



(** Raises when called, after [start_response]. *)
Definition raising_app : handler := fun _ =>
  {| call_effects := [StartResponse (PyStr "500 Oops") []];
     call_returns := Raise (AppError "boom") |}.

End FailureExamples.

(* ===================================================================== *)
(** * Request headers *)
(* ===================================================================== *)

Module Headers.

(** The name of a header line as the loop of [make_environ] reads it:
    what comes before the first colon of the stripped line. *)
Definition raw_name (line : bytes) : bytes :=
  (split_once (Byte.eqb ":"%byte) (bytes_strip line)).1.

(** The key under which the loop stores an ordinary header:
    ['HTTP_' + k.upper().replace(b'-', b'_').decode('ISO-8859-1')]. *)
Definition http_key (name : bytes) : string :=
  String.append "HTTP_"
    (decode_latin1 (bytes_replace "-"%byte "_"%byte (bytes_upper name))).

(** The value the loop keeps: [v.lstrip().decode('ISO-8859-1')]. *)
Definition header_value (value : bytes) : str :=
  decode_latin1 (bytes_lstrip value).

(** The names, in lower case, that the loop does not store under
    [HTTP_]. *)
Definition special_names : list bytes :=
  [b "content-type"; b "content-length"; b "cookie"; b "cookie2"].

(** The value of a header line named [Cookie] or [Cookie2]. *)
Definition cookie_value (line : bytes) : option str :=
  match split_once (Byte.eqb ":"%byte) (bytes_strip line) with
  | (k, Some v) =>
      if (bytes_eqb (bytes_lower k) (b "cookie")
          || bytes_eqb (bytes_lower k) (b "cookie2"))%bool
      then Some (header_value v)
      else None
  | (_, None) => None
  end.

Definition cookie_values (lines : list bytes) : list str :=
  omap cookie_value lines.

(** A header line the loop accepts: not blank, with a colon. *)
Definition well_formed (line : bytes) : Prop :=
  bytes_strip line ≠ [] ∧ ":"%byte ∈ bytes_strip line.

End Headers.
Import Headers.

(** Requests with headers. *)
Module HeaderExamples.

Definition x_foo_first : bytes := b "X-Foo: first" ++ Examples.CRLF.
Definition x_foo_second : bytes := b "x-foo:  second " ++ Examples.CRLF.
Definition host_line : bytes := b "Host: example.test" ++ Examples.CRLF.

(** The header [X-Foo] twice, in different case, then [Host]. *)
Definition repeated_header : bytes :=
  b "GET / HTTP/1.1" ++ Examples.CRLF
    ++ x_foo_first ++ x_foo_second ++ host_line ++ Examples.CRLF.

Definition type_line : bytes := b "Content-Type: text/plain" ++ Examples.CRLF.
Definition length_line : bytes := b "CONTENT-LENGTH: 5" ++ Examples.CRLF.

(** A [POST] with a typed body. *)
Definition typed_request : bytes :=
  b "POST /submit HTTP/1.1" ++ Examples.CRLF
    ++ host_line ++ type_line ++ length_line ++ Examples.CRLF ++ b "hello".

Definition cookie_line : bytes := b "Cookie: a=1" ++ Examples.CRLF.
Definition cookie2_line : bytes := b "cookie2: b=2" ++ Examples.CRLF.

(** Two cookie headers around a [Host] header. *)
Definition cookie_request : bytes :=
  b "GET / HTTP/1.1" ++ Examples.CRLF
    ++ cookie_line ++ host_line ++ cookie2_line ++ Examples.CRLF.

End HeaderExamples.

(* ===================================================================== *)
(** * The registry and the connection *)
(* ===================================================================== *)

Section RegistryFacts.

Implicit Types (reg : registry) (host port script_name : pyval).
Implicit Types (create : app_create_fn).

Lemma add_lookup reg host port create script_name :
  add_wsgi_intercept host port create script_name reg !! (host, port)
  = Some (create, script_name).
Proof. unfold add_wsgi_intercept. apply lookup_insert_eq. Qed.

Lemma add_lookup_other reg host port create script_name key :
  key ≠ (host, port) →
  add_wsgi_intercept host port create script_name reg !! key = reg !! key.
Proof. intros Hne. unfold add_wsgi_intercept. by rewrite lookup_insert_ne. Qed.

Lemma remove_absent reg host port :
  reg !! (host, port) = None →
  remove_wsgi_intercept [host; port] reg = Ok reg.
Proof. intros Hnone. unfold remove_wsgi_intercept. by rewrite Hnone. Qed.

Lemma remove_lookup reg host port :
  ∃ reg', remove_wsgi_intercept [host; port] reg = Ok reg'
          ∧ reg' = delete (host, port) reg.
Proof.
  unfold remove_wsgi_intercept.
  destruct (reg !! (host, port)) eqn:Hkey; eexists; split; try reflexivity.
  symmetry. by apply delete_id.
Qed.

Lemma get_app_absent reg host port n :
  int port = Ok n →
  reg !! (host, PyInt n) = None →
  get_app reg host port = ([], Ok (AppNone, PyNone)).
Proof. intros Hint Hnone. unfold get_app. rewrite Hint; cbv zeta. by rewrite Hnone. Qed.

Lemma get_app_present reg host port n create script_name :
  int port = Ok n →
  reg !! (host, PyInt n) = Some (create, script_name) →
  get_app reg host port
  = ([CreateApp (host, PyInt n)],
     app ← create tt; Ok (app, script_name)).
Proof. intros Hint Hsome. unfold get_app. rewrite Hint; cbv zeta. by rewrite Hsome. Qed.

End RegistryFacts.

(** [int] on text: the white space of the number parser and the two
    Latin-1 spaces above 127 are skipped, the separators U+001C to U+001F
    are not; for [bytes] only the white space of the parser is. *)
Lemma int_of_text :
  int (PyStr " 80 ") = Ok 80
  ∧ int (PyStr (String "160" (String "133" "80"))) = Ok 80
  ∧ int (PyStr (String "028" "80")) = Raise ValueError
  ∧ int (PyStr (String "031" "80")) = Raise ValueError
  ∧ int (PyBytes (b "80" ++ ["160"%byte])) = Raise ValueError.
Proof. repeat split; vm_compute; reflexivity. Qed.

Section ConnectFacts.

Variable base_connect : connection → result connection.

Implicit Types (reg : registry) (c : connection).

Lemma connect_absent reg c n :
  int (conn_port c) = Ok n →
  reg !! (conn_host c, PyInt n) = None →
  connect base_connect reg c = ([RealConnect], base_connect c).
Proof.
  intros Hint Hnone. unfold connect.
  by rewrite (get_app_absent _ _ _ n).
Qed.

Lemma connect_present reg c n create script_name app :
  int (conn_port c) = Ok n →
  reg !! (conn_host c, PyInt n) = Some (create, script_name) →
  create tt = Ok app →
  connect base_connect reg c
  = if app_truthy app
    then ([CreateApp (conn_host c, PyInt n)],
          Ok {| conn_host := conn_host c; conn_port := conn_port c;
                sock := Some (Fake (init app (conn_host c) (conn_port c)
                                      script_name)) |})
    else ([CreateApp (conn_host c, PyInt n); RealConnect],
          base_connect c).
Proof.
  intros Hint Hsome Happ. unfold connect.
  rewrite (get_app_present _ _ _ n create script_name) by done.
  rewrite Happ. cbn. by destruct (app_truthy app).
Qed.

End ConnectFacts.

(** C6.  Unregistering a key that has no entry returns the registry
    unchanged; registering a key and unregistering it at once leaves the
    registry without an entry for the key, so that [get_app] finds nothing
    there and calls no factory; and removing with no arguments gives a
    registry in which every lookup fails. *)
Theorem unregister_laws (reg : registry) (host port : pyval)
    (create : app_create_fn) (script_name : pyval) :
  (reg !! (host, port) = None →
   remove_wsgi_intercept [host; port] reg = Ok reg)
  ∧ (∃ reg',
        remove_wsgi_intercept [host; port]
          (add_wsgi_intercept host port create script_name reg) = Ok reg'
        ∧ reg' !! (host, port) = None
        ∧ (∀ n, port = PyInt n →
                get_app reg' host port = ([], Ok (AppNone, PyNone))))
  ∧ (∃ reg', remove_wsgi_intercept [] reg = Ok reg'
             ∧ ∀ key, reg' !! key = None).
Proof.
  split; [apply remove_absent|split].
  - destruct (remove_lookup
                (add_wsgi_intercept host port create script_name reg)
                host port) as (reg' & Hrem & ->).
    eexists; split; [exact Hrem|].
    split; [apply lookup_delete_eq|].
    intros n ->. apply (get_app_absent _ _ _ n); [done|].
    apply lookup_delete_eq.
  - exists ∅. split; [done|]. intros key. apply lookup_empty.
Qed.

Lemma unregister_laws_witness :
  remove_wsgi_intercept [Examples.example_test; PyInt 80] empty_registry
  = Ok empty_registry.
Proof.
  apply (proj1 (unregister_laws empty_registry Examples.example_test
                  (PyInt 80) (fun _ => Ok AppNone) (PyStr ""))).
  reflexivity.
Defined.

(** C9.  [add_wsgi_intercept] stores the port as given and [get_app] looks
    up [(host, int(port))].  For a string [p] with [int(p) = n]: an entry
    registered under the string [p] changes no answer of [get_app], so,
    unless [(host, n)] is registered as well, [get_app] called with [p]
    (or with [n]) finds nothing and [connect] makes the real connection;
    an entry registered under the integer [n] is found by [get_app] called
    with the string [p]. *)
Theorem port_coercion_asymmetry (base_connect : connection → result connection)
    (reg : registry) (host : pyval) (p : str) (n : Z)
    (create : app_create_fn) (script_name : pyval) (sk : option socket) :
  int (PyStr p) = Ok n →
  let by_string := add_wsgi_intercept host (PyStr p) create script_name reg in
  let by_int := add_wsgi_intercept host (PyInt n) create script_name reg in
  let c := {| conn_host := host; conn_port := PyStr p; sock := sk |} in
  by_string !! (host, PyStr p) = Some (create, script_name)
  ∧ (∀ h q, get_app by_string h q = get_app reg h q)
  ∧ (reg !! (host, PyInt n) = None →
     get_app by_string host (PyStr p) = ([], Ok (AppNone, PyNone))
     ∧ get_app by_string host (PyInt n) = ([], Ok (AppNone, PyNone))
     ∧ connect base_connect by_string c = ([RealConnect], base_connect c))
  ∧ get_app by_int host (PyStr p)
    = ([CreateApp (host, PyInt n)], app ← create tt; Ok (app, script_name)).
Proof.
  intros Hint by_string by_int c.
  assert (Hsame : ∀ h q, get_app by_string h q = get_app reg h q).
  { intros h q. unfold get_app. destruct (int q) as [m|e]; [|done].
    cbv zeta. subst by_string. by rewrite add_lookup_other. }
  split; [apply add_lookup|]. split; [exact Hsame|]. split.
  - intros Hnone. rewrite !Hsame.
    split; [by apply (get_app_absent _ _ _ n)|].
    split; [by apply (get_app_absent _ _ _ n)|].
    apply (connect_absent _ _ _ n); [done|].
    subst by_string c. cbn. by rewrite add_lookup_other.
  - apply (get_app_present _ _ _ n); [done|]. apply add_lookup.
Qed.

Lemma port_coercion_asymmetry_witness :
  get_app (add_wsgi_intercept Examples.example_test (PyStr "80")
             (fun _ => Ok Examples.truthy_app) (PyStr "") empty_registry)
    Examples.example_test (PyStr "80")
  = ([], Ok (AppNone, PyNone))
  ∧ get_app (add_wsgi_intercept Examples.example_test (PyInt 80)
               (fun _ => Ok Examples.truthy_app) (PyStr "") empty_registry)
      Examples.example_test (PyStr "80")
    = ([CreateApp (Examples.example_test, PyInt 80)],
       Ok (Examples.truthy_app, PyStr "")).
Proof.
  pose proof (port_coercion_asymmetry Examples.stub_connect empty_registry
                Examples.example_test "80" 80
                (fun _ => Ok Examples.truthy_app) (PyStr "") None
                eq_refl) as (_ & _ & Hstring & Hint).
  split; [|exact Hint].
  apply Hstring. reflexivity.
Defined.

(** C4, as amended.  Let the connection's port coerce to the integer [n].
    If [(host, n)] has no entry, [connect] calls the base class's [connect]
    exactly once, calls no factory, and its outcome is the base class's:
    it installs no fake socket of its own.  If [(host, n)] has an entry
    whose factory returns a truthy application, [connect] calls the factory
    exactly once, sets [sock] to a new [wsgi_fake_socket] built from the
    application, the host, the port and the stored script name, and does
    not call the base class's [connect]. *)
Theorem connect_dispatch (base_connect : connection → result connection)
    (reg : registry) (c : connection) (n : Z) :
  int (conn_port c) = Ok n →
  (reg !! (conn_host c, PyInt n) = None →
   connect base_connect reg c = ([RealConnect], base_connect c))
  ∧ (∀ create script_name app,
       reg !! (conn_host c, PyInt n) = Some (create, script_name) →
       create tt = Ok app →
       app_truthy app = true →
       connect base_connect reg c
       = ([CreateApp (conn_host c, PyInt n)],
          Ok {| conn_host := conn_host c; conn_port := conn_port c;
                sock := Some (Fake (init app (conn_host c) (conn_port c)
                                      script_name)) |})).
Proof.
  intros Hint. split.
  - intros Hnone. by apply (connect_absent _ _ _ n).
  - intros create script_name app Hsome Happ Htrue.
    rewrite (connect_present _ _ _ n create script_name app) by done.
    by rewrite Htrue.
Qed.

Lemma connect_dispatch_witness :
  connect Examples.stub_connect empty_registry Examples.plain_connection
  = ([RealConnect], Examples.stub_connect Examples.plain_connection)
  ∧ connect Examples.stub_connect Examples.truthy_registry
      Examples.plain_connection
    = ([CreateApp (Examples.example_test, PyInt 80)],
       Ok {| conn_host := Examples.example_test; conn_port := PyInt 80;
             sock := Some (Fake (init Examples.truthy_app
                                   Examples.example_test (PyInt 80)
                                   (PyStr ""))) |}).
Proof.
  split.
  - apply (proj1 (connect_dispatch Examples.stub_connect empty_registry
                    Examples.plain_connection 80 eq_refl)).
    reflexivity.
  - apply (proj2 (connect_dispatch Examples.stub_connect
                    Examples.truthy_registry Examples.plain_connection 80
                    eq_refl) (fun _ => Ok Examples.truthy_app) (PyStr "")
             Examples.truthy_app); reflexivity.
Defined.

(** C4, as stated, fails.  [example.test:80] is registered with a factory
    that returns a callable object whose truth value is false: [connect]
    calls the factory and then the base class's [connect], and the socket
    is the real one.  Hence not every registered address gets the fake
    socket. *)
Lemma connect_registered_falsy_counterexample :
  Examples.falsy_registry !! (Examples.example_test, PyInt 80)
  = Some ((fun _ => Ok Examples.falsy_app) : app_create_fn, PyStr "")
  ∧ connect Examples.stub_connect Examples.falsy_registry
      Examples.plain_connection
    = ([CreateApp (Examples.example_test, PyInt 80); RealConnect],
       Ok {| conn_host := Examples.example_test; conn_port := PyInt 80;
             sock := Some RealSocket |})
  ∧ ¬ (∀ (reg : registry) (c : connection) (n : Z)
         (create : app_create_fn) (script_name : pyval),
         int (conn_port c) = Ok n →
         reg !! (conn_host c, PyInt n) = Some (create, script_name) →
         ∃ app,
           create tt = Ok app
           ∧ connect Examples.stub_connect reg c
             = ([CreateApp (conn_host c, PyInt n)],
                Ok {| conn_host := conn_host c; conn_port := conn_port c;
                      sock := Some (Fake (init app (conn_host c)
                                            (conn_port c) script_name)) |})).
Proof.
  assert (Hreg : Examples.falsy_registry
                   !! (Examples.example_test, PyInt 80)
                 = Some ((fun _ => Ok Examples.falsy_app) : app_create_fn,
                         PyStr "")) by apply add_lookup.
  assert (Hrun : connect Examples.stub_connect Examples.falsy_registry
                   Examples.plain_connection
                 = ([CreateApp (Examples.example_test, PyInt 80);
                     RealConnect],
                    Ok {| conn_host := Examples.example_test;
                          conn_port := PyInt 80;
                          sock := Some RealSocket |})).
  { by rewrite (connect_present _ _ _ 80 (fun _ => Ok Examples.falsy_app)
                  (PyStr "") Examples.falsy_app). }
  split; [exact Hreg|]. split; [exact Hrun|].
  intros Hclaim.
  destruct (Hclaim Examples.falsy_registry Examples.plain_connection 80
              (fun _ => Ok Examples.falsy_app) (PyStr "") eq_refl Hreg)
    as (app & _ & Hfake).
  rewrite Hrun in Hfake. discriminate Hfake.
Qed.

(** C10.  When the entry for [(host, int(port))] has a factory that returns
    a falsy application, [None] for one, [connect] calls the factory, then
    calls the base class's [connect], and its outcome is the base class's:
    no fake socket is installed.  Apart from the factory call this is what
    [connect] does once the entry is removed. *)
Theorem falsy_app_falls_through
    (base_connect : connection → result connection)
    (reg : registry) (c : connection) (n : Z)
    (create : app_create_fn) (script_name : pyval) (app : application) :
  int (conn_port c) = Ok n →
  reg !! (conn_host c, PyInt n) = Some (create, script_name) →
  create tt = Ok app →
  app_truthy app = false →
  connect base_connect reg c
  = ([CreateApp (conn_host c, PyInt n); RealConnect], base_connect c)
  ∧ connect base_connect (delete (conn_host c, PyInt n) reg) c
    = ([RealConnect], base_connect c).
Proof.
  intros Hint Hsome Happ Hfalse. split.
  - rewrite (connect_present _ _ _ n create script_name app) by done.
    by rewrite Hfalse.
  - apply (connect_absent _ _ _ n); [done|]. apply lookup_delete_eq.
Qed.

Lemma falsy_app_falls_through_witness :
  connect Examples.stub_connect Examples.none_registry
    Examples.plain_connection
  = ([CreateApp (Examples.example_test, PyInt 80); RealConnect],
     Ok {| conn_host := Examples.example_test; conn_port := PyInt 80;
           sock := Some RealSocket |}).
Proof.
  apply (falsy_app_falls_through Examples.stub_connect
           Examples.none_registry Examples.plain_connection 80
           (fun _ => Ok AppNone) (PyStr "") AppNone); reflexivity.
Defined.

(* ===================================================================== *)
(** * [sendall] *)
(* ===================================================================== *)

(** C7.  [sendall] with [bytes] appends them to [self.inp].  With [str] it
    raises: [BytesIO.write] raises [TypeError], and the handler of that
    [TypeError] calls [text.decode], which [str] does not have, so
    [AttributeError] leaves [sendall] and [self.inp] is unchanged. *)
Theorem sendall_bytes_appends_str_raises
    (utf8_decode : bytes → result str) (s : wsgi_fake_socket) :
  (∀ bs, sendall utf8_decode (PyBytes bs) s
         = (Ok tt, set_inp (inp s ++ bs) s))
  ∧ (∀ text, sendall utf8_decode (PyStr text) s = (Raise AttributeError, s)).
Proof. split; intros; reflexivity. Qed.

(** The socket that [respond] starts from is the one [connect] builds,
    after [sendall] of the request as [bytes]. *)
Lemma loaded_by_sendall (utf8_decode : bytes → result str)
    (a : application) (host port script_name : pyval) (request : bytes) :
  sendall utf8_decode (PyBytes request) (init a host port script_name)
  = (Ok tt, loaded a host port script_name request).
Proof. reflexivity. Qed.

(* ===================================================================== *)
(** * The request decoder *)
(* ===================================================================== *)

Section StringFacts.

Lemma startswith_drop (url p : str) :
  startswith url p = true →
  url = String.append p (str_drop (String.length p) url).
Proof.
  unfold startswith. revert url.
  induction p as [|a p IH]; intros url Hpre; [done|].
  destruct url as [|c url]; [done|].
  cbn in Hpre. destruct (ascii_dec a c) as [->|]; [|done].
  change (String c url
          = String c (String.append p (str_drop (String.length p) url))).
  f_equal. by apply IH.
Qed.

Lemma split_once_spec {A} (is_sep : A → bool) (l p : list A)
    (q : option (list A)) :
  split_once is_sep l = (p, q) →
  Forall (λ x, is_sep x = false) p
  ∧ match q with
    | None => l = p
    | Some r => ∃ x, is_sep x = true ∧ l = p ++ x :: r
    end.
Proof.
  revert p q. induction l as [|c l IH]; intros p q Hsplit; cbn in Hsplit.
  - by inversion Hsplit.
  - destruct (is_sep c) eqn:Hc.
    + inversion Hsplit; subst. split; [constructor|]. by exists c.
    + destruct (split_once is_sep l) as [p' q'] eqn:Hrec.
      inversion Hsplit; subst.
      destruct (IH p' q eq_refl) as [Hall Hshape].
      split; [by constructor|].
      destruct q as [r|]; [|by f_equal].
      destruct Hshape as (x & Hx & ->). by exists x.
Qed.

Lemma string_of_list_ascii_app (p q : list ascii) :
  string_of_list_ascii (p ++ q)
  = String.append (string_of_list_ascii p) (string_of_list_ascii q).
Proof.
  induction p as [|c p IH]; [done|].
  change (String c (string_of_list_ascii (p ++ q))
          = String c (String.append (string_of_list_ascii p)
                        (string_of_list_ascii q))).
  by rewrite IH.
Qed.

(** [s.split(sep, 1)]: the first part is free of [sep]; either there is
    no second part and the first is [s], or [s] is the first part, [sep]
    and the second part. *)
Lemma str_split_once_spec (sep : ascii) (s path : str)
    (after : option str) :
  str_split_once sep s = (path, after) →
  ¬ In sep (list_ascii_of_string path)
  ∧ match after with
    | None => s = path
    | Some q => s = String.append path (String sep q)
    end.
Proof.
  unfold str_split_once.
  destruct (split_once (Ascii.eqb sep) (list_ascii_of_string s))
    as [p q] eqn:Hsplit.
  intros Heq; inversion Heq; subst; clear Heq.
  destruct (split_once_spec _ _ _ _ Hsplit) as [Hall Hshape].
  split.
  - rewrite list_ascii_of_string_of_list_ascii. intros Hin.
    rewrite Forall_forall in Hall.
    apply list_elem_of_In in Hin. specialize (Hall _ Hin).
    by rewrite Ascii.eqb_refl in Hall.
  - destruct q as [r|]; cbn.
    + destruct Hshape as (x & Hx & Hl).
      apply Ascii.eqb_eq in Hx; subst x.
      rewrite <- (string_of_list_ascii_of_string s), Hl.
      by rewrite string_of_list_ascii_app.
    + by rewrite <- Hshape, string_of_list_ascii_of_string.
Qed.

End StringFacts.

Section EnvironFacts.

Implicit Types (hv : header_vars) (env : environ) (k : string).

(** The header loop stores headers under keys that start with [HTTP_]. *)
Lemma header_line_keeps line hv hv' k :
  String.prefix "HTTP_" k = false →
  header_line line hv = Ok hv' →
  environ_of hv !! k = None →
  environ_of hv' !! k = None.
Proof.
  intros Hk Hline Hnone. unfold header_line in Hline.
  destruct (split_once _ _) as [key [v|]]; [|done].
  repeat match type of Hline with
         | (if ?c then _ else _) = _ => destruct c
         end;
    inversion Hline; subst; cbn; try done.
  rewrite lookup_insert_ne; [done|].
  intros <-. by destruct (decode_latin1 _).
Qed.

Lemma header_loop_keeps lines hv hv' unread k :
  String.prefix "HTTP_" k = false →
  header_loop lines hv = Ok (hv', unread) →
  environ_of hv !! k = None →
  environ_of hv' !! k = None.
Proof.
  intros Hk. revert hv.
  induction lines as [|line rest IH]; intros hv Hloop Hnone; cbn in Hloop.
  - by inversion Hloop; subst.
  - destruct (bytes_strip line) eqn:Hblank.
    + by inversion Hloop; subst.
    + destruct (header_line line hv) as [hv1|e] eqn:Hline; [|done].
      apply (IH hv1); [done|]. by apply (header_line_keeps line hv).
Qed.

Lemma lookup_set_if_ne key o env k :
  key ≠ k → set_if key o env !! k = env !! k.
Proof.
  intros Hne. unfold set_if. destruct (nonempty o); [|done].
  by rewrite lookup_insert_ne.
Qed.

Lemma lookup_set_if_eq key o env :
  set_if key o env !! key
  = match nonempty o with
    | Some s => Some (EnvStr s)
    | None => env !! key
    end.
Proof.
  unfold set_if. destruct (nonempty o); [|done]. by rewrite lookup_insert_eq.
Qed.

Lemma make_environ_url inp host port (mount : str) method url protocol
    hv unread :
  str_split " " (decode_latin1 (hd [] (readlines inp)))
  = [method; url; protocol] →
  header_loop (tl (readlines inp)) no_headers = Ok (hv, unread) →
  let script := if startswith url mount then mount else "" in
  let rest := if startswith url mount
              then str_drop (String.length mount) url else url in
  ∃ env,
    make_environ inp host port (PyStr mount) = Ok env
    ∧ env !! "SCRIPT_NAME" = Some (EnvObj (PyStr script))
    ∧ env !! "PATH_INFO" = Some (EnvStr (str_split_once "?" rest).1)
    ∧ env !! "QUERY_STRING"
      = EnvStr <$> nonempty (Some (default "" (str_split_once "?" rest).2)).
Proof.
  intros Hline Hloop script rest.
  assert (Hq : environ_of hv !! "QUERY_STRING" = None).
  { by apply (header_loop_keeps (tl (readlines inp)) no_headers hv unread). }
  unfold make_environ. rewrite Hloop. unfold mbind at 1, result_bind at 1.
  rewrite Hline. unfold url_startswith, mbind, result_bind.
  subst script rest.
  destruct (startswith url mount); cbn [negb len];
    destruct (str_split_once "?" _) as [path after];
    (eexists; split; [reflexivity|]);
    destruct (cookies hv);
    repeat split;
    repeat first
      [ rewrite lookup_insert_eq
      | rewrite lookup_insert_ne by done
      | rewrite lookup_set_if_ne by done
      | rewrite lookup_set_if_eq ];
    try done.
  all: cbn [fst snd]; destruct (nonempty _); cbn [fmap option_fmap option_map]; try done.
  all: repeat rewrite lookup_insert_ne by done; done.
Qed.

End EnvironFacts.

(** C5.  Let the request line split into method, URL and protocol and let
    the header lines parse.  Then [make_environ] returns an environment;
    if the URL starts with the mount path, [SCRIPT_NAME] is the mount path
    and the rest of the URL is the URL without that prefix, otherwise
    [SCRIPT_NAME] is empty and the rest is the whole URL, with no error
    either way; the rest is cut at its first ['?']: [PATH_INFO] is the part
    before it and contains no ['?'], and [QUERY_STRING] is the part after
    it, left out when there is no ['?'] or nothing after it.  In
    particular mount path [/app] and URL [/app/foo?x=1] give [PATH_INFO]
    [/foo] and [QUERY_STRING] [x=1]. *)
Theorem mount_path_stripping :
  (∀ (inp : bytes) (host port : pyval) (mount method url protocol : str)
     (hv : header_vars) (unread : list bytes),
     str_split " " (decode_latin1 (hd [] (readlines inp)))
     = [method; url; protocol] →
     header_loop (tl (readlines inp)) no_headers = Ok (hv, unread) →
     ∃ (env : environ) (script rest path : str),
       make_environ inp host port (PyStr mount) = Ok env
       ∧ (if startswith url mount
          then script = mount ∧ url = String.append mount rest
          else script = "" ∧ rest = url)
       ∧ env !! "SCRIPT_NAME" = Some (EnvObj (PyStr script))
       ∧ env !! "PATH_INFO" = Some (EnvStr path)
       ∧ ¬ In "?"%char (list_ascii_of_string path)
       ∧ ((rest = path ∧ env !! "QUERY_STRING" = None)
          ∨ ∃ query,
              rest = String.append path (String "?" query)
              ∧ env !! "QUERY_STRING"
                = if String.eqb query "" then None
                  else Some (EnvStr query)))
  ∧ (∀ (inp : bytes) (host port : pyval) (method protocol : str)
       (hv : header_vars) (unread : list bytes),
       str_split " " (decode_latin1 (hd [] (readlines inp)))
       = [method; "/app/foo?x=1"; protocol] →
       header_loop (tl (readlines inp)) no_headers = Ok (hv, unread) →
       ∃ env : environ,
         make_environ inp host port (PyStr "/app") = Ok env
         ∧ env !! "SCRIPT_NAME" = Some (EnvObj (PyStr "/app"))
         ∧ env !! "PATH_INFO" = Some (EnvStr "/foo")
         ∧ env !! "QUERY_STRING" = Some (EnvStr "x=1")).
Proof.
  split.
  - intros inp host port mount method url protocol hv unread Hline Hloop.
    destruct (make_environ_url inp host port mount method url protocol
                hv unread Hline Hloop)
      as (env & Henv & Hscript & Hpath & Hquery).
    pose proof (startswith_drop url mount) as Hdrop.
    destruct (startswith url mount).
    + destruct (str_split_once "?" (str_drop (String.length mount) url))
        as [path after] eqn:Hsplit.
      destruct (str_split_once_spec _ _ _ _ Hsplit) as [Hfree Hshape].
      exists env, mount, (str_drop (String.length mount) url), path.
      repeat split; try done; [by apply Hdrop|].
      destruct after as [query|]; [right|left; by split].
      exists query. split; [done|]. rewrite Hquery. cbn.
      by destruct (String.eqb query "").
    + destruct (str_split_once "?" url) as [path after] eqn:Hsplit.
      destruct (str_split_once_spec _ _ _ _ Hsplit) as [Hfree Hshape].
      exists env, "", url, path.
      repeat split; try done.
      destruct after as [query|]; [right|left; by split].
      exists query. split; [done|]. rewrite Hquery. cbn.
      by destruct (String.eqb query "").
  - intros inp host port method protocol hv unread Hline Hloop.
    destruct (make_environ_url inp host port "/app" method "/app/foo?x=1"
                protocol hv unread Hline Hloop)
      as (env & Henv & Hscript & Hpath & Hquery).
    exists env. by repeat split.
Qed.

Lemma mount_path_stripping_witness :
  ∃ env : environ,
    make_environ Examples.get_app_foo Examples.example_test (PyInt 80)
      (PyStr "/app") = Ok env
    ∧ env !! "SCRIPT_NAME" = Some (EnvObj (PyStr "/app"))
    ∧ env !! "PATH_INFO" = Some (EnvStr "/foo")
    ∧ env !! "QUERY_STRING" = Some (EnvStr "x=1").
Proof.
  eapply (proj2 mount_path_stripping Examples.get_app_foo
            Examples.example_test (PyInt 80) "GET");
    vm_compute; reflexivity.
Defined.

(* ===================================================================== *)
(** * The fake socket: running the callbacks *)
(* ===================================================================== *)

Section MonadFacts.

Implicit Types (s : wsgi_fake_socket).

Lemma bind_ok {A B} (m : M A) (k : A → M B) s a s' :
  m s = (Ok a, s') → (m ≫= k) s = k a s'.
Proof. intros Hm. unfold mbind, M_bind. by rewrite Hm. Qed.

Lemma bind_raise {A B} (m : M A) (k : A → M B) s e s' :
  m s = (Raise e, s') → (m ≫= k) s = (Raise e, s').
Proof. intros Hm. unfold mbind, M_bind. by rewrite Hm. Qed.

Lemma extend_nil s : extend [] [] [] s = s.
Proof. destruct s. unfold extend; cbn. by rewrite !app_nil_r. Qed.

Lemma extend_extend out1 ws1 evs1 out2 ws2 evs2 s :
  extend out2 ws2 evs2 (extend out1 ws1 evs1 s)
  = extend (out1 ++ out2) (ws1 ++ ws2) (evs1 ++ evs2) s.
Proof. unfold extend; cbn. by rewrite !app_assoc. Qed.

Lemma output_write_bytes bs s :
  output_write (PyBytes bs) s = (Ok tt, extend bs [] [] s).
Proof.
  destruct s. unfold output_write, extend; cbn. by rewrite !app_nil_r.
Qed.

Lemma write_fn_run data s :
  write_fn data s = (Ok tt, extend [] [data] [] s).
Proof.
  destruct s. unfold write_fn, extend; cbn. by rewrite !app_nil_r.
Qed.

End MonadFacts.

Section CallbackFacts.

Implicit Types (s : wsgi_fake_socket).

Lemma encode_if_str_text v :
  is_text v = true → encode_if_str v = Ok (PyBytes (wire v)).
Proof. by destruct v. Qed.

Lemma write_headers hs s :
  forallb header_ok hs = true →
  for_each hs (fun kv =>
      k ← lift (encode_if_str kv.1);
      v ← lift (encode_if_str kv.2);
      line ← lift (x ← bytes_add k (PyBytes (b ":"));
                   y ← bytes_add x v;
                   bytes_add y (PyBytes LF));
      output_write line) s
  = (Ok tt, extend (concat (map header_wire hs)) [] [] s).
Proof.
  revert s. induction hs as [|[k v] hs IH]; intros s Hok.
  - cbn. by rewrite extend_nil.
  - cbn in Hok. apply andb_prop in Hok as [Hkv Hok].
    unfold header_ok in Hkv. apply andb_prop in Hkv as [Hk Hv].
    cbn [for_each].
    rewrite (bind_ok _ _ s tt (extend (header_wire (k, v)) [] [] s)).
    + rewrite IH by done. rewrite extend_extend. cbn [concat map].
      done.
    + cbn [fst snd]. unfold lift, header_wire, mbind, M_bind.
      rewrite (encode_if_str_text k), (encode_if_str_text v) by done.
      cbn [bytes_add fst snd mbind result_bind].
      rewrite output_write_bytes. by rewrite <- !app_assoc.
Qed.

Lemma start_response_ok status hs s :
  forallb header_ok hs = true →
  start_response (PyStr status) hs s
  = (Ok tt, extend (header_block status hs) [] [] s).
Proof.
  intros Hok. unfold start_response.
  rewrite (bind_ok _ _ s (PyBytes (encode_utf8 status)) s) by done.
  rewrite (bind_ok _ _ s
             (PyBytes ((b "HTTP/1.0 " ++ encode_utf8 status) ++ LF)) s)
    by done.
  rewrite (bind_ok _ _ s tt
             (extend ((b "HTTP/1.0 " ++ encode_utf8 status) ++ LF) [] [] s))
    by apply output_write_bytes.
  rewrite (bind_ok _ _ _ tt _ (write_headers hs _ Hok)).
  rewrite output_write_bytes, !extend_extend.
  unfold header_block. by rewrite <- !app_assoc.
Qed.

Lemma run_actions_ok acts s :
  forallb action_ok acts = true →
  for_each acts run_action s
  = (Ok tt, extend (started acts) (written acts) [] s).
Proof.
  revert s. induction acts as [|a acts IH]; intros s Hok.
  - cbn. by rewrite extend_nil.
  - cbn in Hok. apply andb_prop in Hok as [Ha Hok].
    cbn [for_each].
    destruct a as [status hs|data].
    + destruct status as [| |status|]; try done.
      rewrite (bind_ok _ _ s tt (extend (header_block status hs) [] [] s))
        by by apply start_response_ok.
      rewrite IH by done. by rewrite extend_extend.
    + rewrite (bind_ok _ _ s tt (extend [] [data] [] s))
        by apply write_fn_run.
      rewrite IH by done. by rewrite extend_extend.
Qed.

Lemma flush_bytes ws s :
  forallb is_bytes ws = true →
  for_each ws output_write s = (Ok tt, extend (payload ws) [] [] s).
Proof.
  revert s. induction ws as [|w ws IH]; intros s Hok.
  - cbn. by rewrite extend_nil.
  - cbn in Hok. apply andb_prop in Hok as [Hw Hok].
    destruct w as [| | |bs]; try done.
    cbn [for_each].
    rewrite (bind_ok _ _ s tt (extend bs [] [] s))
      by apply output_write_bytes.
    rewrite IH by done. by rewrite extend_extend.
Qed.

End CallbackFacts.

Section IteratorFacts.

Implicit Types (s : wsgi_fake_socket) (it rest : list pull).

Lemma log_next s :
  (s' ← get; modify (set_trace (trace s' ++ [EvNext]))) s
  = (Ok tt, extend [] [] [EvNext] s).
Proof. destruct s. unfold extend; cbn. by rewrite !app_nil_r. Qed.

Lemma next_nil s :
  next [] s = (Raise StopIteration, extend [] [] [EvNext] s).
Proof. destruct s. unfold next, extend; cbn. by rewrite !app_nil_r. Qed.

Lemma next_cons acts out rest s :
  forallb action_ok acts = true →
  next ((acts, out) :: rest) s
  = (match out with Yield item => Ok item | Throw e => Raise e end,
     extend (started acts) (written acts) [EvNext] s).
Proof.
  intros Hok. unfold next.
  rewrite (bind_ok _ _ s s s) by done.
  rewrite (bind_ok _ _ s tt (extend [] [] [EvNext] s)).
  2:{ destruct s. unfold extend; cbn. by rewrite !app_nil_r. }
  rewrite (bind_ok _ _ _ tt _ (run_actions_ok acts _ Hok)).
  rewrite extend_extend. cbn [app]. rewrite app_nil_r.
  by destruct out.
Qed.

Lemma while_next_ok it s :
  forallb pull_ok it = true →
  while_next it s
  = (Raise StopIteration,
     extend (drained it) (all_written it)
       (repeat EvNext (S (length it))) s).
Proof.
  revert s. induction it as [|[acts out] rest IH]; intros s Hok.
  - cbn [while_next]. rewrite (bind_raise _ _ _ _ _ (next_nil s)). done.
  - cbn in Hok. apply andb_prop in Hok as [Hp Hok].
    unfold pull_ok in Hp. cbn [fst snd] in Hp.
    apply andb_prop in Hp as [Hacts Hout].
    destruct out as [item|e]; [|done].
    destruct item as [| | |c]; try done.
    cbn [while_next].
    rewrite (bind_ok _ _ _ _ _ (next_cons acts (Yield (PyBytes c)) rest s Hacts)).
    rewrite (bind_ok _ _ _ _ _ (output_write_bytes c _)).
    rewrite IH by done. rewrite !extend_extend.
    unfold all_written. cbn [drained wire concat map fst length repeat].
    done.
Qed.
End IteratorFacts.

Section MakefileFacts.

Implicit Types (s : wsgi_fake_socket) (h : handler).

Lemma get_bind {A} (k : wsgi_fake_socket → M A) s :
  (get ≫= k) s = k s s.
Proof. reflexivity. Qed.

Lemma call_app_ok truth h env ar s :
  call_returns (h env) = Ok ar →
  forallb action_ok (call_effects (h env)) = true →
  call_app (AppObject truth h) env s
  = (Ok ar, extend (started (call_effects (h env)))
              (written (call_effects (h env))) [] s).
Proof.
  intros Hret Hok. unfold call_app.
  rewrite (bind_ok _ _ _ tt _ (run_actions_ok _ s Hok)).
  unfold lift. by rewrite Hret.
Qed.

(** The first pull and the flush of the buffered writes. *)
Lemma first_pull_nil s :
  forallb is_bytes (write_results s) = true →
  try_finally (next [])
    (s' ← get; for_each (write_results s') output_write) s
  = (Raise StopIteration,
     extend (payload (write_results s)) [] [EvNext] s).
Proof.
  intros Hbytes. unfold try_finally. rewrite next_nil.
  rewrite get_bind.
  rewrite flush_bytes.
  - rewrite extend_extend. cbn [extend write_results app].
    by rewrite !app_nil_r.
  - cbn [extend write_results]. by rewrite app_nil_r.
Qed.

Lemma first_pull_cons acts out rest s :
  forallb action_ok acts = true →
  forallb is_bytes (write_results s ++ written acts) = true →
  try_finally (next ((acts, out) :: rest))
    (s' ← get; for_each (write_results s') output_write) s
  = (match out with Yield item => Ok item | Throw e => Raise e end,
     extend (started acts ++ payload (write_results s ++ written acts))
       (written acts) [EvNext] s).
Proof.
  intros Hok Hbytes. unfold try_finally. rewrite next_cons by done.
  rewrite get_bind.
  rewrite flush_bytes by done.
  rewrite extend_extend. cbn [extend write_results app].
  by rewrite !app_nil_r.
Qed.


(** The end of [makefile]: [close] if there is one, then the output. *)
Lemma makefile_end ar s :
  ((if has_close ar
    then s' ← get; modify (set_trace (trace s' ++ [EvClose]))
    else mret tt)
   ≫= λ _ : (), s' ← get; mret (output s')) s
  = (Ok (output s), extend [] [] (closing ar) s).
Proof.
  unfold closing. destruct s, (has_close ar); unfold extend; cbn;
    by rewrite !app_nil_r.
Qed.

Lemma makefile_clean truth h host port sn request env ar :
  make_environ request host port sn = Ok env →
  call_returns (h env) = Ok ar →
  clean (call_effects (h env)) (pulls ar) = true →
  makefile (loaded (AppObject truth h) host port sn request)
  = (Ok (response (call_effects (h env)) (pulls ar)),
     extend (response (call_effects (h env)) (pulls ar))
       (buffered (call_effects (h env)) (pulls ar))
       (repeat EvNext (pulls_made (pulls ar)) ++ closing ar)
       (loaded (AppObject truth h) host port sn request)).
Proof.
  intros Henv Hret Hclean.
  remember (loaded (AppObject truth h) host port sn request) as s0 eqn:Hs0.
  assert (Hfields : inp s0 = request ∧ FakeSocket.host s0 = host
                    ∧ FakeSocket.port s0 = port ∧ script_name s0 = sn
                    ∧ app s0 = AppObject truth h
                    ∧ write_results s0 = [] ∧ output s0 = []).
  { by subst s0. }
  destruct Hfields as (Hinp & Hhost & Hport & Hsn & Happ & Hws & Hout).
  unfold makefile. rewrite get_bind.
  rewrite Hinp, Hhost, Hport, Hsn, Happ.
  rewrite (bind_ok _ _ s0 env s0) by (unfold lift; by rewrite Henv).
  unfold clean in Hclean.
  apply andb_prop in Hclean as [Hclean Hps].
  apply andb_prop in Hclean as [Hce Hwce].
  rewrite (bind_ok _ _ _ _ _ (call_app_ok truth h env ar s0 Hret Hce)).
  set (ce := call_effects (h env)) in *.
  set (s1 := extend (started ce) (written ce) [] s0).
  assert (Hws1 : write_results s1 = written ce).
  { subst s1. cbn [extend write_results]. by rewrite Hws. }
  assert (Hout1 : output s1 = started ce).
  { subst s1. cbn [extend output]. by rewrite Hout. }
  clear Hs0 Hinp Hhost Hport Hsn Happ.
  destruct (pulls ar) as [|[a1 first] rest].
  - (* exhausted at the first pull *)
    match goal with
    | |- (except_StopIteration ?body ≫= _) _ = _ =>
        assert (Hblock : except_StopIteration body s1
                         = (Ok tt, extend (payload (written ce)) []
                                     [EvNext] s1))
    end.
    { unfold except_StopIteration.
      rewrite (bind_raise _ _ _ StopIteration
                 (extend (payload (written ce)) [] [EvNext] s1)); [done|].
      rewrite first_pull_nil; by rewrite Hws1. }
    rewrite (bind_ok _ _ _ _ _ Hblock), makefile_end.
    subst s1. rewrite !extend_extend.
    cbn [extend output response buffered pulls_made repeat app].
    rewrite Hout, !app_nil_r. done.
  - apply andb_prop in Hps as [Hps Hfirst].
    apply andb_prop in Hps as [Ha1 Hwa1].
    assert (Hall : forallb is_bytes (write_results s1 ++ written a1)
                   = true).
    { rewrite Hws1, forallb_app. by rewrite Hwce, Hwa1. }
    pose proof (first_pull_cons a1 first rest s1 Ha1 Hall) as Hpull.
    rewrite Hws1 in Hpull.
    set (flushed := started a1 ++ payload (written ce ++ written a1)) in *.
    destruct first as [item|e].
    + destruct (truthy item) eqn:Htruthy.
      * (* a truthy first item: written, then the loop *)
        apply andb_prop in Hfirst as [Hitem Hrest].
        destruct item as [| | |c]; try done.
        match goal with
        | |- (except_StopIteration ?body ≫= _) _ = _ =>
            assert (Hblock :
                     except_StopIteration body s1
                     = (Ok tt,
                        extend (flushed ++ c ++ drained rest)
                          (written a1 ++ all_written rest)
                          (repeat EvNext (S (S (length rest)))) s1))
        end.
        { unfold except_StopIteration.
          rewrite (bind_ok _ _ _ _ _ Hpull), Htruthy.
          rewrite (bind_ok _ _ _ _ _ (output_write_bytes c _)).
          cbn [tail]. rewrite while_next_ok by done.
          rewrite !extend_extend. cbn [app repeat].
          by rewrite <- ?app_assoc, ?app_nil_r. }
        rewrite (bind_ok _ _ _ _ _ Hblock), makefile_end.
        subst s1 flushed. rewrite !extend_extend.
        cbn [extend output response buffered pulls_made continues
               yielded concat map snd wire].
        rewrite Htruthy, Hout.
        cbn [app]. by rewrite <- ?app_assoc, ?app_nil_r.
      * (* a falsy first item: nothing more is pulled *)
        match goal with
        | |- (except_StopIteration ?body ≫= _) _ = _ =>
            assert (Hblock :
                     except_StopIteration body s1
                     = (Ok tt, extend flushed (written a1) [EvNext] s1))
        end.
        { unfold except_StopIteration.
          by rewrite (bind_ok _ _ _ _ _ Hpull), Htruthy. }
        rewrite (bind_ok _ _ _ _ _ Hblock), makefile_end.
        subst s1 flushed. rewrite !extend_extend.
        cbn [extend output response buffered pulls_made continues].
        rewrite Htruthy, Hout.
        cbn [app repeat]. by rewrite <- ?app_assoc, ?app_nil_r.
    + (* the first pull raises [StopIteration] *)
      destruct e; try done.
      match goal with
      | |- (except_StopIteration ?body ≫= _) _ = _ =>
          assert (Hblock :
                   except_StopIteration body s1
                   = (Ok tt, extend flushed (written a1) [EvNext] s1))
      end.
      { unfold except_StopIteration.
        by rewrite (bind_raise _ _ _ _ _ Hpull). }
      rewrite (bind_ok _ _ _ _ _ Hblock), makefile_end.
      subst s1 flushed. rewrite !extend_extend.
      cbn [extend output response buffered pulls_made continues].
      rewrite Hout.
      cbn [app repeat]. by rewrite <- ?app_assoc, ?app_nil_r.
Qed.

End MakefileFacts.

(* ===================================================================== *)
(** * [makefile]: the response stream *)
(* ===================================================================== *)

Section ResponseFacts.

Lemma responses_app (x y : list action) :
  responses (x ++ y) = responses x ++ responses y.
Proof.
  induction x as [|[status headers|data] x IH]; cbn; [done| |done].
  by rewrite IH.
Qed.

Lemma started_app (x y : list action) :
  started (x ++ y) = started x ++ started y.
Proof. unfold started. by rewrite responses_app, map_app, concat_app. Qed.

Lemma written_app (x y : list action) :
  written (x ++ y) = written x ++ written y.
Proof.
  induction x as [|[status headers|data] x IH]; cbn; [done|done|].
  by rewrite IH.
Qed.

Lemma started_once (acts : list action) status headers :
  responses acts = [(PyStr status, headers)] →
  started acts = header_block status headers.
Proof.
  intros Hone. unfold started. rewrite Hone.
  cbn [map concat fst snd]. apply app_nil_r.
Qed.

Lemma started_none (acts : list action) :
  responses acts = [] → started acts = [].
Proof. intros Hnone. unfold started. by rewrite Hnone. Qed.

Lemma responses_without_writes (acts : list action) :
  responses (filter (λ a, is_start_response a = true) acts)
  = responses acts.
Proof.
  induction acts as [|[status headers|data] acts IH]; [done| |done].
  rewrite filter_cons_True by done. cbn. by rewrite IH.
Qed.

Lemma drained_without_writes (it : list pull) :
  drained (map without_writes it) = drained it.
Proof.
  induction it as [|[acts [item|e]] it IH]; [done| |];
    cbn [map without_writes drained fst snd]; unfold started;
    rewrite responses_without_writes; [by rewrite IH|done].
Qed.

Lemma drained_yielded (it : list pull) :
  forallb pull_ok it = true →
  Forall (λ p : pull, responses p.1 = []) it →
  drained it = yielded it.
Proof.
  induction it as [|[acts out] it IH]; intros Hok Hnone; [done|].
  cbn in Hok. apply andb_prop in Hok as [Hp Hok].
  apply andb_prop in Hp as [_ Hout]. cbn [snd] in Hout.
  inversion Hnone as [|? ? Hacts Hrest]; subst. cbn [fst] in Hacts.
  destruct out as [item|e]; [|done].
  cbn [drained]. rewrite (started_none acts Hacts), IH by done.
  done.
Qed.

End ResponseFacts.

(** C1.  In a run whose callbacks are called with well-typed arguments and
    whose data passed to [write_fn] up to the end of the first pull is
    [bytes], [makefile] first calls [next] once and then writes out all the
    data passed to [write_fn] so far, also when that first [next] raised
    [StopIteration].  When the iterator is exhausted at once, or the first
    item is falsy, the response ends there and [next] was called once.
    When the first item is non-empty [bytes] and the later pulls yield
    [bytes], the response goes on with the first item and then with the
    item of every later pull, in order, until [StopIteration].  So data
    passed to [write_fn] while the first item is produced and the first
    item are both in the response, the data first. *)
Theorem makefile_drives_output (truth : bool) (h : handler)
    (host port script_name : pyval) (request : bytes) (env : environ)
    (ce : list action) (ar : app_result) :
  make_environ request host port script_name = Ok env →
  call_effects (h env) = ce →
  call_returns (h env) = Ok ar →
  forallb action_ok ce = true →
  forallb is_bytes (written ce) = true →
  (pulls ar = [] →
   respond (AppObject truth h) host port script_name request
   = (Ok (started ce ++ payload (written ce)),
      extend (started ce ++ payload (written ce)) (written ce)
        ([EvNext] ++ closing ar)
        (loaded (AppObject truth h) host port script_name request)))
  ∧ (∀ a1 first rest,
       pulls ar = (a1, first) :: rest →
       forallb action_ok a1 = true →
       forallb is_bytes (written a1) = true →
       (first = Throw StopIteration ∨ (∃ item, first = Yield item
                                               ∧ truthy item = false) →
        respond (AppObject truth h) host port script_name request
        = (Ok (started ce ++ started a1
                 ++ payload (written ce ++ written a1)),
           extend (started ce ++ started a1
                     ++ payload (written ce ++ written a1))
             (written ce ++ written a1)
             ([EvNext] ++ closing ar)
             (loaded (AppObject truth h) host port script_name request)))
       ∧ (∀ c, first = Yield (PyBytes c) →
               c ≠ [] →
               forallb pull_ok rest = true →
               respond (AppObject truth h) host port script_name request
               = (Ok (started ce ++ started a1
                        ++ payload (written ce ++ written a1)
                        ++ c ++ drained rest),
                  extend (started ce ++ started a1
                            ++ payload (written ce ++ written a1)
                            ++ c ++ drained rest)
                    (written ce ++ written a1 ++ all_written rest)
                    (repeat EvNext (length rest + 2) ++ closing ar)
                    (loaded (AppObject truth h) host port script_name
                       request)))).
Proof.
  intros Henv <- Hret Hce Hwce. unfold respond. split.
  - intros Hps.
    rewrite (makefile_clean truth h host port script_name request env ar
               Henv Hret).
    + by rewrite Hps.
    + unfold clean. by rewrite Hps, Hce, Hwce.
  - intros a1 first rest Hps Ha1 Hwa1. split.
    + intros Hstop.
      rewrite (makefile_clean truth h host port script_name request env ar
                 Henv Hret).
      * rewrite Hps. cbn [response buffered pulls_made].
        destruct Hstop as [->|(item & -> & Hfalsy)]; cbn [continues];
          rewrite ?Hfalsy, ?app_nil_r; done.
      * unfold clean. rewrite Hps, Hce, Hwce, Ha1, Hwa1.
        destruct Hstop as [->|(item & -> & Hfalsy)]; [done|].
        by rewrite Hfalsy.
    + intros c -> Hc Hrest.
      assert (Htruthy : truthy (PyBytes c) = true) by by destruct c.
      rewrite (makefile_clean truth h host port script_name request env ar
                 Henv Hret).
      * rewrite Hps. cbn [response buffered pulls_made continues].
        rewrite Htruthy. unfold yielded.
        cbn [map concat snd wire]. rewrite app_nil_r.
        by replace (length rest + 2)%nat with (S (S (length rest))) by lia.
      * unfold clean. rewrite Hps, Hce, Hwce, Ha1, Hwa1, Htruthy.
        by rewrite Hrest.
Qed.


Lemma root_environ_made :
  make_environ Examples.get_root Examples.example_test (PyInt 80) (PyStr "")
  = Ok Examples.root_environ.
Proof.
  exact (eq_refl (Ok Examples.root_environ)
         <: make_environ Examples.get_root Examples.example_test
              (PyInt 80) (PyStr "") = Ok Examples.root_environ).
Qed.

Lemma makefile_drives_output_witness :
  (respond Examples.truthy_app Examples.example_test (PyInt 80) (PyStr "")
     Examples.get_root).1
  = Ok (b "HTTP/1.0 200 OK" ++ LF ++ b "Content-Type:text/plain" ++ LF
          ++ LF ++ b "world" ++ b "hello ").
Proof.
  destruct (makefile_drives_output true Examples.hello_world
               Examples.example_test (PyInt 80) (PyStr "")
               Examples.get_root Examples.root_environ
               []
               {| pulls := [([StartResponse (PyStr "200 OK")
                                Examples.text_plain;
                              WriteFn (PyBytes (b "world"))],
                             Yield (PyBytes (b "hello ")))];
                  has_close := true |}
               root_environ_made eq_refl eq_refl eq_refl eq_refl)
    as [_ Hpulls].
  destruct (Hpulls _ _ _ eq_refl eq_refl eq_refl) as [_ Hgoes].
  unfold Examples.truthy_app.
  rewrite (Hgoes (b "hello ") eq_refl); [reflexivity|done|reflexivity].
Defined.

(** C2.  [start_response], called with a [str] status and header names and
    values that are [str] or [bytes], at once appends to the output the
    line [HTTP/1.0 <status>], one line [<name>:<value>] per header in
    order, and an empty line; it defers nothing.  In a well-typed run in
    which the application calls [start_response] once, before its first
    item is produced, the response that [makefile] returns is exactly
    those lines followed by the body bytes. *)
Theorem wire_format :
  (∀ (s : wsgi_fake_socket) (status : str) (headers : list (pyval * pyval)),
     forallb header_ok headers = true →
     start_response (PyStr status) headers s
     = (Ok tt,
        extend (b "HTTP/1.0 " ++ encode_utf8 status ++ LF
                  ++ concat (map (λ kv, wire kv.1 ++ b ":" ++ wire kv.2 ++ LF)
                               headers)
                  ++ LF) [] [] s))
  ∧ (∀ (truth : bool) (h : handler) (host port script_name : pyval)
       (request : bytes) (env : environ) (ar : app_result)
       (status : str) (headers : list (pyval * pyval)),
       make_environ request host port script_name = Ok env →
       call_returns (h env) = Ok ar →
       clean (call_effects (h env)) (pulls ar) = true →
       responses (call_effects (h env) ++ first_effects (pulls ar))
       = [(PyStr status, headers)] →
       Forall (λ p : pull, responses p.1 = []) (tl (pulls ar)) →
       (respond (AppObject truth h) host port script_name request).1
       = Ok (b "HTTP/1.0 " ++ encode_utf8 status ++ LF
               ++ concat (map (λ kv, wire kv.1 ++ b ":" ++ wire kv.2 ++ LF)
                            headers)
               ++ LF
               ++ body_bytes (call_effects (h env)) (pulls ar))).
Proof.
  split.
  - intros s status headers Hok. by rewrite start_response_ok.
  - intros truth h host port script_name request env ar status headers
      Henv Hret Hclean Honce Hlater.
    unfold respond.
    rewrite (makefile_clean truth h host port script_name request env ar
               Henv Hret Hclean).
    cbn [fst]. f_equal.
    change (b "HTTP/1.0 " ++ encode_utf8 status ++ LF
              ++ concat (map (λ kv, wire kv.1 ++ b ":" ++ wire kv.2 ++ LF)
                           headers)
              ++ LF
              ++ body_bytes (call_effects (h env)) (pulls ar))
      with (b "HTTP/1.0 " ++ encode_utf8 status ++ LF
              ++ concat (map header_wire headers)
              ++ LF
              ++ body_bytes (call_effects (h env)) (pulls ar)).
    transitivity (header_block status headers
                    ++ body_bytes (call_effects (h env)) (pulls ar));
      [|unfold header_block; by rewrite <- !app_assoc].
    rewrite <- (started_once _ _ _ Honce), started_app.
    unfold clean in Hclean.
    destruct (pulls ar) as [|[a1 first] rest].
    + cbn [response first_effects body_bytes started].
      by rewrite <- !app_assoc.
    + cbn [response first_effects body_bytes fst tail] in *.
      rewrite <- !app_assoc. do 3 f_equal.
      destruct (continues first) eqn:Hgo; [|done].
      destruct first as [item|e]; [|done]. cbn [continues] in Hgo.
      rewrite Hgo in Hclean.
      apply andb_prop in Hclean as [_ Hfirst].
      apply andb_prop in Hfirst as [_ Hitem].
      apply andb_prop in Hitem as [_ Hrest].
      rewrite drained_yielded by done.
      unfold yielded. cbn [map concat]. by rewrite app_nil_r.
Qed.

Lemma wire_format_witness :
  (respond (AppObject true Examples.hello_list) Examples.example_test
     (PyInt 80) (PyStr "") Examples.get_root).1
  = Ok (b "HTTP/1.0 200 OK" ++ LF
          ++ b "Content-Type:text/plain" ++ LF
          ++ b "X-Id:7" ++ LF
          ++ LF
          ++ b "hello").
Proof.
  rewrite (proj2 wire_format true Examples.hello_list Examples.example_test
             (PyInt 80) (PyStr "") Examples.get_root Examples.root_environ
             {| pulls := [([], Yield (PyBytes (b "hello")))];
                has_close := false |}
             "200 OK" Examples.two_headers root_environ_made eq_refl
             eq_refl eq_refl (List.Forall_nil _)).
  reflexivity.
Defined.

(** C8.  In a well-typed run whose first item is non-empty [bytes], the
    data passed to [write_fn] is written to the output once, right after
    the first pull: the response holds the data passed up to the end of
    the first pull, between what [start_response] wrote by then and the
    first item.  Data passed to [write_fn] during a later pull is appended
    to [self.write_results], whatever its type, and is not in the
    response: the response is the one of the same pulls with those calls
    left out. *)
Theorem late_writes_dropped (truth : bool) (h : handler)
    (host port script_name : pyval) (request : bytes) (env : environ)
    (ce : list action) (ar : app_result)
    (a1 : list action) (c : bytes) (rest : list pull) :
  make_environ request host port script_name = Ok env →
  call_effects (h env) = ce →
  call_returns (h env) = Ok ar →
  pulls ar = (a1, Yield (PyBytes c)) :: rest →
  c ≠ [] →
  forallb action_ok ce = true →
  forallb is_bytes (written ce) = true →
  forallb action_ok a1 = true →
  forallb is_bytes (written a1) = true →
  forallb pull_ok rest = true →
  (respond (AppObject truth h) host port script_name request).1
  = Ok (started ce ++ started a1
          ++ payload (written ce ++ written a1)
          ++ c ++ drained (map without_writes rest))
  ∧ write_results
      (respond (AppObject truth h) host port script_name request).2
    = written ce ++ written a1 ++ all_written rest.
Proof.
  intros Henv <- Hret Hps Hc Hce Hwce Ha1 Hwa1 Hrest.
  assert (Htruthy : truthy (PyBytes c) = true) by by destruct c.
  unfold respond.
  rewrite (makefile_clean truth h host port script_name request env ar
             Henv Hret).
  - rewrite Hps, drained_without_writes.
    cbn [fst snd response buffered continues extend write_results].
    rewrite Htruthy. unfold yielded. cbn [map concat snd wire].
    by rewrite app_nil_r.
  - unfold clean. by rewrite Hps, Hce, Hwce, Ha1, Hwa1, Htruthy, Hrest.
Qed.

Lemma late_writes_dropped_witness :
  (respond (AppObject true Examples.late_writer) Examples.example_test
     (PyInt 80) (PyStr "") Examples.get_root).1
  = Ok (b "HTTP/1.0 200 OK" ++ LF ++ b "Content-Type:text/plain" ++ LF
          ++ LF ++ b "early " ++ b "one " ++ b "two")
  ∧ write_results
      (respond (AppObject true Examples.late_writer) Examples.example_test
         (PyInt 80) (PyStr "") Examples.get_root).2
    = [PyBytes (b "early "); PyBytes (b "late ")].
Proof.
  destruct (late_writes_dropped true Examples.late_writer
              Examples.example_test (PyInt 80) (PyStr "")
              Examples.get_root Examples.root_environ
              [StartResponse (PyStr "200 OK") Examples.text_plain]
              {| pulls := [([WriteFn (PyBytes (b "early "))],
                            Yield (PyBytes (b "one ")));
                           ([WriteFn (PyBytes (b "late "))],
                            Yield (PyBytes (b "two")))];
                 has_close := false |}
              [WriteFn (PyBytes (b "early "))] (b "one ")
              [([WriteFn (PyBytes (b "late "))],
                Yield (PyBytes (b "two")))]
              root_environ_made eq_refl eq_refl eq_refl)
    as [Hout Hbuf]; [done|reflexivity..|].
  rewrite Hout, Hbuf. split; reflexivity.
Defined.

(* ===================================================================== *)
(** * [makefile]: the calls on the application's result *)
(* ===================================================================== *)

Section TraceFacts.

Implicit Types (s : wsgi_fake_socket).

Lemma keeps_trace_ret {A} (a : A) : keeps_trace (mret a : M A).
Proof. done. Qed.

Lemma keeps_trace_raise {A} (e : exn) : keeps_trace (raise e : M A).
Proof. done. Qed.

Lemma keeps_trace_lift {A} (r : result A) : keeps_trace (lift r).
Proof. done. Qed.

Lemma keeps_trace_bind {A B} (m : M A) (k : A → M B) :
  keeps_trace m → (∀ a, keeps_trace (k a)) → keeps_trace (m ≫= k).
Proof.
  intros Hm Hk s. specialize (Hm s).
  unfold mbind, M_bind. destruct (m s) as [[a|e] s1]; cbn [snd] in *.
  - by rewrite Hk.
  - done.
Qed.

Lemma keeps_trace_for_each {A} (l : list A) (f : A → M unit) :
  (∀ x, keeps_trace (f x)) → keeps_trace (for_each l f).
Proof.
  intros Hf. induction l as [|x l IH]; cbn [for_each].
  - apply keeps_trace_ret.
  - apply keeps_trace_bind; [apply Hf|by intros _].
Qed.

Lemma keeps_trace_output_write data : keeps_trace (output_write data).
Proof. intros s. by destruct s, data. Qed.

Lemma keeps_trace_write_fn data : keeps_trace (write_fn data).
Proof. intros s. by destruct s. Qed.

Lemma keeps_trace_start_response status headers :
  keeps_trace (start_response status headers).
Proof.
  unfold start_response.
  repeat first
    [ apply keeps_trace_lift
    | apply keeps_trace_output_write
    | apply keeps_trace_for_each; intros ?
    | apply keeps_trace_bind; [|intros ?] ].
Qed.

Lemma keeps_trace_run_actions (acts : list action) :
  keeps_trace (for_each acts run_action).
Proof.
  apply keeps_trace_for_each. intros [status headers|data].
  - apply keeps_trace_start_response.
  - apply keeps_trace_write_fn.
Qed.

Lemma keeps_trace_call_app a env : keeps_trace (call_app a env).
Proof.
  destruct a as [|truth h]; [apply keeps_trace_raise|].
  apply keeps_trace_bind; [|intros _; apply keeps_trace_lift].
  apply keeps_trace_run_actions.
Qed.

Lemma call_app_returns truth (h : handler) env s ar s' :
  call_app (AppObject truth h) env s = (Ok ar, s') →
  call_returns (h env) = Ok ar.
Proof.
  unfold call_app, mbind, M_bind, lift.
  destruct (for_each _ _ s) as [[[]|e] s1]; [|done].
  by intros [= -> _].
Qed.

(** [next] adds one call to the trace, whatever it produces. *)
Lemma next_trace it s : trace (next it s).2 = trace s ++ [EvNext].
Proof.
  unfold next. rewrite get_bind.
  rewrite (bind_ok _ _ s tt (set_trace (trace s ++ [EvNext]) s)) by done.
  destruct it as [|[effects out] rest]; [done|].
  pose proof (keeps_trace_run_actions effects
                (set_trace (trace s ++ [EvNext]) s)) as Hrun.
  unfold mbind, M_bind.
  destruct (for_each effects run_action _) as [[[]|e] s1];
    cbn [snd] in *; [|done].
  by destruct out.
Qed.

Lemma only_pulls_keeps {A} (m : M A) : keeps_trace m → only_pulls m.
Proof. intros Hm s. exists 0%nat. cbn. by rewrite Hm, app_nil_r. Qed.

Lemma only_pulls_next it : only_pulls (next it).
Proof. intros s. exists 1%nat. apply next_trace. Qed.

Lemma only_pulls_bind {A B} (m : M A) (k : A → M B) :
  only_pulls m → (∀ a, only_pulls (k a)) → only_pulls (m ≫= k).
Proof.
  intros Hm Hk s. destruct (Hm s) as [n Hn].
  unfold mbind, M_bind. destruct (m s) as [[a|e] s1]; cbn [snd] in *.
  - destruct (Hk a s1) as [n' Hn']. exists (n + n')%nat.
    by rewrite Hn', Hn, <- app_assoc, repeat_app.
  - by exists n.
Qed.

Lemma only_pulls_while_next it : only_pulls (while_next it).
Proof.
  induction it as [|p rest IH]; cbn [while_next].
  - apply only_pulls_bind; [apply only_pulls_next|].
    intros data. apply only_pulls_keeps, keeps_trace_output_write.
  - apply only_pulls_bind; [apply only_pulls_next|]. intros data.
    apply only_pulls_bind; [|by intros _].
    apply only_pulls_keeps, keeps_trace_output_write.
Qed.

(** The flush in the [finally] block. *)
Lemma keeps_trace_flush :
  keeps_trace (s' ← get; for_each (write_results s') output_write).
Proof.
  intros s. rewrite get_bind.
  apply keeps_trace_for_each, keeps_trace_output_write.
Qed.

(** The [try] block of [makefile] calls [next] at least once and adds
    nothing else to the trace. *)
Lemma drive_trace (ps : list pull) s :
  ∃ n,
    trace
      (except_StopIteration
         (generator_data ←
            try_finally (next ps)
              (s' ← get; for_each (write_results s') output_write);
          if truthy generator_data
          then _ ← output_write generator_data; while_next (tl ps)
          else mret tt) s).2
    = trace s ++ repeat EvNext (S n).
Proof.
  assert (Hfirst : ∀ s1,
             trace (try_finally (next ps)
                      (s' ← get; for_each (write_results s') output_write)
                      s1).2
             = trace s1 ++ [EvNext]).
  { intros s1. unfold try_finally.
    pose proof (next_trace ps s1) as Hnext.
    destruct (next ps s1) as [r s2]. cbn [snd] in Hnext.
    pose proof (keeps_trace_flush s2) as Hflush.
    destruct ((s' ← get; for_each (write_results s') output_write) s2)
      as [[[]|e] s3]; cbn [snd] in *; congruence. }
  assert (Hrest : ∀ item,
             only_pulls (if truthy item
                         then _ ← output_write item; while_next (tl ps)
                         else mret tt)).
  { intros item. destruct (truthy item).
    - apply only_pulls_bind; [|intros _; apply only_pulls_while_next].
      apply only_pulls_keeps, keeps_trace_output_write.
    - apply only_pulls_keeps, keeps_trace_ret. }
  unfold except_StopIteration, mbind at 1, M_bind at 1.
  specialize (Hfirst s).
  destruct (try_finally _ _ s) as [[item|e] s1]; cbn [snd] in Hfirst.
  - destruct (Hrest item s1) as [n Hn]. exists n.
    match type of Hn with
    | trace (?run).2 = _ => destruct run as [[[]|[]] s2]
    end; cbn [snd] in *; rewrite Hn, Hfirst, <- app_assoc; done.
  - exists 0%nat. by destruct e.
Qed.


(** Whatever the application does: when [makefile] returns, [next] was
    called at least once and then [close], if there is one; when
    [makefile] raises, [close] was not called. *)
Lemma makefile_trace truth (h : handler) host port sn request env ar :
  make_environ request host port sn = Ok env →
  call_returns (h env) = Ok ar →
  ∃ n,
    match (respond (AppObject truth h) host port sn request).1 with
    | Ok _ =>
        trace (respond (AppObject truth h) host port sn request).2
        = repeat EvNext (S n) ++ closing ar
    | Raise _ =>
        trace (respond (AppObject truth h) host port sn request).2
        = repeat EvNext n
    end.
Proof.
  intros Henv Hret. unfold respond.
  remember (loaded (AppObject truth h) host port sn request) as s0 eqn:Hs0.
  assert (Hfields : inp s0 = request ∧ FakeSocket.host s0 = host
                    ∧ FakeSocket.port s0 = port ∧ script_name s0 = sn
                    ∧ app s0 = AppObject truth h ∧ trace s0 = []).
  { by subst s0. }
  destruct Hfields as (Hinp & Hhost & Hport & Hsn & Happ & Htrace).
  clear Hs0. unfold makefile. rewrite get_bind.
  rewrite Hinp, Hhost, Hport, Hsn, Happ.
  rewrite (bind_ok _ _ s0 env s0) by (unfold lift; by rewrite Henv).
  pose proof (keeps_trace_call_app (AppObject truth h) env s0) as Hkeeps.
  destruct (call_app (AppObject truth h) env s0) as [[ar'|e] s1] eqn:Hcall;
    cbn [snd] in Hkeeps.
  - pose proof (call_app_returns _ _ _ _ _ _ Hcall) as Hret'.
    rewrite (bind_ok _ _ _ _ _ Hcall).
    rewrite Hret in Hret'. injection Hret' as <-.
    destruct (drive_trace (pulls ar) s1) as [n Hn].
    match type of Hn with
    | trace (?run).2 = _ => destruct run as [[[]|e] s2] eqn:Hdrive
    end; cbn [snd] in Hn.
    + rewrite (bind_ok _ _ _ _ _ Hdrive), makefile_end. exists n.
      cbn [fst snd extend trace]. by rewrite Hn, Hkeeps, Htrace.
    + rewrite (bind_raise _ _ _ _ _ Hdrive). exists (S n).
      cbn [fst snd]. by rewrite Hn, Hkeeps, Htrace.
  - rewrite (bind_raise _ _ _ _ _ Hcall). exists 0%nat.
    cbn [fst snd]. by rewrite Hkeeps, Htrace.
Qed.

(** A truthy first item that is not [bytes] makes [makefile] raise
    [TypeError]. *)
Lemma makefile_first_item_not_bytes truth (h : handler) host port sn
    request env ar a1 item rest :
  make_environ request host port sn = Ok env →
  call_returns (h env) = Ok ar →
  pulls ar = (a1, Yield item) :: rest →
  forallb action_ok (call_effects (h env)) = true →
  forallb is_bytes (written (call_effects (h env))) = true →
  forallb action_ok a1 = true →
  forallb is_bytes (written a1) = true →
  truthy item = true →
  is_bytes item = false →
  (respond (AppObject truth h) host port sn request).1 = Raise TypeError.
Proof.
  intros Henv Hret Hps Hce Hwce Ha1 Hwa1 Htruthy Hitem. unfold respond.
  remember (loaded (AppObject truth h) host port sn request) as s0 eqn:Hs0.
  assert (Hfields : inp s0 = request ∧ FakeSocket.host s0 = host
                    ∧ FakeSocket.port s0 = port ∧ script_name s0 = sn
                    ∧ app s0 = AppObject truth h
                    ∧ write_results s0 = []).
  { by subst s0. }
  destruct Hfields as (Hinp & Hhost & Hport & Hsn & Happ & Hws).
  clear Hs0. unfold makefile. rewrite get_bind.
  rewrite Hinp, Hhost, Hport, Hsn, Happ.
  rewrite (bind_ok _ _ s0 env s0) by (unfold lift; by rewrite Henv).
  rewrite (bind_ok _ _ _ _ _ (call_app_ok truth h env ar s0 Hret Hce)).
  set (ce := call_effects (h env)) in *.
  set (s1 := extend (started ce) (written ce) [] s0).
  assert (Hws1 : write_results s1 = written ce).
  { subst s1. cbn [extend write_results]. by rewrite Hws. }
  assert (Hall : forallb is_bytes (write_results s1 ++ written a1) = true).
  { rewrite Hws1, forallb_app. by rewrite Hwce, Hwa1. }
  rewrite Hps.
  pose proof (first_pull_cons a1 (Yield item) rest s1 Ha1 Hall) as Hpull.
  match goal with
  | |- ((except_StopIteration ?body ≫= _) _).1 = _ =>
      assert (Hblock : (except_StopIteration body s1).1 = Raise TypeError)
  end.
  { unfold except_StopIteration.
    rewrite (bind_ok _ _ _ _ _ Hpull), Htruthy.
    unfold mbind at 1, M_bind at 1.
    by destruct item, s1. }
  unfold mbind at 1, M_bind at 1.
  match type of Hblock with
  | (?run).1 = _ => destruct run as [[[]|e] s2]
  end; cbn [fst] in *; congruence.
Qed.

End TraceFacts.

(** C3, as amended.  Let the application's result have a [close].
    Whatever the application does, when [makefile] returns, the calls on
    the result were one or more [next] and then a single [close], and
    when [makefile] raises, [close] was not called.  [makefile] returns
    in every well-typed run: when the first pull raises [StopIteration],
    when the first item is falsy, and when the items are [bytes] until
    [StopIteration].  It raises [TypeError] when the first item is truthy
    and not [bytes]. *)
Theorem close_on_normal_exit (truth : bool) (h : handler)
    (host port script_name : pyval) (request : bytes) (env : environ)
    (ar : app_result) :
  make_environ request host port script_name = Ok env →
  call_returns (h env) = Ok ar →
  has_close ar = true →
  (∃ n,
     match (respond (AppObject truth h) host port script_name request).1 with
     | Ok _ =>
         trace (respond (AppObject truth h) host port script_name request).2
         = repeat EvNext (S n) ++ [EvClose]
     | Raise _ =>
         trace (respond (AppObject truth h) host port script_name request).2
         = repeat EvNext n
     end)
  ∧ (clean (call_effects (h env)) (pulls ar) = true →
     ∃ out,
       (respond (AppObject truth h) host port script_name request).1
       = Ok out)
  ∧ (∀ a1 item rest,
       pulls ar = (a1, Yield item) :: rest →
       forallb action_ok (call_effects (h env)) = true →
       forallb is_bytes (written (call_effects (h env))) = true →
       forallb action_ok a1 = true →
       forallb is_bytes (written a1) = true →
       truthy item = true →
       is_bytes item = false →
       (respond (AppObject truth h) host port script_name request).1
       = Raise TypeError).
Proof.
  intros Henv Hret Hclose. split; [|split].
  - destruct (makefile_trace truth h host port script_name request env ar
                Henv Hret) as [n Hn].
    exists n. unfold closing in Hn. by rewrite Hclose in Hn.
  - intros Hclean. eexists. unfold respond.
    by rewrite (makefile_clean truth h host port script_name request env ar
                  Henv Hret Hclean).
  - intros a1 item rest. by apply makefile_first_item_not_bytes.
Qed.

Lemma close_on_normal_exit_witness :
  ∃ out,
    (respond (AppObject true Examples.hello_world) Examples.example_test
       (PyInt 80) (PyStr "") Examples.get_root).1 = Ok out.
Proof.
  apply (proj1 (proj2 (close_on_normal_exit true Examples.hello_world
                         Examples.example_test (PyInt 80) (PyStr "")
                         Examples.get_root Examples.root_environ
                         {| pulls := [([StartResponse (PyStr "200 OK")
                                          Examples.text_plain;
                                        WriteFn (PyBytes (b "world"))],
                                       Yield (PyBytes (b "hello ")))];
                            has_close := true |}
                         root_environ_made eq_refl eq_refl))).
  reflexivity.
Defined.

(** C3, as stated, fails.  The application returns [['oops']], a [str]
    item, from an object that has [close]: [makefile] raises [TypeError]
    after one call of [next], and [close] is not called. *)
Lemma close_skipped_on_type_error_counterexample :
  (∃ ar, call_returns (Examples.text_chunk Examples.root_environ) = Ok ar
         ∧ has_close ar = true)
  ∧ (respond (AppObject true Examples.text_chunk) Examples.example_test
       (PyInt 80) (PyStr "") Examples.get_root).1 = Raise TypeError
  ∧ trace (respond (AppObject true Examples.text_chunk)
             Examples.example_test (PyInt 80) (PyStr "")
             Examples.get_root).2 = [EvNext]
  ∧ ¬ In EvClose
        (trace (respond (AppObject true Examples.text_chunk)
                  Examples.example_test (PyInt 80) (PyStr "")
                  Examples.get_root).2).
Proof.
  assert (Hrun : respond (AppObject true Examples.text_chunk)
                   Examples.example_test (PyInt 80) (PyStr "")
                   Examples.get_root
                 = (Raise TypeError,
                    extend (header_block "200 OK" Examples.text_plain) []
                      [EvNext]
                      (loaded (AppObject true Examples.text_chunk)
                         Examples.example_test (PyInt 80) (PyStr "")
                         Examples.get_root))).
  { vm_compute. reflexivity. }
  split; [eexists; split; reflexivity|].
  rewrite Hrun. cbn [fst snd extend trace loaded set_inp init app].
  split; [done|]. split; [done|].
  intros [Hin|[]]. discriminate Hin.
Qed.

(* ===================================================================== *)
(** * Further properties of the registry and of [connect] *)
(* ===================================================================== *)

(** X1.  Registering a key that is already registered replaces its entry
    and raises nothing: the registry is the one obtained by registering
    the second entry alone, [get_app] calls the second factory and not
    the first, and every other key keeps its entry. *)
Theorem register_again_replaces (reg : registry) (host : pyval) (n : Z)
    (create1 create2 : app_create_fn) (script1 script2 : pyval) :
  add_wsgi_intercept host (PyInt n) create2 script2
    (add_wsgi_intercept host (PyInt n) create1 script1 reg)
  = add_wsgi_intercept host (PyInt n) create2 script2 reg
  ∧ get_app
      (add_wsgi_intercept host (PyInt n) create2 script2
         (add_wsgi_intercept host (PyInt n) create1 script1 reg))
      host (PyInt n)
    = ([CreateApp (host, PyInt n)], app ← create2 tt; Ok (app, script2))
  ∧ (∀ key, key ≠ (host, PyInt n) →
            add_wsgi_intercept host (PyInt n) create2 script2
              (add_wsgi_intercept host (PyInt n) create1 script1 reg) !! key
            = reg !! key).
Proof.
  split; [|split].
  - unfold add_wsgi_intercept. apply insert_insert_eq.
  - apply (get_app_present _ _ _ n); [done|]. apply add_lookup.
  - intros key Hne. by rewrite !add_lookup_other.
Qed.

(** X2.  Removing the intercept of one key succeeds whether or not the
    key is registered, and leaves the entry (or the absence) of every
    other key as it was. *)
Theorem unregister_keeps_others (reg : registry) (host port : pyval)
    (key : pyval * pyval) :
  key ≠ (host, port) →
  ∃ reg', remove_wsgi_intercept [host; port] reg = Ok reg'
          ∧ reg' !! key = reg !! key.
Proof.
  intros Hne.
  destruct (remove_lookup reg host port) as (reg' & Hrem & ->).
  exists (delete (host, port) reg). split; [done|].
  by rewrite lookup_delete_ne.
Qed.

Lemma unregister_keeps_others_witness :
  ∃ reg',
    remove_wsgi_intercept [Examples.example_test; PyInt 8080]
      Examples.truthy_registry = Ok reg'
    ∧ reg' !! (Examples.example_test, PyInt 80)
      = Examples.truthy_registry !! (Examples.example_test, PyInt 80).
Proof.
  apply (unregister_keeps_others Examples.truthy_registry
           Examples.example_test (PyInt 8080)
           (Examples.example_test, PyInt 80)).
  discriminate.
Defined.

(** X4.  When the port cannot be coerced to an integer, [connect] raises
    the error of [int], having called no factory and not the base class's
    [connect].  When the factory of the entry raises, [connect] raises
    that error after the one factory call, again without the base class's
    [connect]: a failing intercept is not replaced by a real connection. *)
Theorem connect_errors_propagate
    (base_connect : connection → result connection)
    (reg : registry) (c : connection) (e : exn) :
  (int (conn_port c) = Raise e →
   connect base_connect reg c = ([], Raise e))
  ∧ (∀ n create script_name,
       int (conn_port c) = Ok n →
       reg !! (conn_host c, PyInt n) = Some (create, script_name) →
       create tt = Raise e →
       connect base_connect reg c
       = ([CreateApp (conn_host c, PyInt n)], Raise e)).
Proof.
  split.
  - intros Hint. unfold connect, get_app. by rewrite Hint.
  - intros n create script_name Hint Hsome Hcreate. unfold connect.
    rewrite (get_app_present _ _ _ n create script_name) by done.
    by rewrite Hcreate.
Qed.

Lemma connect_errors_propagate_witness :
  connect Examples.stub_connect Examples.truthy_registry
    {| conn_host := Examples.example_test; conn_port := PyStr "http";
       sock := None |}
  = ([], Raise ValueError).
Proof.
  apply (proj1 (connect_errors_propagate Examples.stub_connect
                  Examples.truthy_registry
                  {| conn_host := Examples.example_test;
                     conn_port := PyStr "http"; sock := None |}
                  ValueError)).
  reflexivity.
Defined.

(** X5.  The three [connect] methods decide alike: [connect] of
    [WSGI_HTTPSConnection] and [httplib2_intercept.connect] give the
    result and the effects of [WSGI_HTTPConnection.connect] over the same
    base [connect]. *)
Theorem connect_variants_agree
    (base_connect : connection → result connection)
    (reg : registry) (c : connection) :
  https_connect base_connect reg c = connect base_connect reg c
  ∧ httplib2_connect base_connect reg c = connect base_connect reg c.
Proof.
  split; [reflexivity|].
  unfold httplib2_connect, connect.
  by destruct (get_app reg (conn_host c) (conn_port c)) as [effs [[app sn]|e]].
Qed.

(* ===================================================================== *)
(** * Further properties of [sendall] *)
(* ===================================================================== *)

Lemma send_chunks (utf8_decode : bytes → result str)
    (chunks : list bytes) (s : wsgi_fake_socket) :
  for_each chunks (λ chunk, sendall utf8_decode (PyBytes chunk)) s
  = (Ok tt, set_inp (inp s ++ concat chunks) s).
Proof.
  revert s. induction chunks as [|chunk chunks IH]; intros s.
  - cbn. destruct s; cbn. by rewrite app_nil_r.
  - cbn [for_each].
    rewrite (bind_ok _ _ s tt (set_inp (inp s ++ chunk) s)) by done.
    rewrite IH. destruct s; cbn. by rewrite <- app_assoc.
Qed.

(** X6.  Successive calls of [sendall] with [bytes] accumulate: no call
    raises, the socket's input is what it was followed by the chunks in
    the order sent, and the output, the buffered writes and the trace
    are untouched. *)
Theorem sendall_accumulates (utf8_decode : bytes → result str)
    (chunks : list bytes) (s : wsgi_fake_socket) :
  ∃ s',
    for_each chunks (λ chunk, sendall utf8_decode (PyBytes chunk)) s
    = (Ok tt, s')
    ∧ inp s' = inp s ++ concat chunks
    ∧ output s' = output s
    ∧ write_results s' = write_results s
    ∧ trace s' = trace s.
Proof. eexists. split; [apply send_chunks|done]. Qed.

(* ===================================================================== *)
(** * The intercepted exchange, end to end *)
(* ===================================================================== *)

(** X7.  After an application factory is registered for [(host, n)], a
    connection to [host] whose port coerces to [n] gets a fake socket
    from [connect], and the base class's [connect] is not called.  Once
    the client has sent its request to that socket, in any number of
    chunks, [makefile] calls the application made by the factory with
    the environment that [make_environ] builds from the chunks put
    together, the connection's host and port and the registered script
    name, and returns what that call and its iterator produce: for a
    well-typed run, the response computed from the application's
    callback calls and items, after the pulls of such a run and the
    [close] of the result, if it has one. *)
Theorem intercepted_exchange
    (base_connect : connection → result connection)
    (utf8_decode : bytes → result str)
    (reg : registry) (host port script_name : pyval) (n : Z)
    (create : app_create_fn) (h : handler)
    (chunks : list bytes) (sk : option socket)
    (env : environ) (ar : app_result) :
  int port = Ok n →
  create tt = Ok (AppObject true h) →
  make_environ (concat chunks) host port script_name = Ok env →
  call_returns (h env) = Ok ar →
  clean (call_effects (h env)) (pulls ar) = true →
  ∃ s s',
    connect base_connect
      (add_wsgi_intercept host (PyInt n) create script_name reg)
      {| conn_host := host; conn_port := port; sock := sk |}
    = ([CreateApp (host, PyInt n)],
       Ok {| conn_host := host; conn_port := port;
             sock := Some (Fake s) |})
    ∧ for_each chunks (λ chunk, sendall utf8_decode (PyBytes chunk)) s
      = (Ok tt, s')
    ∧ inp s' = concat chunks
    ∧ makefile s'
      = (Ok (response (call_effects (h env)) (pulls ar)),
         extend (response (call_effects (h env)) (pulls ar))
           (buffered (call_effects (h env)) (pulls ar))
           (repeat EvNext (pulls_made (pulls ar)) ++ closing ar) s').
Proof.
  intros Hint Hcreate Henv Hret Hclean.
  exists (init (AppObject true h) host port script_name),
         (loaded (AppObject true h) host port script_name (concat chunks)).
  split; [|split; [|split]].
  - by rewrite (connect_present _ _ _ n create script_name (AppObject true h));
      [|done|apply add_lookup|done].
  - by rewrite send_chunks.
  - done.
  - by apply (makefile_clean true h host port script_name (concat chunks)
                env ar).
Qed.

Lemma intercepted_exchange_witness :
  ∃ s s',
    connect Examples.stub_connect Examples.truthy_registry
      Examples.plain_connection
    = ([CreateApp (Examples.example_test, PyInt 80)],
       Ok {| conn_host := Examples.example_test; conn_port := PyInt 80;
             sock := Some (Fake s) |})
    ∧ for_each [b "GET / HTTP/1.1"; Examples.CRLF ++ Examples.CRLF]
        (λ chunk, sendall (λ _, Raise UnicodeDecodeError) (PyBytes chunk)) s
      = (Ok tt, s')
    ∧ inp s' = Examples.get_root
    ∧ (makefile s').1
      = Ok (header_block "200 OK" Examples.text_plain
              ++ b "world" ++ b "hello ").
Proof.
  destruct (intercepted_exchange Examples.stub_connect
              (λ _, Raise UnicodeDecodeError) empty_registry
              Examples.example_test (PyInt 80) (PyStr "") 80
              (λ _, Ok Examples.truthy_app) Examples.hello_world
              [b "GET / HTTP/1.1"; Examples.CRLF ++ Examples.CRLF] None
              Examples.root_environ
              {| pulls := [([StartResponse (PyStr "200 OK")
                               Examples.text_plain;
                             WriteFn (PyBytes (b "world"))],
                            Yield (PyBytes (b "hello ")))];
                 has_close := true |}
              eq_refl eq_refl root_environ_made eq_refl eq_refl)
    as (s & s' & Hconnect & Hsend & Hinp & Hrun).
  exists s, s'. split; [exact Hconnect|]. split; [exact Hsend|].
  split; [exact Hinp|]. rewrite Hrun. reflexivity.
Defined.

(* ===================================================================== *)
(** * Further properties of [make_environ] *)
(* ===================================================================== *)

Section DecoderFacts.

Implicit Types (hv : header_vars) (line : bytes) (lines : list bytes).

Lemma header_line_raises line hv e :
  header_line line hv = Raise e → e = ValueError.
Proof.
  unfold header_line.
  destruct (split_once _ _) as [key [v|]]; [|by intros [= <-]].
  repeat match goal with
         | |- (if ?c then _ else _) = _ → _ => destruct c
         end; done.
Qed.

Lemma header_loop_raises lines hv e :
  header_loop lines hv = Raise e → e = ValueError.
Proof.
  revert hv. induction lines as [|line rest IH]; intros hv; cbn; [done|].
  destruct (bytes_strip line); [done|].
  destruct (header_line line hv) as [hv'|e'] eqn:Hline; cbn.
  - apply IH.
  - intros [= <-]. by apply (header_line_raises line hv).
Qed.

Lemma split_once_found {A} (is_sep : A → bool) (l : list A) :
  (∃ x, x ∈ l ∧ is_sep x = true) →
  ∃ p q, split_once is_sep l = (p, Some q).
Proof.
  induction l as [|c l IH]; intros (x & Hin & Hx).
  - by apply elem_of_nil in Hin.
  - cbn. destruct (is_sep c) eqn:Hc; [by eexists _, _|].
    apply elem_of_cons in Hin as [->|Hin]; [congruence|].
    destruct IH as (p & q & ->); [by exists x|]. by eexists _, _.
Qed.

Lemma split_once_missing {A} (is_sep : A → bool) (l : list A) :
  (∀ x, x ∈ l → is_sep x = false) →
  split_once is_sep l = (l, None).
Proof.
  induction l as [|c l IH]; intros Hnone; [done|].
  cbn. rewrite (Hnone c) by (apply elem_of_cons; by left).
  rewrite IH; [done|]. intros x Hin. apply Hnone, elem_of_cons. by right.
Qed.

Lemma header_line_with_colon line hv :
  ":"%byte ∈ bytes_strip line → ∃ hv', header_line line hv = Ok hv'.
Proof.
  intros Hcolon. unfold header_line.
  destruct (split_once_found (Byte.eqb ":"%byte) (bytes_strip line))
    as (k & v & ->).
  { exists ":"%byte. by split. }
  repeat match goal with
         | |- ∃ _, (if ?c then _ else _) = _ => destruct c
         end; by eexists.
Qed.

Lemma header_line_without_colon line hv :
  ":"%byte ∉ bytes_strip line → header_line line hv = Raise ValueError.
Proof.
  intros Hnone. unfold header_line.
  rewrite split_once_missing; [done|].
  intros x Hin. destruct (Byte.eqb ":"%byte x) eqn:Heq; [|done].
  apply Byte.byte_dec_bl in Heq. by subst.
Qed.

(** The loop passes over well-formed header lines. *)
Lemma header_loop_through lines rest hv :
  Forall (λ l, bytes_strip l ≠ [] ∧ ":"%byte ∈ bytes_strip l) lines →
  ∃ hv', header_loop (lines ++ rest) hv = header_loop rest hv'.
Proof.
  revert hv. induction lines as [|line lines IH]; intros hv Hall.
  - by exists hv.
  - inversion Hall as [|? ? [Hblank Hcolon] Hall']; subst.
    destruct (header_line_with_colon line hv Hcolon) as [hv1 Hline].
    destruct (IH hv1 Hall') as [hv' Hloop]. exists hv'.
    cbn. destruct (bytes_strip line); [done|]. by rewrite Hline.
Qed.

End DecoderFacts.

Section DecoderFixed.

Implicit Types (hv : header_vars) (env : environ) (k : string).

Lemma make_environ_fixed inp host port (mount : str) method url protocol
    hv unread :
  str_split " " (decode_latin1 (hd [] (readlines inp)))
  = [method; url; protocol] →
  header_loop (tl (readlines inp)) no_headers = Ok (hv, unread) →
  ∃ env,
    make_environ inp host port (PyStr mount) = Ok env
    ∧ env !! "REQUEST_METHOD" = Some (EnvStr method)
    ∧ env !! "SERVER_PROTOCOL" = Some (EnvStr protocol)
    ∧ env !! "SERVER_NAME" = Some (EnvObj host)
    ∧ env !! "SERVER_PORT" = Some (EnvObj port)
    ∧ env !! "REMOTE_ADDR" = Some (EnvStr "127.0.0.1")
    ∧ env !! "wsgi.input" = Some (EnvBytesIO (concat unread))
    ∧ env !! "wsgi.errors" = Some (EnvBytesIO [])
    ∧ env !! "wsgi.version" = Some (EnvTuple 1 0)
    ∧ env !! "wsgi.url_scheme" = Some (EnvStr "http")
    ∧ (∀ k, String.prefix "HTTP_" k = false →
            k ∉ reserved_keys →
            env !! k = None).
Proof.
  intros Hline Hloop.
  assert (Hkeeps : ∀ k, String.prefix "HTTP_" k = false →
                        environ_of hv !! k = None).
  { intros k Hk.
    by apply (header_loop_keeps (tl (readlines inp)) no_headers hv unread). }
  unfold make_environ. rewrite Hloop. unfold mbind at 1, result_bind at 1.
  rewrite Hline. unfold url_startswith, mbind, result_bind.
  destruct (startswith url mount); cbn [negb len];
    destruct (str_split_once "?" _) as [path after];
    (eexists; split; [reflexivity|]);
    destruct (cookies hv);
    repeat split;
    repeat first
      [ rewrite lookup_insert_eq
      | rewrite lookup_insert_ne by done
      | rewrite lookup_set_if_ne by done ];
    try done.
  all: intros k Hk Hfree.
  all: assert (Hin : ∀ key, In key reserved_keys → key ≠ k)
         by (intros key Hkey <-; by apply Hfree, list_elem_of_In).
  all: repeat first
         [ rewrite lookup_set_if_ne by (apply Hin; cbn; tauto)
         | rewrite lookup_insert_ne
             by first [ apply Hin; cbn; tauto
                      | intros <-; discriminate Hk ] ].
  all: by apply Hkeeps.
Qed.

End DecoderFixed.

(** X8.  The request line must split at single spaces into exactly three
    fields: otherwise [make_environ] raises [ValueError], whatever the
    headers, the script name and the body are.  An empty request is one
    such case. *)
Theorem request_line_strict (inp : bytes) (host port script_name : pyval) :
  length (str_split " " (decode_latin1 (hd [] (readlines inp)))) ≠ 3%nat →
  make_environ inp host port script_name = Raise ValueError.
Proof.
  intros Hlen. unfold make_environ.
  destruct (header_loop (tl (readlines inp)) no_headers)
    as [[hv unread]|e] eqn:Hloop.
  - unfold mbind at 1, result_bind at 1.
    destruct (str_split " " _) as [|m [|u [|p [|x l]]]]; done.
  - unfold mbind, result_bind.
    by rewrite (header_loop_raises _ _ _ Hloop).
Qed.

Lemma request_line_strict_witness :
  make_environ [] Examples.example_test (PyInt 80) (PyStr "")
  = Raise ValueError.
Proof.
  apply (request_line_strict [] Examples.example_test (PyInt 80) (PyStr "")).
  cbn. lia.
Defined.

(** X9.  A header line that is not blank and has no colon makes
    [make_environ] raise [ValueError], when the header lines before it are
    well formed; the request line does not matter. *)
Theorem header_without_colon (inp : bytes) (host port script_name : pyval)
    (before : list bytes) (line : bytes) (after : list bytes) :
  tl (readlines inp) = before ++ line :: after →
  Forall (λ l, bytes_strip l ≠ [] ∧ ":"%byte ∈ bytes_strip l) before →
  bytes_strip line ≠ [] →
  ":"%byte ∉ bytes_strip line →
  make_environ inp host port script_name = Raise ValueError.
Proof.
  intros Hlines Hbefore Hblank Hcolon. unfold make_environ.
  rewrite Hlines.
  destruct (header_loop_through before (line :: after) no_headers Hbefore)
    as [hv' ->].
  cbn [header_loop]. destruct (bytes_strip line) eqn:Hstrip; [done|].
  rewrite header_line_without_colon; [done|]. by rewrite Hstrip.
Qed.

Lemma header_without_colon_witness :
  make_environ
    (b "GET / HTTP/1.1" ++ Examples.CRLF
       ++ b "Host: example.test" ++ Examples.CRLF
       ++ b "no colon here" ++ Examples.CRLF ++ Examples.CRLF)
    Examples.example_test (PyInt 80) (PyStr "")
  = Raise ValueError.
Proof.
  apply (header_without_colon _ _ _ _
           [b "Host: example.test" ++ Examples.CRLF]
           (b "no colon here" ++ Examples.CRLF)
           [Examples.CRLF]).
  - reflexivity.
  - constructor; [split; [discriminate|]|constructor].
    apply list_elem_of_In. vm_compute.
    repeat (first [left; reflexivity | right]).
  - discriminate.
  - intros Hin. apply list_elem_of_In in Hin. vm_compute in Hin.
    repeat (destruct Hin as [Hin|Hin]; [discriminate Hin|]). done.
Defined.

(** X10.  The body handed to the application as [wsgi.input] is what
    follows the first blank line, byte for byte, and the lines after that
    blank line are not read as headers; when the well-formed header lines
    run to the end of the input, the body is empty. *)
Theorem body_follows_blank_line (inp : bytes) (host port : pyval)
    (mount method url protocol : str)
    (headers : list bytes) (blank : bytes) (rest : list bytes) :
  str_split " " (decode_latin1 (hd [] (readlines inp)))
  = [method; url; protocol] →
  Forall (λ l, bytes_strip l ≠ [] ∧ ":"%byte ∈ bytes_strip l) headers →
  bytes_strip blank = [] →
  (tl (readlines inp) = headers ++ blank :: rest →
   ∃ env : environ,
     make_environ inp host port (PyStr mount) = Ok env
     ∧ env !! "wsgi.input" = Some (EnvBytesIO (concat rest)))
  ∧ (tl (readlines inp) = headers →
     ∃ env : environ,
       make_environ inp host port (PyStr mount) = Ok env
       ∧ env !! "wsgi.input" = Some (EnvBytesIO [])).
Proof.
  intros Hline Hheaders Hblank. split; intros Hlines.
  - destruct (header_loop_through headers (blank :: rest) no_headers
                Hheaders) as [hv Hloop].
    cbn [header_loop] in Hloop. rewrite Hblank in Hloop.
    rewrite <- Hlines in Hloop.
    destruct (make_environ_fixed inp host port mount method url protocol
                hv rest Hline Hloop)
      as (env & Henv & _ & _ & _ & _ & _ & Hinput & _).
    by exists env.
  - destruct (header_loop_through headers [] no_headers Hheaders)
      as [hv Hloop].
    cbn [header_loop] in Hloop. rewrite app_nil_r, <- Hlines in Hloop.
    destruct (make_environ_fixed inp host port mount method url protocol
                hv [] Hline Hloop)
      as (env & Henv & _ & _ & _ & _ & _ & Hinput & _).
    by exists env.
Qed.

Lemma body_follows_blank_line_witness :
  ∃ env : environ,
    make_environ
      (b "POST /x HTTP/1.1" ++ Examples.CRLF
         ++ b "Host: example.test" ++ Examples.CRLF
         ++ Examples.CRLF
         ++ b "a: b" ++ Examples.CRLF ++ b "tail")
      Examples.example_test (PyInt 80) (PyStr "") = Ok env
    ∧ env !! "wsgi.input"
      = Some (EnvBytesIO (concat [b "a: b" ++ Examples.CRLF; b "tail"])).
Proof.
  edestruct (body_follows_blank_line
               (b "POST /x HTTP/1.1" ++ Examples.CRLF
                  ++ b "Host: example.test" ++ Examples.CRLF
                  ++ Examples.CRLF
                  ++ b "a: b" ++ Examples.CRLF ++ b "tail")
               Examples.example_test (PyInt 80) "" "POST" "/x")
    as [Hbody _].
  - reflexivity.
  - apply (List.Forall_cons _ (b "Host: example.test" ++ Examples.CRLF));
      [split; [discriminate|]|apply List.Forall_nil].
    apply list_elem_of_In. vm_compute.
    repeat (first [left; reflexivity | right]).
  - instantiate (1 := Examples.CRLF). reflexivity.
  - apply Hbody. reflexivity.
Defined.

(** X11.  Request headers cannot override what [make_environ] sets
    itself, nor add keys outside the [HTTP_] name space: the method, the
    server name and port, the remote address and the URL scheme are what
    the request line and the socket say, whatever the headers are, and a
    key that neither starts with [HTTP_] nor is one of the reserved keys
    is absent from the environment. *)
Theorem headers_stay_under_http_prefix (inp : bytes) (host port : pyval)
    (mount method url protocol : str) (hv : header_vars)
    (unread : list bytes) :
  str_split " " (decode_latin1 (hd [] (readlines inp)))
  = [method; url; protocol] →
  header_loop (tl (readlines inp)) no_headers = Ok (hv, unread) →
  ∃ env : environ,
    make_environ inp host port (PyStr mount) = Ok env
    ∧ env !! "REQUEST_METHOD" = Some (EnvStr method)
    ∧ env !! "SERVER_NAME" = Some (EnvObj host)
    ∧ env !! "SERVER_PORT" = Some (EnvObj port)
    ∧ env !! "REMOTE_ADDR" = Some (EnvStr "127.0.0.1")
    ∧ env !! "wsgi.url_scheme" = Some (EnvStr "http")
    ∧ (∀ k : string,
         String.prefix "HTTP_" k = false →
         k ∉ reserved_keys →
         env !! k = None).
Proof.
  intros Hline Hloop.
  destruct (make_environ_fixed inp host port mount method url protocol
              hv unread Hline Hloop)
    as (env & Henv & Hmethod & _ & Hname & Hport & Haddr & _ & _ & _
        & Hscheme & Hfree).
  exists env. by repeat split.
Qed.

Lemma headers_stay_under_http_prefix_witness :
  ∃ env : environ,
    make_environ
      (b "GET / HTTP/1.1" ++ Examples.CRLF
         ++ b "REQUEST_METHOD: DELETE" ++ Examples.CRLF ++ Examples.CRLF)
      Examples.example_test (PyInt 80) (PyStr "") = Ok env
    ∧ env !! "REQUEST_METHOD" = Some (EnvStr "GET")
    ∧ env !! "SERVER_NAME" = Some (EnvObj Examples.example_test)
    ∧ env !! "SERVER_PORT" = Some (EnvObj (PyInt 80))
    ∧ env !! "REMOTE_ADDR" = Some (EnvStr "127.0.0.1")
    ∧ env !! "wsgi.url_scheme" = Some (EnvStr "http")
    ∧ (∀ k : string,
         String.prefix "HTTP_" k = false →
         k ∉ reserved_keys →
         env !! k = None).
Proof.
  eapply (headers_stay_under_http_prefix
            (b "GET / HTTP/1.1" ++ Examples.CRLF
               ++ b "REQUEST_METHOD: DELETE" ++ Examples.CRLF
               ++ Examples.CRLF)
            Examples.example_test (PyInt 80) "" "GET" "/").
  - reflexivity.
  - vm_compute. reflexivity.
Defined.

(** X12.  The script name has to be a [str]: with any other value ([None],
    an [int], [bytes]) a request whose request line and headers are well
    formed makes [make_environ] raise [TypeError]. *)
Theorem script_name_must_be_str (inp : bytes)
    (host port script_name : pyval) (method url protocol : str)
    (hv : header_vars) (unread : list bytes) :
  str_split " " (decode_latin1 (hd [] (readlines inp)))
  = [method; url; protocol] →
  header_loop (tl (readlines inp)) no_headers = Ok (hv, unread) →
  (∀ mount, script_name ≠ PyStr mount) →
  make_environ inp host port script_name = Raise TypeError.
Proof.
  intros Hline Hloop Hsn. unfold make_environ.
  rewrite Hloop. unfold mbind at 1, result_bind at 1. rewrite Hline.
  destruct script_name as [| |mount|]; try done.
  by destruct (Hsn mount).
Qed.

Lemma script_name_must_be_str_witness :
  make_environ Examples.get_root Examples.example_test (PyInt 80) PyNone
  = Raise TypeError.
Proof.
  eapply (script_name_must_be_str Examples.get_root Examples.example_test
            (PyInt 80) PyNone "GET" "/").
  - reflexivity.
  - vm_compute. reflexivity.
  - discriminate.
Defined.

Section LineFacts.

Implicit Types (bs cur line rest : bytes) (s t : str).

Lemma byte_eqb_newline_false (x : byte) :
  x ≠ "010"%byte → Byte.eqb x "010"%byte = false.
Proof.
  intros Hne. destruct (Byte.eqb x "010"%byte) eqn:Heq; [|done].
  by apply Byte.byte_dec_bl in Heq.
Qed.

(** A line free of newlines, followed by a newline, is the next line. *)
Lemma readlines_from_line line cur rest :
  "010"%byte ∉ line →
  readlines_from cur (line ++ "010"%byte :: rest)
  = (rev cur ++ line ++ ["010"%byte]) :: readlines_from [] rest.
Proof.
  revert cur. induction line as [|x line IH]; intros cur Hfree.
  - done.
  - apply not_elem_of_cons in Hfree as [Hx Hfree].
    rewrite <- !app_comm_cons. cbn [readlines_from].
    rewrite byte_eqb_newline_false by done.
    rewrite IH by done. cbn [rev]. by rewrite <- ?app_assoc.
Qed.

(** The lines of a stream, put together, are the stream. *)
Lemma readlines_from_concat cur bs :
  concat (readlines_from cur bs) = rev cur ++ bs.
Proof.
  revert cur. induction bs as [|x bs IH]; intros cur.
  - cbn. destruct cur as [|c cur]; [done|].
    cbn [concat]. by rewrite ?app_nil_r.
  - cbn [readlines_from]. destruct (Byte.eqb x "010"%byte) eqn:Heq.
    + cbn [concat]. rewrite IH. cbn [rev app].
      by rewrite <- ?app_assoc.
    + rewrite IH. cbn [rev]. by rewrite <- ?app_assoc.
Qed.

Lemma string_app_assoc s t (u : str) :
  String.append (String.append s t) u
  = String.append s (String.append t u).
Proof.
  induction s as [|c s IH]; [done|].
  change (String c (String.append (String.append s t) u)
          = String c (String.append s (String.append t u))).
  by rewrite IH.
Qed.

Lemma list_ascii_of_string_app s t :
  list_ascii_of_string (String.append s t)
  = list_ascii_of_string s ++ list_ascii_of_string t.
Proof.
  induction s as [|c s IH]; [done|].
  change (c :: list_ascii_of_string (String.append s t)
          = c :: (list_ascii_of_string s ++ list_ascii_of_string t)).
  by rewrite IH.
Qed.

Lemma decode_latin1_app s bs :
  decode_latin1 (encode_latin1 s ++ bs)
  = String.append s (decode_latin1 bs).
Proof.
  unfold decode_latin1, encode_latin1, string_of_list_byte,
    list_byte_of_string.
  rewrite List.map_app, List.map_map, string_of_list_ascii_app.
  rewrite (List.map_ext _ id) by apply ascii_of_byte_of_ascii.
  by rewrite List.map_id, string_of_list_ascii_of_string.
Qed.

Lemma newline_not_encoded s :
  "010"%char ∉ list_ascii_of_string s → "010"%byte ∉ encode_latin1 s.
Proof.
  intros Hfree Hin. apply Hfree.
  unfold encode_latin1, list_byte_of_string in Hin.
  apply list_elem_of_In, List.in_map_iff in Hin as (c & Hc & Hin).
  apply list_elem_of_In.
  replace "010"%char with c; [done|].
  by rewrite <- (ascii_of_byte_of_ascii c), Hc.
Qed.

(** [s.split(sep)] on text free of [sep], and on such text followed by
    [sep] and more. *)
Lemma str_split_free sep s :
  sep ∉ list_ascii_of_string s → str_split sep s = [s].
Proof.
  induction s as [|c s IH]; intros Hfree; [done|].
  cbn in Hfree. apply not_elem_of_cons in Hfree as [Hc Hfree].
  cbn [str_split].
  destruct (Ascii.eqb c sep) eqn:Heq; [by apply Ascii.eqb_eq in Heq|].
  by rewrite IH.
Qed.

Lemma str_split_app sep s t :
  sep ∉ list_ascii_of_string s →
  str_split sep (String.append s (String sep t)) = s :: str_split sep t.
Proof.
  induction s as [|c s IH]; intros Hfree.
  - change (str_split sep (String sep t) = "" :: str_split sep t).
    cbn [str_split]. by rewrite Ascii.eqb_refl.
  - cbn in Hfree. apply not_elem_of_cons in Hfree as [Hc Hfree].
    change (str_split sep (String c (String.append s (String sep t)))
            = String c s :: str_split sep t).
    cbn [str_split].
    destruct (Ascii.eqb c sep) eqn:Heq; [by apply Ascii.eqb_eq in Heq|].
    by rewrite IH.
Qed.

End LineFacts.

(** X13.  A request made of a request line, the empty line and a body
    decodes to its parts: when method, URL and protocol contain neither a
    space nor a newline, [REQUEST_METHOD] is the method, [wsgi.input] is
    the body, byte for byte, and [SERVER_PROTOCOL] is the protocol
    followed by the line terminator, which [make_environ] does not strip
    from the request line. *)
Theorem bare_request_round_trip (method url protocol : str) (body : bytes)
    (host port : pyval) :
  Forall (λ s : str, (" "%char ∉ list_ascii_of_string s)
                     ∧ ("010"%char ∉ list_ascii_of_string s))
    [method; url; protocol] →
  ∃ env : environ,
    make_environ
      (encode_latin1
         (String.append method
            (String " " (String.append url (String " " protocol))))
         ++ Examples.CRLF ++ Examples.CRLF ++ body)
      host port (PyStr "") = Ok env
    ∧ env !! "REQUEST_METHOD" = Some (EnvStr method)
    ∧ env !! "SERVER_PROTOCOL" = Some (EnvStr (String.append protocol crlf))
    ∧ env !! "wsgi.input" = Some (EnvBytesIO body)
    ∧ env !! "SCRIPT_NAME" = Some (EnvObj (PyStr "")).
Proof.
  intros Hall.
  apply Forall_cons in Hall as [[Hm_sp Hm_nl] Hall].
  apply Forall_cons in Hall as [[Hu_sp Hu_nl] Hall].
  apply Forall_cons in Hall as [[Hp_sp Hp_nl] _].
  set (text := String.append method
                 (String " " (String.append url (String " " protocol)))).
  set (inp := encode_latin1 text ++ Examples.CRLF ++ Examples.CRLF ++ body).
  assert (Htext_nl : "010"%char ∉ list_ascii_of_string text).
  { subst text. rewrite list_ascii_of_string_app.
    change (list_ascii_of_string
              (String " " (String.append url (String " " protocol))))
      with (" "%char
            :: list_ascii_of_string (String.append url (String " " protocol))).
    rewrite list_ascii_of_string_app.
    change (list_ascii_of_string (String " " protocol))
      with (" "%char :: list_ascii_of_string protocol).
    rewrite !elem_of_app, !elem_of_cons, !elem_of_app, !elem_of_cons.
    intros [?|[?|[?|[?|?]]]]; done. }
  assert (Hlines : readlines inp
                   = (encode_latin1 text ++ Examples.CRLF)
                       :: Examples.CRLF :: readlines body).
  { unfold readlines. subst inp.
    change (encode_latin1 text ++ Examples.CRLF ++ Examples.CRLF ++ body)
      with (encode_latin1 text
              ++ ["013"%byte]
              ++ "010"%byte :: (["013"%byte] ++ "010"%byte :: body)).
    rewrite app_assoc, readlines_from_line.
    - rewrite readlines_from_line.
      + cbn [rev app]. by rewrite <- app_assoc.
      + intros Hin. apply list_elem_of_singleton in Hin. discriminate Hin.
    - rewrite elem_of_app, list_elem_of_singleton.
      intros [Hin|Hin]; [|discriminate Hin].
      by apply (newline_not_encoded text). }
  assert (Hline : str_split " " (decode_latin1 (hd [] (readlines inp)))
                  = [method; url; String.append protocol crlf]).
  { rewrite Hlines. cbn [hd]. rewrite decode_latin1_app.
    change (decode_latin1 Examples.CRLF) with crlf.
    subst text. rewrite string_app_assoc.
    change (String.append
              (String " " (String.append url (String " " protocol))) crlf)
      with (String " "
              (String.append (String.append url (String " " protocol)) crlf)).
    rewrite string_app_assoc.
    change (String.append (String " " protocol) crlf)
      with (String " " (String.append protocol crlf)).
    rewrite !str_split_app by done.
    rewrite str_split_free; [done|].
    rewrite list_ascii_of_string_app, elem_of_app.
    intros [Hin|Hin]; [done|].
    cbn in Hin. rewrite !elem_of_cons, elem_of_nil in Hin.
    destruct Hin as [Hin|[Hin|[]]]; discriminate Hin. }
  assert (Hloop : header_loop (tl (readlines inp)) no_headers
                  = Ok (no_headers, readlines body)).
  { by rewrite Hlines. }
  destruct (make_environ_fixed inp host port "" method url
              (String.append protocol crlf) no_headers (readlines body)
              Hline Hloop)
    as (env & Henv & Hmethod & Hprotocol & _ & _ & _ & Hinput & _).
  destruct (make_environ_url inp host port "" method url
              (String.append protocol crlf) no_headers (readlines body)
              Hline Hloop)
    as (env' & Henv' & Hscript & _).
  rewrite Henv in Henv'. injection Henv' as <-.
  exists env. repeat split; try done.
  - rewrite Hinput. unfold readlines. by rewrite readlines_from_concat.
  - rewrite Hscript. by destruct (startswith url "").
Qed.

Lemma bare_request_round_trip_witness :
  ∃ env : environ,
    make_environ
      (encode_latin1 "POST /submit?a=1 HTTP/1.0"
         ++ Examples.CRLF ++ Examples.CRLF ++ b "payload")
      Examples.example_test (PyInt 80) (PyStr "") = Ok env
    ∧ env !! "REQUEST_METHOD" = Some (EnvStr "POST")
    ∧ env !! "SERVER_PROTOCOL" = Some (EnvStr (String.append "HTTP/1.0" crlf))
    ∧ env !! "wsgi.input" = Some (EnvBytesIO (b "payload"))
    ∧ env !! "SCRIPT_NAME" = Some (EnvObj (PyStr "")).
Proof.
  apply (bare_request_round_trip "POST" "/submit?a=1" "HTTP/1.0"
           (b "payload") Examples.example_test (PyInt 80)).
  repeat (apply List.Forall_cons; [split; intros Hin;
    apply list_elem_of_In in Hin; cbn in Hin;
    repeat (destruct Hin as [Hin|Hin]; [discriminate Hin|]); done|]).
  apply List.Forall_nil.
Defined.

(* ===================================================================== *)
(** * [makefile]: what it leaves alone *)
(* ===================================================================== *)

Section FrameFacts.

Implicit Types (s : wsgi_fake_socket).

Lemma grows_refl s : grows s s.
Proof. by repeat split. Qed.

Lemma grows_trans s1 s2 s3 : grows s1 s2 → grows s2 s3 → grows s1 s3.
Proof.
  intros (Ha & Hh & Hp & Hn & Hi & Hw & Ho & Ht)
         (Ha' & Hh' & Hp' & Hn' & Hi' & Hw' & Ho' & Ht').
  repeat split; try congruence; by etrans.
Qed.

Lemma grows_extend out ws evs s : grows s (extend out ws evs s).
Proof. repeat split; cbn; by apply prefix_app_r. Qed.

Lemma appends_ret {A} (a : A) : appends (mret a : M A).
Proof. intros s. apply grows_refl. Qed.

Lemma appends_raise {A} (e : exn) : appends (raise e : M A).
Proof. intros s. apply grows_refl. Qed.

Lemma appends_lift {A} (r : result A) : appends (lift r).
Proof. intros s. apply grows_refl. Qed.

Lemma appends_bind {A B} (m : M A) (k : A → M B) :
  appends m → (∀ a, appends (k a)) → appends (m ≫= k).
Proof.
  intros Hm Hk s. specialize (Hm s).
  unfold mbind, M_bind. destruct (m s) as [[a|e] s1]; cbn [snd] in *.
  - eapply grows_trans; [exact Hm|apply Hk].
  - done.
Qed.

Lemma appends_get_bind {A} (k : wsgi_fake_socket → M A) :
  (∀ s, appends (k s)) → appends (get ≫= k).
Proof. intros Hk s. rewrite get_bind. apply Hk. Qed.

Lemma appends_for_each {A} (l : list A) (f : A → M unit) :
  (∀ x, appends (f x)) → appends (for_each l f).
Proof.
  intros Hf. induction l as [|x l IH]; cbn [for_each].
  - apply appends_ret.
  - apply appends_bind; [apply Hf|by intros _].
Qed.

Lemma appends_try_finally {A} (body : M A) (fin : M unit) :
  appends body → appends fin → appends (try_finally body fin).
Proof.
  intros Hbody Hfin s. unfold try_finally.
  specialize (Hbody s). destruct (body s) as [r s1]. cbn [snd] in Hbody.
  specialize (Hfin s1). destruct (fin s1) as [[[]|e] s2]; cbn [snd] in *;
    by eapply grows_trans.
Qed.

Lemma appends_except_StopIteration (body : M unit) :
  appends body → appends (except_StopIteration body).
Proof.
  intros Hbody s. unfold except_StopIteration. specialize (Hbody s).
  by destruct (body s) as [[[]|[]] s1].
Qed.

Lemma appends_output_write data : appends (output_write data).
Proof.
  intros s. destruct data as [| | |bs]; try apply grows_refl.
  rewrite output_write_bytes. apply grows_extend.
Qed.

Lemma appends_write_fn data : appends (write_fn data).
Proof. intros s. rewrite write_fn_run. apply grows_extend. Qed.

Lemma appends_start_response status headers :
  appends (start_response status headers).
Proof.
  unfold start_response.
  repeat first
    [ apply appends_lift
    | apply appends_output_write
    | apply appends_for_each; intros ?
    | apply appends_bind; [|intros ?] ].
Qed.

Lemma appends_run_actions (acts : list action) :
  appends (for_each acts run_action).
Proof.
  apply appends_for_each. intros [status headers|data].
  - apply appends_start_response.
  - apply appends_write_fn.
Qed.

Lemma appends_call_app a env : appends (call_app a env).
Proof.
  destruct a as [|truth h]; [apply appends_raise|].
  apply appends_bind; [|intros _; apply appends_lift].
  apply appends_run_actions.
Qed.

Lemma appends_next it : appends (next it).
Proof.
  intros s. unfold next. rewrite get_bind.
  rewrite (bind_ok _ _ s tt (extend [] [] [EvNext] s)).
  2:{ destruct s. unfold extend; cbn. by rewrite !app_nil_r. }
  eapply grows_trans; [apply grows_extend|].
  destruct it as [|[effects out] rest]; [apply appends_raise|].
  apply appends_bind; [apply appends_run_actions|].
  intros _. destruct out; [apply appends_ret|apply appends_raise].
Qed.

Lemma appends_while_next it : appends (while_next it).
Proof.
  induction it as [|p rest IH]; cbn [while_next].
  - apply appends_bind; [apply appends_next|].
    intros data. apply appends_output_write.
  - apply appends_bind; [apply appends_next|]. intros data.
    apply appends_bind; [apply appends_output_write|by intros _].
Qed.

Lemma appends_log_close :
  appends (s' ← get; modify (set_trace (trace s' ++ [EvClose]))).
Proof.
  intros s. rewrite get_bind.
  repeat split; cbn; try done. by apply prefix_app_r.
Qed.

Lemma appends_makefile : appends makefile.
Proof.
  unfold makefile. apply appends_get_bind. intros s0.
  apply appends_bind; [apply appends_lift|]. intros env.
  apply appends_bind; [apply appends_call_app|]. intros ar.
  cbv zeta.
  apply appends_bind.
  { apply appends_except_StopIteration.
    apply appends_bind.
    - apply appends_try_finally; [apply appends_next|].
      apply appends_get_bind. intros s1.
      apply appends_for_each, appends_output_write.
    - intros item. destruct (truthy item); [|apply appends_ret].
      apply appends_bind; [apply appends_output_write|].
      intros _. apply appends_while_next. }
  intros _. apply appends_bind.
  { destruct (has_close ar); [apply appends_log_close|apply appends_ret]. }
  intros _. apply appends_get_bind. intros s1. apply appends_ret.
Qed.

(** What [makefile] returns is the output buffer as it leaves it. *)
Lemma makefile_returns_output s out s' :
  makefile s = (Ok out, s') → out = output s'.
Proof.
  unfold makefile. rewrite get_bind.
  unfold mbind at 1, M_bind at 1.
  destruct (lift _ s) as [[env|e] s1]; [|done].
  unfold mbind at 1, M_bind at 1.
  destruct (call_app _ _ s1) as [[ar|e] s2]; [|done].
  cbv zeta.
  unfold mbind at 1, M_bind at 1.
  destruct (except_StopIteration _ s2) as [[[]|e] s3]; [|done].
  rewrite makefile_end. intros [= <- <-].
  unfold extend. cbn. by rewrite app_nil_r.
Qed.

End FrameFacts.

(** X14.  Whatever the application does, and whether [makefile] returns
    or raises, it leaves the request, the application, the address and
    the mount point of the socket as they were, and only adds to the
    output and to the buffered writes: nothing that was there before the
    call is removed or changed. *)
Theorem makefile_only_appends (s : wsgi_fake_socket) :
  inp (makefile s).2 = inp s
  ∧ app (makefile s).2 = app s
  ∧ host (makefile s).2 = host s
  ∧ port (makefile s).2 = port s
  ∧ script_name (makefile s).2 = script_name s
  ∧ output s `prefix_of` output (makefile s).2
  ∧ write_results s `prefix_of` write_results (makefile s).2.
Proof.
  destruct (appends_makefile s) as (Ha & Hh & Hp & Hn & Hi & Hw & Ho & _).
  by repeat split.
Qed.

(** X15.  [makefile] does not reset the socket: when it is called again
    on the socket it has returned from, and returns again, the second
    response begins with the whole of the first. *)
Theorem makefile_again_repeats (s : wsgi_fake_socket) (out out' : bytes) :
  (makefile s).1 = Ok out →
  (makefile (makefile s).2).1 = Ok out' →
  out `prefix_of` out'.
Proof.
  intros Hfirst Hsecond.
  destruct (makefile s) as [r s1] eqn:Hrun. cbn [fst snd] in *. subst r.
  apply makefile_returns_output in Hrun. subst out.
  pose proof (appends_makefile s1) as (_ & _ & _ & _ & _ & _ & Hout & _).
  destruct (makefile s1) as [r s2] eqn:Hrun. cbn [fst snd] in *. subst r.
  apply makefile_returns_output in Hrun. by subst out'.
Qed.

Lemma makefile_again_repeats_witness :
  (header_block "200 OK" Examples.text_plain ++ b "world" ++ b "hello ")
    `prefix_of`
  (header_block "200 OK" Examples.text_plain ++ b "world" ++ b "hello "
     ++ header_block "200 OK" Examples.text_plain
     ++ b "world" ++ b "world" ++ b "hello ").
Proof.
  apply (makefile_again_repeats
           (loaded (AppObject true Examples.hello_world)
              Examples.example_test (PyInt 80) (PyStr "")
              Examples.get_root)).
  - vm_compute. reflexivity.
  - vm_compute. reflexivity.
Defined.

(* ===================================================================== *)
(** * [makefile]: how it fails *)
(* ===================================================================== *)

Section FailureFacts.

Implicit Types (s : wsgi_fake_socket) (h : handler).

Lemma output_write_not_bytes data s :
  is_bytes data = false → output_write data s = (Raise TypeError, s).
Proof. intros Hdata. by destruct data, s. Qed.

(** The flush of the buffered writes stops at the first one that is not
    [bytes]. *)
Lemma flush_fails ws s :
  forallb is_bytes ws = false →
  ∃ s', for_each ws output_write s = (Raise TypeError, s')
        ∧ trace s' = trace s.
Proof.
  revert s. induction ws as [|w ws IH]; intros s Hws; [done|].
  cbn [for_each]. destruct (is_bytes w) eqn:Hw.
  - cbn in Hws. rewrite Hw in Hws. cbn in Hws.
    destruct w as [| | |bs]; try done.
    rewrite (bind_ok _ _ _ _ _ (output_write_bytes bs s)).
    destruct (IH (extend bs [] [] s) Hws) as (s' & Hrun & Htrace).
    exists s'. split; [done|]. rewrite Htrace. cbn. by rewrite app_nil_r.
  - exists s. split; [|done].
    by rewrite (bind_raise _ _ _ _ _ (output_write_not_bytes w s Hw)).
Qed.

Lemma first_pull_flush_fails (ps : list pull) s :
  forallb action_ok (first_effects ps) = true →
  forallb is_bytes (write_results s ++ written (first_effects ps)) = false →
  ∃ s', try_finally (next ps)
          (s' ← get; for_each (write_results s') output_write) s
        = (Raise TypeError, s')
        ∧ trace s' = trace s ++ [EvNext].
Proof.
  intros Hok Hws. unfold try_finally.
  destruct ps as [|[acts out] rest]; cbn [first_effects fst] in *.
  - rewrite next_nil, get_bind.
    destruct (flush_fails (write_results (extend [] [] [EvNext] s))
                (extend [] [] [EvNext] s)) as (s' & Hrun & Htrace).
    { cbn [extend write_results]. by rewrite app_nil_r in *. }
    rewrite Hrun. exists s'. split; [done|]. by rewrite Htrace.
  - rewrite next_cons by done. rewrite get_bind.
    destruct (flush_fails
                (write_results
                   (extend (started acts) (written acts) [EvNext] s))
                (extend (started acts) (written acts) [EvNext] s))
      as (s' & Hrun & Htrace); [done|].
    rewrite Hrun. exists s'. split; [done|]. by rewrite Htrace.
Qed.

(** The loop of [makefile] on an iterator whose pulls are well typed up
    to one that fails. *)
Lemma while_next_fails (good : list pull) acts out (rest : list pull) s :
  forallb pull_ok good = true →
  forallb action_ok acts = true →
  pull_fails out = true →
  while_next (good ++ (acts, out) :: rest) s
  = (Raise (pull_error out),
     extend (drained good ++ started acts)
       (all_written good ++ written acts)
       (repeat EvNext (S (length good))) s).
Proof.
  revert s. induction good as [|[a o] good IH]; intros s Hgood Hacts Hout.
  - rewrite app_nil_l. cbn [while_next].
    pose proof (next_cons acts out rest s Hacts) as Hnext.
    destruct out as [item|e].
    + rewrite (bind_ok _ _ _ _ _ Hnext).
      cbn in Hout. apply negb_true_iff in Hout.
      by rewrite (bind_raise _ _ _ _ _ (output_write_not_bytes item _ Hout)).
    + by rewrite (bind_raise _ _ _ _ _ Hnext).
  - cbn in Hgood. apply andb_prop in Hgood as [Hp Hgood].
    unfold pull_ok in Hp. cbn [fst snd] in Hp.
    apply andb_prop in Hp as [Ha Ho].
    destruct o as [item|e]; [|done].
    destruct item as [| | |c]; try done.
    rewrite <- app_comm_cons. cbn [while_next].
    rewrite (bind_ok _ _ _ _ _
               (next_cons a (Yield (PyBytes c)) _ s Ha)).
    rewrite (bind_ok _ _ _ _ _ (output_write_bytes c _)).
    rewrite IH by done. rewrite !extend_extend.
    unfold all_written. cbn [drained wire concat map fst length repeat app].
    by rewrite <- ?app_assoc, ?app_nil_r.
Qed.





(** [makefile] up to the first pull, for a handler whose call is well
    typed. *)
Lemma makefile_called truth h host port sn request env ar
    (k : app_result → M bytes) :
  make_environ request host port sn = Ok env →
  call_returns (h env) = Ok ar →
  forallb action_ok (call_effects (h env)) = true →
  (s ← get;
   environ ← lift (make_environ (inp s) (FakeSocket.host s)
                     (FakeSocket.port s) (script_name s));
   app_result ← call_app (app s) environ;
   k app_result) (loaded (AppObject truth h) host port sn request)
  = k ar (extend (started (call_effects (h env)))
            (written (call_effects (h env))) []
            (loaded (AppObject truth h) host port sn request)).
Proof.
  intros Henv Hret Hce.
  remember (loaded (AppObject truth h) host port sn request) as s0 eqn:Hs0.
  assert (Hfields : inp s0 = request ∧ FakeSocket.host s0 = host
                    ∧ FakeSocket.port s0 = port ∧ script_name s0 = sn
                    ∧ app s0 = AppObject truth h).
  { by subst s0. }
  destruct Hfields as (Hinp & Hhost & Hport & Hsn & Happ).
  rewrite get_bind. rewrite Hinp, Hhost, Hport, Hsn, Happ.
  rewrite (bind_ok _ _ s0 env s0) by (unfold lift; by rewrite Henv).
  by rewrite (bind_ok _ _ _ _ _ (call_app_ok truth h env ar s0 Hret Hce)).
Qed.


(** [makefile] when the call of the application raises. *)
Lemma makefile_call_fails a host port sn request env e s' :
  make_environ request host port sn = Ok env →
  call_app a env (loaded a host port sn request) = (Raise e, s') →
  makefile (loaded a host port sn request) = (Raise e, s').
Proof.
  intros Henv Hcall.
  remember (loaded a host port sn request) as s0 eqn:Hs0.
  assert (Hfields : inp s0 = request ∧ FakeSocket.host s0 = host
                    ∧ FakeSocket.port s0 = port ∧ script_name s0 = sn
                    ∧ app s0 = a).
  { by subst s0. }
  destruct Hfields as (Hinp & Hhost & Hport & Hsn & Happ).
  unfold makefile. rewrite get_bind. rewrite Hinp, Hhost, Hport, Hsn, Happ.
  rewrite (bind_ok _ _ s0 env s0) by (unfold lift; by rewrite Henv).
  by rewrite (bind_raise _ _ _ _ _ Hcall).
Qed.

End FailureFacts.

(** X16.  When the iterator raises at the first pull an exception other
    than [StopIteration], [makefile] raises that exception, after the
    data passed to [write] was put in the output behind the header
    block; [next] was called once and [close] was not called. *)
Theorem iterator_error_after_flush (truth : bool) (h : handler)
    (host port script_name : pyval) (request : bytes) (env : environ)
    (ar : app_result) (a1 : list action) (e : exn) (rest : list pull) :
  make_environ request host port script_name = Ok env →
  call_returns (h env) = Ok ar →
  pulls ar = (a1, Throw e) :: rest →
  e ≠ StopIteration →
  forallb action_ok (call_effects (h env)) = true →
  forallb action_ok a1 = true →
  forallb is_bytes (written (call_effects (h env)) ++ written a1) = true →
  respond (AppObject truth h) host port script_name request
  = (Raise e,
     extend (started (call_effects (h env)) ++ started a1
               ++ payload (written (call_effects (h env)) ++ written a1))
       (written (call_effects (h env)) ++ written a1) [EvNext]
       (loaded (AppObject truth h) host port script_name request)).
Proof.
  intros Henv Hret Hps He Hce Ha1 Hws. unfold respond, makefile.
  rewrite (makefile_called truth h host port script_name request env ar _
             Henv Hret Hce).
  cbv zeta. rewrite Hps.
  set (ce := call_effects (h env)) in *.
  set (s0 := loaded (AppObject truth h) host port script_name request).
  set (s1 := extend (started ce) (written ce) [] s0).
  assert (Hws1 : write_results s1 = written ce) by done.
  assert (Hall : forallb is_bytes (write_results s1 ++ written a1) = true).
  { by rewrite Hws1. }
  pose proof (first_pull_cons a1 (Throw e) rest s1 Ha1 Hall) as Hpull.
  rewrite Hws1 in Hpull.
  match goal with
  | |- (except_StopIteration ?body ≫= _) _ = _ =>
      assert (Hblock :
               except_StopIteration body s1
               = (Raise e,
                  extend (started a1 ++ payload (written ce ++ written a1))
                    (written a1) [EvNext] s1))
  end.
  { unfold except_StopIteration.
    rewrite (bind_raise _ _ _ _ _ Hpull). by destruct e. }
  rewrite (bind_raise _ _ _ _ _ Hblock).
  subst s1. rewrite extend_extend. by rewrite <- ?app_assoc.
Qed.

Lemma iterator_error_after_flush_witness :
  (respond (AppObject true FailureExamples.broken_iterator)
     Examples.example_test (PyInt 80) (PyStr "") Examples.get_root).1
  = Raise (AppError "boom").
Proof.
  rewrite (iterator_error_after_flush true FailureExamples.broken_iterator
             Examples.example_test (PyInt 80) (PyStr "") Examples.get_root
             Examples.root_environ
             {| pulls := [([WriteFn (PyBytes (b "partial"))],
                           Throw (AppError "boom"))];
                has_close := true |}
             [WriteFn (PyBytes (b "partial"))] (AppError "boom") []
             root_environ_made eq_refl eq_refl);
    [reflexivity|discriminate|reflexivity|reflexivity|reflexivity].
Defined.

(** X17.  Data passed to [write] before the end of the first pull that is
    not [bytes] makes [makefile] raise [TypeError], whatever the first
    pull produced: an item, [StopIteration] or another exception.
    [next] was called once and [close] was not called. *)
Theorem write_data_must_be_bytes (truth : bool) (h : handler)
    (host port script_name : pyval) (request : bytes) (env : environ)
    (ar : app_result) :
  make_environ request host port script_name = Ok env →
  call_returns (h env) = Ok ar →
  forallb action_ok (call_effects (h env)) = true →
  forallb action_ok (first_effects (pulls ar)) = true →
  forallb is_bytes (written (call_effects (h env))
                      ++ written (first_effects (pulls ar))) = false →
  (respond (AppObject truth h) host port script_name request).1
  = Raise TypeError
  ∧ trace (respond (AppObject truth h) host port script_name request).2
    = [EvNext].
Proof.
  intros Henv Hret Hce Ha1 Hws. unfold respond, makefile.
  rewrite (makefile_called truth h host port script_name request env ar _
             Henv Hret Hce).
  cbv zeta.
  set (ce := call_effects (h env)) in *.
  set (s0 := loaded (AppObject truth h) host port script_name request).
  set (s1 := extend (started ce) (written ce) [] s0).
  assert (Hws1 : write_results s1 = written ce) by done.
  destruct (first_pull_flush_fails (pulls ar) s1 Ha1) as (s2 & Hpull & Htrace).
  { by rewrite Hws1. }
  match goal with
  | |- ((except_StopIteration ?body ≫= _) _).1 = _ ∧ _ =>
      assert (Hblock : except_StopIteration body s1 = (Raise TypeError, s2))
  end.
  { unfold except_StopIteration. by rewrite (bind_raise _ _ _ _ _ Hpull). }
  rewrite (bind_raise _ _ _ _ _ Hblock). cbn [fst snd].
  split; [done|]. by rewrite Htrace.
Qed.

Lemma write_data_must_be_bytes_witness :
  (respond (AppObject true FailureExamples.text_writer)
     Examples.example_test (PyInt 80) (PyStr "") Examples.get_root).1
  = Raise TypeError.
Proof.
  apply (write_data_must_be_bytes true FailureExamples.text_writer
           Examples.example_test (PyInt 80) (PyStr "") Examples.get_root
           Examples.root_environ {| pulls := []; has_close := true |}
           root_environ_made eq_refl eq_refl eq_refl eq_refl).
Defined.

(** X18.  After a truthy first item the loop writes every item without
    testing it.  When the pulls are well typed up to one that yields an
    item that is not [bytes], be it [None] or an empty [str], or that
    raises an exception other than [StopIteration], [makefile] raises
    [TypeError] in the first case and the exception in the second; the
    output holds what was written up to then, and [close] was not
    called. *)
Theorem later_pull_failure (truth : bool) (h : handler)
    (host port script_name : pyval) (request : bytes) (env : environ)
    (ar : app_result) (a1 : list action) (c : bytes) (good : list pull)
    (acts : list action) (out : outcome) (rest : list pull) :
  make_environ request host port script_name = Ok env →
  call_returns (h env) = Ok ar →
  pulls ar = (a1, Yield (PyBytes c)) :: good ++ (acts, out) :: rest →
  c ≠ [] →
  forallb action_ok (call_effects (h env)) = true →
  forallb action_ok a1 = true →
  forallb is_bytes (written (call_effects (h env)) ++ written a1) = true →
  forallb pull_ok good = true →
  forallb action_ok acts = true →
  pull_fails out = true →
  respond (AppObject truth h) host port script_name request
  = (Raise (pull_error out),
     extend (started (call_effects (h env)) ++ started a1
               ++ payload (written (call_effects (h env)) ++ written a1)
               ++ c ++ drained good ++ started acts)
       (written (call_effects (h env)) ++ written a1
          ++ all_written good ++ written acts)
       (repeat EvNext (S (S (length good))))
       (loaded (AppObject truth h) host port script_name request)).
Proof.
  intros Henv Hret Hps Hc Hce Ha1 Hws Hgood Hacts Hout.
  unfold respond, makefile.
  rewrite (makefile_called truth h host port script_name request env ar _
             Henv Hret Hce).
  cbv zeta. rewrite Hps.
  set (ce := call_effects (h env)) in *.
  set (s0 := loaded (AppObject truth h) host port script_name request).
  set (s1 := extend (started ce) (written ce) [] s0).
  assert (Hws1 : write_results s1 = written ce) by done.
  assert (Hall : forallb is_bytes (write_results s1 ++ written a1) = true).
  { by rewrite Hws1. }
  pose proof (first_pull_cons a1 (Yield (PyBytes c))
                (good ++ (acts, out) :: rest) s1 Ha1 Hall) as Hpull.
  rewrite Hws1 in Hpull.
  assert (Htruthy : truthy (PyBytes c) = true) by by destruct c.
  assert (Hnot_stop : pull_error out ≠ StopIteration).
  { destruct out as [item|e]; [done|]. by destruct e. }
  match goal with
  | |- (except_StopIteration ?body ≫= _) _ = _ =>
      assert (Hblock :
               except_StopIteration body s1
               = (Raise (pull_error out),
                  extend ((started a1
                             ++ payload (written ce ++ written a1))
                            ++ c ++ drained good ++ started acts)
                    (written a1 ++ all_written good ++ written acts)
                    (repeat EvNext (S (S (length good)))) s1))
  end.
  { unfold except_StopIteration.
    rewrite (bind_ok _ _ _ _ _ Hpull), Htruthy.
    rewrite (bind_ok _ _ _ _ _ (output_write_bytes c _)).
    cbn [tail]. rewrite while_next_fails by done.
    rewrite !extend_extend.
    replace ([EvNext] ++ [] ++ repeat EvNext (S (length good)))
      with (repeat EvNext (S (S (length good)))) by done.
    replace (written a1 ++ [] ++ all_written good ++ written acts)
      with (written a1 ++ all_written good ++ written acts) by done.
    rewrite <- ?app_assoc.
    by destruct (pull_error out). }
  rewrite (bind_raise _ _ _ _ _ Hblock).
  subst s1. rewrite extend_extend. cbn [app]. by rewrite <- ?app_assoc.
Qed.

Lemma later_pull_failure_witness :
  (respond (AppObject true FailureExamples.second_chunk_none)
     Examples.example_test (PyInt 80) (PyStr "") Examples.get_root).1
  = Raise TypeError.
Proof.
  rewrite (later_pull_failure true FailureExamples.second_chunk_none
             Examples.example_test (PyInt 80) (PyStr "") Examples.get_root
             Examples.root_environ
             {| pulls := [([], Yield (PyBytes (b "one")));
                          ([], Yield PyNone)];
                has_close := true |}
             [] (b "one") [] [] (Yield PyNone) []
             root_environ_made eq_refl eq_refl);
    [reflexivity|discriminate|reflexivity..].
Defined.





(** X21.  Errors before the first pull pass through [makefile]
    unchanged.  When the request cannot be parsed, [makefile] raises what
    [make_environ] raises and the socket is as before: the application,
    whatever it is, was not called.  When the application raises after
    well-typed callback calls, [makefile] raises the same exception, what
    [start_response] wrote stays in the output, and neither [next] nor
    [close] was called. *)
Theorem errors_before_first_pull (host port script_name : pyval)
    (request : bytes) (e : exn) :
  (∀ a : application,
     make_environ request host port script_name = Raise e →
     respond a host port script_name request
     = (Raise e, loaded a host port script_name request))
  ∧ (∀ (truth : bool) (h : handler) (env : environ),
       make_environ request host port script_name = Ok env →
       call_returns (h env) = Raise e →
       forallb action_ok (call_effects (h env)) = true →
       respond (AppObject truth h) host port script_name request
       = (Raise e,
          extend (started (call_effects (h env)))
            (written (call_effects (h env))) []
            (loaded (AppObject truth h) host port script_name request))).
Proof.
  split.
  - intros a Henv. unfold respond.
    remember (loaded a host port script_name request) as s0 eqn:Hs0.
    assert (Hfields : inp s0 = request ∧ FakeSocket.host s0 = host
                      ∧ FakeSocket.port s0 = port
                      ∧ FakeSocket.script_name s0 = script_name).
    { by subst s0. }
    destruct Hfields as (Hinp & Hhost & Hport & Hsn).
    unfold makefile. rewrite get_bind. rewrite Hinp, Hhost, Hport, Hsn.
    by rewrite (bind_raise _ _ s0 e s0) by (unfold lift; by rewrite Henv).
  - intros truth h env Henv Hret Hce. unfold respond.
    apply (makefile_call_fails _ _ _ _ _ env); [done|].
    unfold call_app.
    rewrite (bind_ok _ _ _ tt _ (run_actions_ok _ _ Hce)).
    unfold lift. by rewrite Hret.
Qed.

Lemma errors_before_first_pull_witness :
  (respond (AppObject true FailureExamples.raising_app)
     Examples.example_test (PyInt 80) (PyStr "") Examples.get_root).1
  = Raise (AppError "boom").
Proof.
  rewrite (proj2 (errors_before_first_pull Examples.example_test (PyInt 80)
                    (PyStr "") Examples.get_root (AppError "boom"))
             true FailureExamples.raising_app Examples.root_environ
             root_environ_made eq_refl eq_refl).
  reflexivity.
Defined.

(* ===================================================================== *)
(** * Installing and removing the interceptors *)
(* ===================================================================== *)

Section PatchingFacts.

Implicit Types (st : Patching.modules) (m : gmap string Patching.conn_class).

(** Assigning the two schemes again overwrites the earlier assignment. *)
Lemma schemes_set_twice m (a a' c c' : Patching.conn_class) :
  <["https" := a]> (<["http" := c]> (<["https" := a']> (<["http" := c']> m)))
  = <["https" := a]> (<["http" := c]> m).
Proof.
  apply map_eq. intros scheme. rewrite !lookup_insert.
  by repeat case_decide.
Qed.

Lemma schemes_other m (a c : Patching.conn_class) (scheme : string) :
  scheme ≠ "http" → scheme ≠ "https" →
  <["https" := a]> (<["http" := c]> m) !! scheme = m !! scheme.
Proof. intros Hhttp Hhttps. by rewrite !lookup_insert_ne. Qed.

End PatchingFacts.

(** X22.  [httplib2_intercept.install] points the schemes [http] and
    [https] at the interceptor classes and [uninstall] points them at
    httplib2's own classes; neither touches another scheme.  [uninstall]
    does not restore what [install] replaced: after [install] and
    [uninstall] the two schemes hold httplib2's classes whatever they
    held before, and each of the two functions undoes all of the
    other. *)
Theorem install_uninstall_schemes (st : Patching.modules) :
  Patching.SCHEME_TO_CONNECTION (Patching.install st) !! "http"
  = Some Patching.HTTP_WSGIInterceptorWithTimeout
  ∧ Patching.SCHEME_TO_CONNECTION (Patching.install st) !! "https"
    = Some Patching.HTTPS_WSGIInterceptorWithTimeout
  ∧ Patching.SCHEME_TO_CONNECTION (Patching.uninstall (Patching.install st))
      !! "http"
    = Some Patching.HTTPConnectionWithTimeout
  ∧ Patching.SCHEME_TO_CONNECTION (Patching.uninstall (Patching.install st))
      !! "https"
    = Some Patching.HTTPSConnectionWithTimeout
  ∧ Patching.uninstall (Patching.install st) = Patching.uninstall st
  ∧ Patching.install (Patching.uninstall st) = Patching.install st
  ∧ (∀ scheme : string,
       scheme ≠ "http" → scheme ≠ "https" →
       Patching.SCHEME_TO_CONNECTION (Patching.install st) !! scheme
       = Patching.SCHEME_TO_CONNECTION st !! scheme
       ∧ Patching.SCHEME_TO_CONNECTION (Patching.uninstall st) !! scheme
         = Patching.SCHEME_TO_CONNECTION st !! scheme).
Proof.
  unfold Patching.install, Patching.uninstall, Patching.set_schemes.
  cbn [Patching.SCHEME_TO_CONNECTION Patching.pool_HTTPConnection
       Patching.pool_HTTPSConnection Patching.old_http Patching.old_https
       Patching.has_settimeout].
  repeat split.
  - by rewrite lookup_insert_ne, lookup_insert_eq.
  - by rewrite lookup_insert_eq.
  - by rewrite lookup_insert_ne, lookup_insert_eq.
  - by rewrite lookup_insert_eq.
  - by rewrite schemes_set_twice.
  - by rewrite schemes_set_twice.
  - by apply schemes_other.
  - by apply schemes_other.
Qed.

Lemma install_uninstall_schemes_witness :
  Patching.SCHEME_TO_CONNECTION (Patching.install Patching.unpatched) !! "ftp"
  = Patching.SCHEME_TO_CONNECTION Patching.unpatched !! "ftp".
Proof.
  apply (proj2 (proj2 (proj2 (proj2 (proj2 (proj2
           (install_uninstall_schemes Patching.unpatched)))))) "ftp");
    discriminate.
Defined.

(** X23.  [uninstall_opener] after [install_opener] raises nothing and
    puts back the two connection classes of urllib3's [connectionpool]
    that [install_opener] replaced by the interceptor classes.  It does
    not undo everything: [wsgi_fake_socket] keeps its [settimeout], the
    attributes [old_http] and [old_https] stay, and the two httplib2
    schemes hold httplib2's own classes, not what they held before. *)
Theorem opener_round_trip (st : Patching.modules) :
  Patching.pool_HTTPConnection (Patching.install_opener st)
  = Patching.WSGI_HTTPConnection
  ∧ Patching.pool_HTTPSConnection (Patching.install_opener st)
    = Patching.WSGI_HTTPSConnection
  ∧ (Patching.uninstall_opener (Patching.install_opener st)).1 = Ok tt
  ∧ Patching.pool_HTTPConnection
      (Patching.uninstall_opener (Patching.install_opener st)).2
    = Patching.pool_HTTPConnection st
  ∧ Patching.pool_HTTPSConnection
      (Patching.uninstall_opener (Patching.install_opener st)).2
    = Patching.pool_HTTPSConnection st
  ∧ Patching.SCHEME_TO_CONNECTION
      (Patching.uninstall_opener (Patching.install_opener st)).2
    = Patching.SCHEME_TO_CONNECTION (Patching.uninstall st)
  ∧ Patching.has_settimeout
      (Patching.uninstall_opener (Patching.install_opener st)).2 = true
  ∧ Patching.old_http
      (Patching.uninstall_opener (Patching.install_opener st)).2
    = Some (Patching.pool_HTTPConnection st)
  ∧ Patching.old_https
      (Patching.uninstall_opener (Patching.install_opener st)).2
    = Some (Patching.pool_HTTPSConnection st).
Proof.
  unfold Patching.uninstall_opener, Patching.install_opener,
    Patching.install, Patching.uninstall, Patching.set_schemes.
  cbn [Patching.SCHEME_TO_CONNECTION Patching.pool_HTTPConnection
       Patching.pool_HTTPSConnection Patching.old_http Patching.old_https
       Patching.has_settimeout fst snd].
  repeat split. by rewrite schemes_set_twice.
Qed.

(** X24.  [install_opener] called twice loses the original classes: the
    second call saves the interceptor classes as [old_http] and
    [old_https], so [uninstall_opener], called once or twice afterwards,
    raises nothing and leaves the interceptor classes in
    [connectionpool]. *)
Theorem opener_installed_twice (st : Patching.modules) :
  (Patching.uninstall_opener
     (Patching.install_opener (Patching.install_opener st))).1 = Ok tt
  ∧ Patching.pool_HTTPConnection
      (Patching.uninstall_opener
         (Patching.install_opener (Patching.install_opener st))).2
    = Patching.WSGI_HTTPConnection
  ∧ Patching.pool_HTTPSConnection
      (Patching.uninstall_opener
         (Patching.install_opener (Patching.install_opener st))).2
    = Patching.WSGI_HTTPSConnection
  ∧ (Patching.uninstall_opener
       (Patching.uninstall_opener
          (Patching.install_opener (Patching.install_opener st))).2).1
    = Ok tt
  ∧ Patching.pool_HTTPConnection
      (Patching.uninstall_opener
         (Patching.uninstall_opener
            (Patching.install_opener (Patching.install_opener st))).2).2
    = Patching.WSGI_HTTPConnection
  ∧ Patching.pool_HTTPSConnection
      (Patching.uninstall_opener
         (Patching.uninstall_opener
            (Patching.install_opener (Patching.install_opener st))).2).2
    = Patching.WSGI_HTTPSConnection.
Proof. by repeat split. Qed.

(** X25.  [uninstall_opener] without an earlier [install_opener] raises
    [AttributeError], since [connectionpool.old_http] was never set; by
    then [uninstall] has run, so the httplib2 schemes are reset, and the
    classes of [connectionpool] are as before. *)
Theorem uninstall_opener_needs_install (st : Patching.modules) :
  Patching.old_http st = None →
  Patching.uninstall_opener st
  = (Raise AttributeError, Patching.uninstall st)
  ∧ Patching.pool_HTTPConnection (Patching.uninstall_opener st).2
    = Patching.pool_HTTPConnection st
  ∧ Patching.pool_HTTPSConnection (Patching.uninstall_opener st).2
    = Patching.pool_HTTPSConnection st
  ∧ Patching.SCHEME_TO_CONNECTION (Patching.uninstall_opener st).2 !! "http"
    = Some Patching.HTTPConnectionWithTimeout.
Proof.
  intros Hold. unfold Patching.uninstall_opener.
  cbv zeta.
  assert (Hold' : Patching.old_http (Patching.uninstall st) = None) by done.
  rewrite Hold'. cbn [fst snd]. repeat split.
  unfold Patching.uninstall, Patching.set_schemes.
  cbn [Patching.SCHEME_TO_CONNECTION].
  by rewrite lookup_insert_ne, lookup_insert_eq.
Qed.

Lemma uninstall_opener_needs_install_witness :
  Patching.uninstall_opener Patching.unpatched
  = (Raise AttributeError, Patching.uninstall Patching.unpatched).
Proof.
  apply (uninstall_opener_needs_install Patching.unpatched). reflexivity.
Defined.

(* ===================================================================== *)
(** * [make_environ]: the request headers *)
(* ===================================================================== *)

Section HeaderFacts.

Implicit Types (hv : header_vars) (line name value : bytes)
  (lines : list bytes) (env : environ) (k : string).

Lemma split_once_at name value :
  ":"%byte ∉ name →
  split_once (Byte.eqb ":"%byte) (name ++ ":"%byte :: value)
  = (name, Some value).
Proof.
  induction name as [|c name IH]; intros Hname; [done|].
  rewrite <- app_comm_cons. cbn [split_once].
  destruct (Byte.eqb ":"%byte c) eqn:Hc.
  - apply Byte.byte_dec_bl in Hc. subst c.
    destruct Hname. apply elem_of_cons. by left.
  - rewrite IH; [done|]. intros Hin. apply Hname, elem_of_cons. by right.
Qed.

Lemma well_formed_split line :
  well_formed line →
  ∃ name value, split_once (Byte.eqb ":"%byte) (bytes_strip line)
                = (name, Some value).
Proof.
  intros [_ Hcolon].
  apply (split_once_found (Byte.eqb ":"%byte)). exists ":"%byte. by split.
Qed.

End HeaderFacts.

Section HeaderLoopFacts.

Implicit Types (hv : header_vars) (line name value : bytes)
  (lines : list bytes) (env : environ) (k : string).

Lemma cookie_byte (x : byte) :
  forallb (λ c : byte,
             implb (Byte.eqb (if Byte.eqb (byte_upper x) "-"%byte
                              then "_"%byte else byte_upper x) c)
                   (Byte.eqb (byte_lower x) (byte_lower c)))
    (b "COOKIE") = true.
Proof. destruct x; vm_compute; reflexivity. Qed.

Lemma cookie_byte_lower (x c : byte) :
  In c (b "COOKIE") →
  (if Byte.eqb (byte_upper x) "-"%byte then "_"%byte else byte_upper x) = c →
  byte_lower x = byte_lower c.
Proof.
  intros Hin Hx. pose proof (cookie_byte x) as Hall.
  rewrite forallb_forall in Hall. specialize (Hall c Hin).
  rewrite Hx, (Byte.byte_dec_lb (x:=c) (y:=c) eq_refl) in Hall.
  by apply Byte.byte_dec_bl.
Qed.

(** Only a header named [cookie], in any case, would be stored under
    [HTTP_COOKIE]. *)
Lemma http_key_cookie name :
  http_key name = "HTTP_COOKIE" → bytes_lower name = b "cookie".
Proof.
  unfold http_key. intros Hkey.
  assert (Hname : bytes_replace "-"%byte "_"%byte (bytes_upper name)
                  = b "COOKIE").
  { cbv [String.append] in Hkey. injection Hkey as Hkey.
    apply (f_equal list_byte_of_string) in Hkey.
    unfold decode_latin1 in Hkey.
    by rewrite list_byte_of_string_of_list_byte in Hkey. }
  unfold bytes_replace, bytes_upper in Hname. rewrite map_map in Hname.
  destruct name as [|x1 [|x2 [|x3 [|x4 [|x5 [|x6 [|x7 name]]]]]]];
    try discriminate Hname.
  cbn [map] in Hname.
  injection Hname as H1 H2 H3 H4 H5 H6.
  unfold bytes_lower. cbn [map].
  rewrite (cookie_byte_lower x1 "C"%byte ltac:(cbn; tauto) H1).
  rewrite (cookie_byte_lower x2 "O"%byte ltac:(cbn; tauto) H2).
  rewrite (cookie_byte_lower x3 "O"%byte ltac:(cbn; tauto) H3).
  rewrite (cookie_byte_lower x4 "K"%byte ltac:(cbn; tauto) H4).
  rewrite (cookie_byte_lower x5 "I"%byte ltac:(cbn; tauto) H5).
  rewrite (cookie_byte_lower x6 "E"%byte ltac:(cbn; tauto) H6).
  reflexivity.
Qed.

Ltac clash_of_names :=
  match goal with
  | H1 : bytes_lower ?n = _, H2 : bytes_lower ?n = _ |- _ =>
      rewrite H1 in H2; by vm_compute in H2
  end.

(** What one well-formed header line changes. *)
Lemma header_line_effect line hv :
  well_formed line →
  ∃ hv',
    header_line line hv = Ok hv'
    ∧ (∀ k, http_key (raw_name line) ≠ k →
            environ_of hv' !! k = environ_of hv !! k)
    ∧ (bytes_lower (raw_name line) ≠ b "content-type" →
       content_type hv' = content_type hv)
    ∧ (bytes_lower (raw_name line) ≠ b "content-length" →
       content_length hv' = content_length hv)
    ∧ cookies hv'
      = cookies hv ++ match cookie_value line with
                      | Some v => [v]
                      | None => []
                      end.
Proof.
  intros Hline. destruct (well_formed_split line Hline) as (name & value & Hs).
  unfold header_line, raw_name, cookie_value. rewrite Hs. cbn [fst].
  unfold bytes_eqb.
  repeat case_bool_decide; try clash_of_names;
    (eexists; split; [reflexivity|]);
    cbn [environ_of content_type content_length cookies orb];
    repeat split; try done; try (by rewrite app_nil_r).
  intros k Hk. by rewrite lookup_insert_ne.
Qed.

(** No header line is stored under [HTTP_COOKIE]. *)
Lemma header_line_no_cookie_key line hv hv' :
  header_line line hv = Ok hv' →
  environ_of hv !! "HTTP_COOKIE" = None →
  environ_of hv' !! "HTTP_COOKIE" = None.
Proof.
  unfold header_line.
  destruct (split_once _ _) as [name [value|]]; [|done].
  unfold bytes_eqb.
  repeat case_bool_decide; cbn [orb]; intros [= <-]; try done.
  cbn [environ_of]. intros Hnone.
  rewrite lookup_insert_ne; [done|].
  fold (http_key name). intros Hkey.
  by apply http_key_cookie in Hkey.
Qed.

Lemma header_loop_no_cookie_key lines hv hv' unread :
  header_loop lines hv = Ok (hv', unread) →
  environ_of hv !! "HTTP_COOKIE" = None →
  environ_of hv' !! "HTTP_COOKIE" = None.
Proof.
  revert hv. induction lines as [|line rest IH]; intros hv Hloop Hnone;
    cbn in Hloop.
  - by inversion Hloop; subst.
  - destruct (bytes_strip line) eqn:Hblank.
    + by inversion Hloop; subst.
    + destruct (header_line line hv) as [hv1|e] eqn:Hline; [|done].
      apply (IH hv1); [done|].
      by apply (header_line_no_cookie_key line hv).
Qed.

(** The loop over well-formed header lines up to a blank line. *)
Lemma header_loop_block lines blank rest hv :
  Forall well_formed lines →
  bytes_strip blank = [] →
  ∃ hv',
    header_loop (lines ++ blank :: rest) hv = Ok (hv', rest)
    ∧ (∀ k, Forall (λ l, http_key (raw_name l) ≠ k) lines →
            environ_of hv' !! k = environ_of hv !! k)
    ∧ (Forall (λ l, bytes_lower (raw_name l) ≠ b "content-type") lines →
       content_type hv' = content_type hv)
    ∧ (Forall (λ l, bytes_lower (raw_name l) ≠ b "content-length") lines →
       content_length hv' = content_length hv)
    ∧ cookies hv' = cookies hv ++ cookie_values lines.
Proof.
  intros Hlines Hblank. revert hv.
  induction lines as [|line lines IH]; intros hv.
  - exists hv. rewrite app_nil_l. cbn [header_loop]. rewrite Hblank.
    repeat split; try done. cbn. by rewrite app_nil_r.
  - inversion Hlines as [|? ? Hline Hlines']; subst.
    destruct (header_line_effect line hv Hline)
      as (hv1 & Hrun & Henv & Hct & Hcl & Hcookies).
    destruct (IH Hlines' hv1) as (hv' & Hloop & Henv' & Hct' & Hcl' & Hcookies').
    exists hv'. rewrite <- app_comm_cons. cbn [header_loop].
    destruct Hline as [Hnonblank _].
    destruct (bytes_strip line) eqn:Hstrip; [done|].
    rewrite Hrun. cbn [mbind result_bind]. split; [exact Hloop|].
    split; [|split; [|split]].
    + intros k Hall. inversion Hall; subst.
      rewrite Henv' by done. by apply Henv.
    + intros Hall. inversion Hall; subst. rewrite Hct' by done. by apply Hct.
    + intros Hall. inversion Hall; subst. rewrite Hcl' by done. by apply Hcl.
    + rewrite Hcookies', Hcookies, <- app_assoc. f_equal.
      unfold cookie_values.
      change (omap cookie_value (line :: lines))
        with (match cookie_value line with
              | Some v => v :: omap cookie_value lines
              | None => omap cookie_value lines
              end).
      by destruct (cookie_value line).
Qed.

(** The header line [name: value], by the kind of its name. *)
Lemma header_line_ordinary line name value hv :
  bytes_strip line = name ++ ":"%byte :: value →
  ":"%byte ∉ name →
  bytes_lower name ∉ special_names →
  header_line line hv
  = Ok {| content_type := content_type hv;
          content_length := content_length hv;
          cookies := cookies hv;
          environ_of := <[http_key name := EnvStr (header_value value)]>
                          (environ_of hv) |}.
Proof.
  intros Hstrip Hname Hspecial. unfold header_line.
  rewrite Hstrip, split_once_at by done.
  unfold bytes_eqb.
  repeat case_bool_decide; try done;
    destruct Hspecial;
    match goal with H : bytes_lower name = _ |- _ => rewrite H end;
    apply list_elem_of_In; unfold special_names;
    repeat (first [left; reflexivity | right]).
Qed.

Lemma header_line_content_type line name value hv :
  bytes_strip line = name ++ ":"%byte :: value →
  ":"%byte ∉ name →
  bytes_lower name = b "content-type" →
  header_line line hv
  = Ok {| content_type := Some (header_value value);
          content_length := content_length hv;
          cookies := cookies hv;
          environ_of := environ_of hv |}.
Proof.
  intros Hstrip Hname Hspecial. unfold header_line.
  rewrite Hstrip, split_once_at by done.
  unfold bytes_eqb. by rewrite Hspecial.
Qed.

Lemma header_line_content_length line name value hv :
  bytes_strip line = name ++ ":"%byte :: value →
  ":"%byte ∉ name →
  bytes_lower name = b "content-length" →
  header_line line hv
  = Ok {| content_type := content_type hv;
          content_length := Some (header_value value);
          cookies := cookies hv;
          environ_of := environ_of hv |}.
Proof.
  intros Hstrip Hname Hspecial. unfold header_line.
  rewrite Hstrip, split_once_at by done.
  unfold bytes_eqb. by rewrite Hspecial.
Qed.

(** The loop over a header block in which [line] stands out. *)
Lemma header_loop_around before line after blank rest
    (step : header_vars → header_vars) :
  Forall well_formed before →
  Forall well_formed after →
  bytes_strip blank = [] →
  bytes_strip line ≠ [] →
  (∀ hv, header_line line hv = Ok (step hv)) →
  ∃ hv0 hv2,
    header_loop (before ++ line :: after ++ blank :: rest) no_headers
    = Ok (hv2, rest)
    ∧ (∀ k, Forall (λ l, http_key (raw_name l) ≠ k) after →
            environ_of hv2 !! k = environ_of (step hv0) !! k)
    ∧ (Forall (λ l, bytes_lower (raw_name l) ≠ b "content-type") after →
       content_type hv2 = content_type (step hv0))
    ∧ (Forall (λ l, bytes_lower (raw_name l) ≠ b "content-length") after →
       content_length hv2 = content_length (step hv0)).
Proof.
  intros Hbefore Hafter Hblank Hnonblank Hline.
  destruct (header_loop_through before (line :: after ++ blank :: rest)
              no_headers) as [hv0 Hloop0].
  { eapply Forall_impl; [exact Hbefore|]. by intros l [? ?]. }
  destruct (header_loop_block after blank rest (step hv0) Hafter Hblank)
    as (hv2 & Hloop2 & Henv & Hct & Hcl & _).
  exists hv0, hv2. split; [|done].
  rewrite Hloop0. cbn [header_loop].
  destruct (bytes_strip line); [done|].
  by rewrite Hline.
Qed.

(** The environment, in terms of what the header loop gathered. *)
Lemma make_environ_headers inp host port (mount : str) method url protocol
    hv unread :
  str_split " " (decode_latin1 (hd [] (readlines inp)))
  = [method; url; protocol] →
  header_loop (tl (readlines inp)) no_headers = Ok (hv, unread) →
  ∃ env,
    make_environ inp host port (PyStr mount) = Ok env
    ∧ (∀ k, k ∉ reserved_keys → k ≠ "HTTP_COOKIE" →
            env !! k = environ_of hv !! k)
    ∧ env !! "CONTENT_TYPE" = EnvStr <$> nonempty (content_type hv)
    ∧ env !! "CONTENT_LENGTH" = EnvStr <$> nonempty (content_length hv)
    ∧ env !! "HTTP_COOKIE"
      = match cookies hv with
        | [] => None
        | cs => Some (EnvStr (str_join "; " cs))
        end.
Proof.
  intros Hline Hloop.
  assert (Hkeeps : ∀ k, String.prefix "HTTP_" k = false →
                        environ_of hv !! k = None).
  { intros k Hk.
    by apply (header_loop_keeps (tl (readlines inp)) no_headers hv unread). }
  assert (Hcookie : environ_of hv !! "HTTP_COOKIE" = None).
  { by apply (header_loop_no_cookie_key (tl (readlines inp)) no_headers
                hv unread). }
  unfold make_environ. rewrite Hloop. unfold mbind at 1, result_bind at 1.
  rewrite Hline. unfold url_startswith, mbind, result_bind.
  destruct (startswith url mount); cbn [negb len];
    destruct (str_split_once "?" _) as [path after];
    (eexists; split; [reflexivity|]);
    destruct (cookies hv) eqn:Hcs;
    (split; [|split; [|split]]).
  all: try (intros k Hfree Hnot;
            assert (Hin : ∀ key, In key reserved_keys → key ≠ k)
              by (intros key Hkey <-; by apply Hfree, list_elem_of_In);
            repeat first
              [ rewrite lookup_set_if_ne by (apply Hin; cbn; tauto)
              | rewrite lookup_insert_ne
                  by first [ apply Hin; cbn; tauto | done ] ];
            done).
  all: repeat first
         [ rewrite lookup_insert_eq
         | rewrite lookup_set_if_eq
         | rewrite lookup_insert_ne by done
         | rewrite lookup_set_if_ne by done ];
       try done.
  all: try (destruct (nonempty _); [done|];
            repeat rewrite lookup_insert_ne by done;
            by apply Hkeeps).
Qed.

End HeaderLoopFacts.

(** X26.  A request header [name: value] whose name is none of
    [Content-Type], [Content-Length], [Cookie] and [Cookie2] reaches the
    application under the key [HTTP_] followed by the name in upper case
    with dashes replaced by underscores, with the white space around the
    value removed.  Earlier headers that map to the same key are
    overwritten: the value is that of the last such header line. *)
Theorem header_reaches_environ (inp : bytes) (host port : pyval)
    (mount method url protocol : str)
    (before : list bytes) (line : bytes) (after : list bytes)
    (blank : bytes) (rest : list bytes) (name value : bytes) :
  str_split " " (decode_latin1 (hd [] (readlines inp)))
  = [method; url; protocol] →
  tl (readlines inp) = before ++ line :: after ++ blank :: rest →
  Forall well_formed before →
  Forall well_formed after →
  bytes_strip blank = [] →
  bytes_strip line = name ++ ":"%byte :: value →
  ":"%byte ∉ name →
  bytes_lower name ∉ special_names →
  Forall (λ l, http_key (raw_name l) ≠ http_key name) after →
  ∃ env : environ,
    make_environ inp host port (PyStr mount) = Ok env
    ∧ env !! http_key name = Some (EnvStr (header_value value)).
Proof.
  intros Hline Hlines Hbefore Hafter Hblank Hstrip Hname Hspecial Hlast.
  destruct (header_loop_around before line after blank rest
              (λ hv, {| content_type := content_type hv;
                        content_length := content_length hv;
                        cookies := cookies hv;
                        environ_of :=
                          <[http_key name := EnvStr (header_value value)]>
                            (environ_of hv) |})
              Hbefore Hafter Hblank)
    as (hv0 & hv2 & Hloop & Henv & _).
  { rewrite Hstrip. by destruct name. }
  { intros hv. by apply header_line_ordinary. }
  rewrite <- Hlines in Hloop.
  destruct (make_environ_headers inp host port mount method url protocol
              hv2 rest Hline Hloop) as (env & Hmake & Hkeys & _).
  exists env. split; [done|].
  rewrite Hkeys.
  - rewrite (Henv _ Hlast). cbn [environ_of]. by rewrite lookup_insert_eq.
  - intros Hin. apply list_elem_of_In in Hin. unfold http_key in Hin.
    cbn in Hin.
    repeat (destruct Hin as [Hin|Hin]; [discriminate Hin|]). done.
  - intros Hkey. apply http_key_cookie in Hkey.
    apply Hspecial. rewrite Hkey. apply list_elem_of_In.
    unfold special_names. repeat (first [left; reflexivity | right]).
Qed.

Lemma header_reaches_environ_witness :
  ∃ env : environ,
    make_environ HeaderExamples.repeated_header Examples.example_test
      (PyInt 80) (PyStr "") = Ok env
    ∧ env !! "HTTP_X_FOO" = Some (EnvStr "second").
Proof.
  apply (header_reaches_environ HeaderExamples.repeated_header
           Examples.example_test (PyInt 80) "" "GET" "/"
           (String.append "HTTP/1.1" crlf)
           [HeaderExamples.x_foo_first] HeaderExamples.x_foo_second
           [HeaderExamples.host_line] Examples.CRLF []
           (b "x-foo") (b "  second")).
  - reflexivity.
  - reflexivity.
  - apply List.Forall_cons; [|apply List.Forall_nil].
    split; [discriminate|].
    apply list_elem_of_In. vm_compute.
    repeat (first [left; reflexivity | right]).
  - apply List.Forall_cons; [|apply List.Forall_nil].
    split; [discriminate|].
    apply list_elem_of_In. vm_compute.
    repeat (first [left; reflexivity | right]).
  - reflexivity.
  - reflexivity.
  - intros Hin. apply list_elem_of_In in Hin. vm_compute in Hin.
    repeat (destruct Hin as [Hin|Hin]; [discriminate Hin|]). done.
  - intros Hin. apply list_elem_of_In in Hin. vm_compute in Hin.
    repeat (destruct Hin as [Hin|Hin]; [discriminate Hin|]). done.
  - apply List.Forall_cons; [|apply List.Forall_nil]. discriminate.
Defined.

(** X27.  [Content-Type] and [Content-Length], in any case, are not
    stored under [HTTP_]: the value of the last such header line becomes
    [CONTENT_TYPE], respectively [CONTENT_LENGTH], and when that value is
    empty the key is left out of the environment. *)
Theorem content_headers_special (inp : bytes) (host port : pyval)
    (mount method url protocol : str)
    (before : list bytes) (line : bytes) (after : list bytes)
    (blank : bytes) (rest : list bytes) (name value : bytes) :
  str_split " " (decode_latin1 (hd [] (readlines inp)))
  = [method; url; protocol] →
  tl (readlines inp) = before ++ line :: after ++ blank :: rest →
  Forall well_formed before →
  Forall well_formed after →
  bytes_strip blank = [] →
  bytes_strip line = name ++ ":"%byte :: value →
  ":"%byte ∉ name →
  ∃ env : environ,
    make_environ inp host port (PyStr mount) = Ok env
    ∧ (bytes_lower name = b "content-type" →
       Forall (λ l, bytes_lower (raw_name l) ≠ b "content-type") after →
       env !! "CONTENT_TYPE"
       = if String.eqb (header_value value) "" then None
         else Some (EnvStr (header_value value)))
    ∧ (bytes_lower name = b "content-length" →
       Forall (λ l, bytes_lower (raw_name l) ≠ b "content-length") after →
       env !! "CONTENT_LENGTH"
       = if String.eqb (header_value value) "" then None
         else Some (EnvStr (header_value value))).
Proof.
  intros Hline Hlines Hbefore Hafter Hblank Hstrip Hname.
  assert (Hnonblank : bytes_strip line ≠ []).
  { rewrite Hstrip. by destruct name. }
  assert (Hsplit : ":"%byte ∈ bytes_strip line).
  { rewrite Hstrip. apply elem_of_app. right. apply elem_of_cons. by left. }
  assert (Hexists : ∃ hv unread,
             header_loop (tl (readlines inp)) no_headers = Ok (hv, unread)).
  { rewrite Hlines.
    destruct (header_loop_block (before ++ line :: after) blank rest
                no_headers) as (hv & Hloop & _); [|done|].
    - apply Forall_app. split; [done|].
      apply List.Forall_cons; [by split|done].
    - rewrite <- app_assoc, <- app_comm_cons in Hloop. by eexists _, _. }
  destruct Hexists as (hv & unread & Hloop).
  destruct (make_environ_headers inp host port mount method url protocol
              hv unread Hline Hloop) as (env & Hmake & _ & Hct & Hcl & _).
  exists env. split; [done|]. split.
  - intros Hkind Hlast.
    destruct (header_loop_around before line after blank rest
                (λ hv, {| content_type := Some (header_value value);
                          content_length := content_length hv;
                          cookies := cookies hv;
                          environ_of := environ_of hv |})
                Hbefore Hafter Hblank Hnonblank)
      as (hv0 & hv2 & Hloop' & _ & Hkeep & _).
    { intros hv1. by apply (header_line_content_type line name value). }
    rewrite <- Hlines, Hloop in Hloop'. injection Hloop' as <- _.
    rewrite Hct, (Hkeep Hlast). cbn [content_type nonempty].
    by destruct (String.eqb _ _).
  - intros Hkind Hlast.
    destruct (header_loop_around before line after blank rest
                (λ hv, {| content_type := content_type hv;
                          content_length := Some (header_value value);
                          cookies := cookies hv;
                          environ_of := environ_of hv |})
                Hbefore Hafter Hblank Hnonblank)
      as (hv0 & hv2 & Hloop' & _ & _ & Hkeep).
    { intros hv1. by apply (header_line_content_length line name value). }
    rewrite <- Hlines, Hloop in Hloop'. injection Hloop' as <- _.
    rewrite Hcl, (Hkeep Hlast). cbn [content_length nonempty].
    by destruct (String.eqb _ _).
Qed.

Lemma content_headers_special_witness :
  ∃ env : environ,
    make_environ HeaderExamples.typed_request Examples.example_test
      (PyInt 80) (PyStr "") = Ok env
    ∧ env !! "CONTENT_TYPE" = Some (EnvStr "text/plain").
Proof.
  destruct (content_headers_special HeaderExamples.typed_request
              Examples.example_test (PyInt 80) "" "POST" "/submit"
              (String.append "HTTP/1.1" crlf)
              [HeaderExamples.host_line] HeaderExamples.type_line
              [HeaderExamples.length_line] Examples.CRLF [b "hello"]
              (b "Content-Type") (b " text/plain"))
    as (env & Hmake & Htype & _).
  - reflexivity.
  - reflexivity.
  - apply List.Forall_cons; [|apply List.Forall_nil].
    split; [discriminate|].
    apply list_elem_of_In. vm_compute.
    repeat (first [left; reflexivity | right]).
  - apply List.Forall_cons; [|apply List.Forall_nil].
    split; [discriminate|].
    apply list_elem_of_In. vm_compute.
    repeat (first [left; reflexivity | right]).
  - reflexivity.
  - reflexivity.
  - intros Hin. apply list_elem_of_In in Hin. vm_compute in Hin.
    repeat (destruct Hin as [Hin|Hin]; [discriminate Hin|]). done.
  - exists env. split; [exact Hmake|].
    apply Htype; [reflexivity|].
    apply List.Forall_cons; [|apply List.Forall_nil]. discriminate.
Defined.

(** X28.  The values of all [Cookie] and [Cookie2] header lines, in any
    case and wherever they stand among the other headers, are joined
    with ["; "] in the order of the lines and passed as [HTTP_COOKIE];
    without such a line the key is absent. *)
Theorem cookies_joined (inp : bytes) (host port : pyval)
    (mount method url protocol : str)
    (lines : list bytes) (blank : bytes) (rest : list bytes) :
  str_split " " (decode_latin1 (hd [] (readlines inp)))
  = [method; url; protocol] →
  tl (readlines inp) = lines ++ blank :: rest →
  Forall well_formed lines →
  bytes_strip blank = [] →
  ∃ env : environ,
    make_environ inp host port (PyStr mount) = Ok env
    ∧ env !! "HTTP_COOKIE"
      = match cookie_values lines with
        | [] => None
        | cs => Some (EnvStr (str_join "; " cs))
        end.
Proof.
  intros Hline Hlines Hwf Hblank.
  destruct (header_loop_block lines blank rest no_headers Hwf Hblank)
    as (hv & Hloop & _ & _ & _ & Hcookies).
  rewrite <- Hlines in Hloop.
  destruct (make_environ_headers inp host port mount method url protocol
              hv rest Hline Hloop) as (env & Hmake & _ & _ & _ & Hcookie).
  exists env. split; [done|].
  rewrite Hcookie, Hcookies. done.
Qed.

Lemma cookies_joined_witness :
  ∃ env : environ,
    make_environ HeaderExamples.cookie_request Examples.example_test
      (PyInt 80) (PyStr "") = Ok env
    ∧ env !! "HTTP_COOKIE" = Some (EnvStr "a=1; b=2").
Proof.
  apply (cookies_joined HeaderExamples.cookie_request
           Examples.example_test (PyInt 80) "" "GET" "/"
           (String.append "HTTP/1.1" crlf)
           [HeaderExamples.cookie_line; HeaderExamples.host_line;
            HeaderExamples.cookie2_line] Examples.CRLF []).
  - reflexivity.
  - reflexivity.
  - repeat (apply List.Forall_cons;
              [split; [discriminate|];
               apply list_elem_of_In; vm_compute;
               repeat (first [left; reflexivity | right])|]).
    apply List.Forall_nil.
  - reflexivity.
Defined.
